(* ===== verification/_CoqProject ===== *)
-Q . S2P
Prelude.v
JsValue.v
JsNumber.v
Display.v
Api.v
Session.v
Routes.v
Navbar.v
BookDetail.v
Home.v
BookCard.v
BookForm.v
Profile.v
App.v
