(* ===== verification/Prelude.v ===== *)
(** * BookReview client: a verification development

    The repository is a React single-page client for a book-review catalog
    (src/src/...).  All persistence lives in a remote HTTP API; the client
    builds requests, keeps a session, guards routes and sequences API calls
    from its pages.  This development models that client in Rocq.

    ** The program and how its parts interact

    - API client ([src/src/utils/api.ts]): [getHeaders] and the eleven
      methods of the [api] object.  Each method builds one HTTP request and
      turns the response into a resolved JSON value or a thrown error.
    - Session store ([AuthContext], imported by App.tsx, Navbar.tsx and the
      pages but not under src/): the user and bearer token, persisted in
      local storage.  It is modelled from spec.md section 4.1.
    - Route table and route guard ([src/src/App.tsx]): the seven routes and
      [ProtectedRoute], which redirects to /login without a session.
    - Navigation bar ([src/src/components/Navbar.tsx]): the buttons shown
      for a session, and logout.
    - Book detail page ([src/src/pages/BookDetail.tsx]): loading a book,
      the review form (create or edit), deleting reviews and books, and
      the derived flags [userReview] and [canReview].
    - Home page ([src/src/pages/Home.tsx]): the paginated book list, its
      [loadBooks], the effect that reloads when [currentPage] changes, and
      the previous, numbered and next buttons.
    - Book form ([src/src/pages/BookForm.tsx]): adding a book, or editing
      one after copying its fields from [getBook]; the year is read with
      [parseInt] and checked by the browser as a number input.
    - Profile page ([src/src/pages/Profile.tsx]): [loadProfile], the two
      bar charts of rating counts, and the lists of books and reviews.
    - Book card ([src/src/components/BookCard.tsx]): one card of the home
      page's grid, with its texts, its rating label, its cover image with
      an [onError] fallback, and the click that opens the book.

    - Application shell ([src/src/App.tsx]): [App] puts the session
      provider around [AppContent], which shows the bar above the routes.

    The pages read the session through [useAuth()] and call the API client.
    The route guard reads the session.  Calls are asynchronous: a handler
    starts a request, and the response arrives later as a separate event.

    ** Files

    - [Prelude]: this header, the scope [book_scope], the hint database
      [book], the tactics, and lemmas on lists, options and decimal strings.
    - [JsValue]: the JavaScript values that flow through the client (JSON
      bodies, [undefined]), with truthiness, [||], property access, strict
      equality and [String(v)].
    - [JsNumber] (Module [JsNumber]): [parseInt] with its default radix,
      the value of an HTML number input ([parse_float] gives an exact
      [n * 10 ^ e]), and [ToNumber], [Math.max] and division on numbers
      [num] (a rational, [NaN] or an infinity), with the roundtrip of
      decimal numerals and the bounds of [Math.max].
    - [Display] (Module [Display]): what the card, the detail page and the
      profile render from JSON fields: React's text of a child (an object
      throws), the rating label, the five stars, the [src] attribute, and
      an image whose [onError] assigns a fallback, as a machine over the
      browser's fetches ([img_step]).
    - [Api] (Module [Api]): requests, responses, the error normalisation of
      every method, URLs and the bearer header.
    - [Session] (Module [Session]): the session record, the storage map (a
      stdpp [gmap]), login, signup, logout and restore, and the context
      value [auth_ctx] that [useAuth()] hands to every consumer.  The
      well-formedness [ctx_wf] is the interface between the store and its
      readers: the readers' theorems assume it and the store proves it.
    - [Routes] (Module [Routes]): the route table as App.tsx writes it
      ([app_routes], each [path] read as a pattern of literal and [:id]
      segments), matched entry by entry ([first_match], [match_path]),
      [ProtectedRoute] and the guard ([guard]); [match_route], the table
      compiled by hand, is a proof device equal to [first_match].
    - [Navbar] (Module [Navbar]): the buttons of the navigation bar per
      session and the effects of their [onClick] handlers, run against the
      session store and the guard.
    - [BookDetail] (Module [BookDetail]): the page state, one definition
      per handler, the render-time flags, the texts of the header and of
      each review (a throw there crashes the page), the cover with its
      fallback, and a step function over events
      (user actions and responses of pending requests) with its
      reachability relation.
    - [Home] (Module [Home]): the four hooks of the book list, [loadBooks]
      split at its [await], the [currentPage] effect with the dependency of
      its last run ([h_effect_page]), a step function [hstep] that applies
      an event then runs the effect, and a Section [Server] that answers
      the requests in flight with a server given as a function ([serve],
      [serve_until]).
    - [BookCard] (Module [BookCard]): the props Home passes to a card
      ([card_props]: [book._id], then the spread of the item), React's
      rendering of children ([react_child]: an object throws), the rating
      label with [> 0] and [toFixed(1)], the cover image as a machine
      over the browser's fetches ([img_step]), the [Book] interface of
      Home.tsx as a typing judgement ([book_typed]), and the home page
      driven by a server that sends typed lists ([treachable]).
    - [BookForm] (Module [BookForm]): the eight hooks, the prefill written
      statement by statement with [try_set] (a throw keeps what was set),
      [bookData] as [JSON.stringify] sends it, the form's constraint
      validation, and a step function [fstep] with reachability.  The
      browser's check of the [type="url"] field is a Section variable.
    - [Profile] (Module [Profile]): the five hooks, [loadProfile] split at
      its [await], [render] with the bar widths computed exactly
      ([rating_bars]) and the items of the three lists ([book_item],
      [given_item], [received_item]), and the clicks that navigate to a
      book.
    - [App] (Module [App]): [AppContent] and [App], the app as a machine
      over the location and the session store ([app_step]: visits, clicks
      on the bar, login, signup, reload), where a rendered [<Navigate>]
      moves the location ([follow_redirect]), and its reachable states.

    ** Theorems

    - API: every method resolves with the body on a 2xx response with a
      JSON body, and normalises errors the way its code does (server
      message, fallback message or fixed message); the bearer header
      carries the token verbatim exactly when the token is non-empty; the
      query string of the book list parses back to its page and limit.
    - Session: every operation keeps user and token both present or both
      absent; the store refines a deterministic contract on "who is
      logged in" (a successful answer logs its user in, a failed one and
      a restart keep the session, logout clears it); login success
      authenticates and persists; a failed login leaves the store
      untouched; a reload restores the session.
    - App: every reachable state of the whole app shows no pending
      redirect, shows a protected page only to an authenticated session,
      and is left unchanged by a reload.
    - Routes: no pathname matches two entries of the table, so
      react-router's ranking and the first match agree; a protected route
      is allowed iff the session is
      authenticated; every button of the navigation bar leads to a path
      the guard allows.
    - Book detail: the owner or an existing reviewer never sees the review
      form; submitting in edit mode calls update and leaves edit mode; a
      failed load shows "Book not found" after one call; a failed review
      deletion alerts and does not re-fetch; the edit button of a review
      never shows the form, and a reachable sequence of events puts the form
      in update mode for a review that no longer exists; the edit button
      of the book leads, through the route table and the guard, to the
      edit form of the same book, which loads it.
    - Home: exactly one [getBooks], for the current page, is in flight
      while the spinner shows and none otherwise; the spec's scenario (a
      page returned with its own number highlights that number and no other
      page); the buttons keep the page within [1..totalPages]; loading
      settles within two answers when the server echoes the page it
      reports, and never settles when it never does; a second page that
      empties leaves the page with no pagination and no applicable event.
    - Book form: editing a book sends its fields and year back unchanged;
      a save is in flight exactly while [loading] is set, so at most one;
      a submission goes to [updateBook] in edit mode and [createBook]
      otherwise; a settled save navigates home or shows its error; any
      year typed in exponent form [m e k] ([1e3], [2e3]) passes validation
      and is sent as its mantissa [m]; a missing
      year stops the prefill half-way; an emptied cover URL is not sent.
    - Profile: under the route guard, mounting sends one [getProfile] and
      the spinner always ends; bar widths stay within 0-100 percent and
      the largest count fills its bar; statistics without a distribution
      crash the page, and so does a given review whose book is gone.
    - Book card: type soundness of the home page (when the server sends
      lists of [Book]s, no reachable state renders a non-array list or a
      card that throws); a click on a card opens that book's detail page;
      the cover image (of a card and of the detail page) settles iff its
      source or the fallback loads, and otherwise [onError] refetches the
      fallback forever.

    ** Bounds and modelling choices

    JavaScript numbers are modelled as [Z] (the client only handles
    integral page numbers, ratings and years); a [NaN] from [parseInt] is
    [None], and is sent as [null] as [JSON.stringify] does.  The strings
    of a number input are kept exact, as an integer and a power of ten.  Responses are modelled by status and by an optional JSON
    body ([None] when the body is not JSON).  Every handler is a total
    function and every recursion is structural.  The only fuel is the
    number of server answers given to [Home.serve_until]: two answers are
    enough when the server echoes its reported page (one for the request,
    one for the single refetch the effect can make), and no number is
    enough when it never does; both facts are theorems.  [BookCard.img_run]
    counts the browser's fetches of a cover image; its theorem quantifies
    over every count.  Since numbers are integers, [toFixed(1)] of a
    rating is its digits followed by [.0].

    ** Not modelled

    Styling and layout (JSX markup), the theme context, the Login and
    Signup pages (not under src/), react-router's history, and the browser
    [fetch] itself (its result is an input of the model).  The text of a
    date ([toLocaleDateString], which never throws) is not modelled. *)

From Stdlib Require Import ZArith Lia Ascii DecimalString DecimalZ DecimalPos.
From stdpp Require Import base list strings.

Declare Scope book_scope.
Delimit Scope book_scope with book.

Create HintDb book.
Create Rewrite HintDb book_rw.

(** ** Tactics *)

Ltac invc H := inversion H; subst; clear H.

(** Split on the boolean guards a handler tests, and break the guards
    that hold into their conjuncts. *)
Ltac case_guards :=
  repeat match goal with
  | |- context [if ?b then _ else _] => destruct b eqn:?
  end;
  repeat match goal with
  | H : _ && _ = true |- _ => apply andb_prop in H as [? ?]
  | H : negb _ = true |- _ => apply negb_true_iff in H
  end.

(** ** Definitions shared by the components *)

(** Decimal printing of integers, as [String(n)] prints an integral
    JavaScript number, and the parser that reads it back. *)
Definition dec_of_Z (z : Z) : string := NilZero.string_of_int (Z.to_int z).

Definition Z_of_dec (s : string) : option Z :=
  option_map Z.of_int (NilZero.int_of_string s).

Fixpoint all_chars (p : Ascii.ascii -> bool) (s : string) : bool :=
  match s with
  | EmptyString => true
  | String c s' => p c && all_chars p s'
  end.

(** [s] does not contain the character [c]. *)
Definition char_free (c : Ascii.ascii) (s : string) : bool :=
  all_chars (fun d => negb (Ascii.eqb d c)) s.

(** [s.split(c)]. *)
Fixpoint split_on (c : Ascii.ascii) (s : string) : list string :=
  match s with
  | EmptyString => [EmptyString]
  | String d s' =>
      if Ascii.eqb d c then EmptyString :: split_on c s'
      else match split_on c s' with
           | [] => [String d EmptyString]
           | w :: ws => String d w :: ws
           end
  end.

(** The part before the first [c] and, when there is one, the part after. *)
Fixpoint break_at (c : Ascii.ascii) (s : string) : string * option string :=
  match s with
  | EmptyString => (EmptyString, None)
  | String d s' =>
      if Ascii.eqb d c then (EmptyString, Some s')
      else let '(a, b) := break_at c s' in (String d a, b)
  end.

(** Decimal numerals are made of digits and a minus sign. *)
Definition is_numeral_char (ch : Ascii.ascii) : bool :=
  Ascii.eqb ch "-" || (Ascii.leb "0" ch && Ascii.leb ch "9").

(** The requests in flight whose continuation satisfies [p]. *)
Definition count_pending {A C} (p : C -> bool) (l : list (A * C)) : nat :=
  length (List.filter (fun x => p (snd x)) l).

(** ** Strings *)

Lemma string_eqb_refl (s : string) : String.eqb s s = true.
Proof. apply String.eqb_refl. Qed.

Lemma string_eqb_true (s t : string) : String.eqb s t = true -> s = t.
Proof. apply String.eqb_eq. Qed.

Lemma string_eqb_false (s t : string) : s <> t -> String.eqb s t = false.
Proof. apply String.eqb_neq. Qed.

#[export] Hint Resolve string_eqb_refl string_eqb_false : book.
#[export] Hint Rewrite string_eqb_refl : book_rw.

(** ** Decimal numerals *)

Lemma Z_to_int_not_nil (z : Z) :
  Z.to_int z <> Decimal.Pos Decimal.Nil /\ Z.to_int z <> Decimal.Neg Decimal.Nil.
Proof.
  destruct z as [|p|p]; cbn; split; try discriminate;
    intros H; injection H; apply Unsigned.to_uint_nonnil.
Qed.

Lemma Z_of_dec_of_Z (z : Z) : Z_of_dec (dec_of_Z z) = Some z.
Proof.
  unfold Z_of_dec, dec_of_Z. destruct (Z_to_int_not_nil z) as [H1 H2].
  rewrite NilZero.isi by assumption. cbn. f_equal. apply DecimalZ.of_to.
Qed.

#[export] Hint Rewrite Z_of_dec_of_Z : book_rw.

(** stdpp makes [String.append] opaque to [simpl]; [string_app_cons]
    is its defining equation. *)
Lemma string_app_cons (c : Ascii.ascii) (s t : string) :
  String c s +:+ t = String c (s +:+ t).
Proof. reflexivity. Qed.

Lemma string_app_nil_l (s : string) : "" +:+ s = s.
Proof. reflexivity. Qed.

#[export] Hint Rewrite string_app_cons string_app_nil_l : book_rw.

Lemma string_app_assoc (s t u : string) : (s +:+ t) +:+ u = s +:+ (t +:+ u).
Proof. induction s as [|c s IH]; [done|]. by rewrite !string_app_cons, IH. Qed.

Lemma string_app_nil_r (s : string) : s +:+ "" = s.
Proof. induction s as [|c s IH]; [done|]. by rewrite string_app_cons, IH. Qed.

#[export] Hint Rewrite string_app_assoc string_app_nil_r : book_rw.

(** ** Lists *)

Lemma find_None_forall {A} (f : A -> bool) (l : list A) :
  List.find f l = None <-> (forall x, In x l -> f x = false).
Proof.
  split; [apply List.find_none|].
  induction l as [|x l IH]; intros H; cbn; [done|].
  rewrite (H x (or_introl eq_refl)). apply IH. intros y Hy. apply H. by right.
Qed.

Lemma find_Some_of_In {A} (f : A -> bool) (l : list A) (x : A) :
  In x l -> f x = true -> exists y, List.find f l = Some y.
Proof.
  intros Hin Hx. destruct (List.find f l) as [y|] eqn:E; [by eauto|].
  rewrite (proj1 (find_None_forall f l) E x Hin) in Hx. discriminate.
Qed.

Lemma find_None_existsb {A} (f : A -> bool) (l : list A) :
  List.find f l = None <-> List.existsb f l = false.
Proof.
  induction l as [|x l IH]; cbn; [done|].
  destruct (f x); [split; discriminate|done].
Qed.

Lemma count_pending_app {A C} (p : C -> bool) (l : list (A * C)) x :
  count_pending p (l ++ [x]) = count_pending p l + (if p (snd x) then 1 else 0).
Proof.
  unfold count_pending. induction l as [|y l IH]; cbn.
  - by destruct (p (snd x)).
  - destruct (p (snd y)); cbn; lia.
Qed.

Lemma count_pending_delete {A C} (p : C -> bool) (l : list (A * C)) i x :
  l !! i = Some x -> count_pending p l = count_pending p (delete i l) + (if p (snd x) then 1 else 0).
Proof.
  unfold count_pending. revert i. induction l as [|y l IH]; intros [|i] H; try discriminate.
  - change (Some y = Some x) in H. injection H as ->.
    change (delete 0 (x :: l)) with l. cbn [List.filter]. destruct (p (snd x)); cbn; lia.
  - change (l !! i = Some x) in H. change (delete (S i) (y :: l)) with (y :: delete i l).
    cbn [List.filter]. destruct (p (snd y)); cbn [length]; rewrite (IH i H); lia.
Qed.

(** ** Splitting strings on a separator (query strings, paths) *)

Lemma all_chars_app p (s t : string) :
  all_chars p (s +:+ t) = all_chars p s && all_chars p t.
Proof.
  induction s as [|c s IH]; [done|].
  rewrite string_app_cons. cbn. rewrite IH. apply andb_assoc.
Qed.

Lemma split_on_free c s : char_free c s = true -> split_on c s = [s].
Proof.
  unfold char_free. induction s as [|d s IH]; [done|]. cbn [split_on all_chars].
  destruct (Ascii.eqb d c); [done|]. cbn. intros H. by rewrite IH.
Qed.

Lemma split_on_sep c s t :
  char_free c s = true -> split_on c (s +:+ String c t) = s :: split_on c t.
Proof.
  unfold char_free. induction s as [|d s IH];
    rewrite ?string_app_nil_l, ?string_app_cons; cbn [split_on break_at all_chars].
  - by rewrite Ascii.eqb_refl.
  - destruct (Ascii.eqb d c); [done|]. cbn [negb andb]. intros H. by rewrite IH.
Qed.

Lemma break_at_sep c s t :
  char_free c s = true -> break_at c (s +:+ String c t) = (s, Some t).
Proof.
  unfold char_free. induction s as [|d s IH];
    rewrite ?string_app_nil_l, ?string_app_cons; cbn [split_on break_at all_chars].
  - by rewrite Ascii.eqb_refl.
  - destruct (Ascii.eqb d c); [done|]. cbn [negb andb]. intros H. by rewrite IH.
Qed.

Lemma char_free_app c s t :
  char_free c (s +:+ t) = char_free c s && char_free c t.
Proof. apply all_chars_app. Qed.

Lemma char_free_cons c d s :
  char_free c (String d s) = negb (Ascii.eqb d c) && char_free c s.
Proof. reflexivity. Qed.

#[export] Hint Rewrite char_free_app char_free_cons : book_rw.

Lemma uint_numeral (d : Decimal.uint) :
  all_chars is_numeral_char (NilEmpty.string_of_uint d) = true.
Proof. induction d; cbn; auto. Qed.

Lemma uint_numeral_nilzero (d : Decimal.uint) :
  all_chars is_numeral_char (NilZero.string_of_uint d) = true.
Proof. destruct d; [done|..]; apply uint_numeral. Qed.

Lemma dec_of_Z_numeral (z : Z) : all_chars is_numeral_char (dec_of_Z z) = true.
Proof.
  unfold dec_of_Z, NilZero.string_of_int.
  destruct (Z.to_int z) as [d|d]; [|cbn [all_chars]]; apply uint_numeral_nilzero.
Qed.

Lemma all_chars_impl (p q : Ascii.ascii -> bool) s :
  (forall c, p c = true -> q c = true) -> all_chars p s = true -> all_chars q s = true.
Proof.
  intros Hpq. induction s as [|c s IH]; cbn; [done|].
  intros [Hc Hs]%andb_prop. by rewrite Hpq, IH.
Qed.

(** A character that is not part of a numeral does not occur in one. *)
Lemma dec_of_Z_char_free (c : Ascii.ascii) (z : Z) :
  is_numeral_char c = false -> char_free c (dec_of_Z z) = true.
Proof.
  intros Hc. eapply all_chars_impl; [|apply dec_of_Z_numeral].
  intros d Hd. destruct (Ascii.eqb_spec d c); subst; [congruence|done].
Qed.
