(* ===== verification/JsValue.v ===== *)
(** JavaScript values as the client sees them: parsed JSON bodies and
    [undefined], with the operations of the language the sources apply to
    them: truthiness ([if (token)], [!userReview]), the [||] operator
    ([error.error || 'Login failed']), property access ([data.books],
    [error.error]), strict equality ([r.userId === user?.id]) and [String(v)]
    (what [new Error(v).message] holds).  Numbers are integral ([Z]). *)

From Stdlib Require Import ZArith.
From stdpp Require Import base list strings.
From S2P Require Import Prelude.

#[warnings="-register-all"]
Inductive jsval : Type :=
| JUndefined
| JNull
| JBool (b : bool)
| JNum (n : Z)
| JStr (s : string)
| JArr (items : list jsval)
| JObj (fields : list (string * jsval)).

(** ToBoolean. *)
Definition truthy (v : jsval) : bool :=
  match v with
  | JUndefined | JNull => false
  | JBool b => b
  | JNum n => negb (Z.eqb n 0)
  | JStr s => negb (String.eqb s "")
  | JArr _ | JObj _ => true
  end.

(** [a || b]: [a] when it is truthy, [b] otherwise. *)
Definition js_or (a b : jsval) : jsval := if truthy a then a else b.

(** [JSON.parse] keeps the last of duplicate keys. *)
Fixpoint assoc_last (k : string) (fs : list (string * jsval)) : option jsval :=
  match fs with
  | [] => None
  | (k', v) :: fs' =>
      match assoc_last k fs' with
      | Some w => Some w
      | None => if String.eqb k k' then Some v else None
      end
  end.

(** [v.k]: reading a property of [null] or [undefined] throws a
    [TypeError] ([None]); a missing property reads as [undefined].  The
    keys the client reads are neither array nor string own properties nor
    inherited ones, so primitives and arrays read as [undefined]. *)
Definition prop (v : jsval) (k : string) : option jsval :=
  match v with
  | JUndefined | JNull => None
  | JObj fs => Some (default JUndefined (assoc_last k fs))
  | _ => Some JUndefined
  end.

(** [v?.k]: optional chaining reads [undefined] on a nullish base. *)
Definition prop_opt (v : jsval) (k : string) : jsval :=
  default JUndefined (prop v k).

(** [a === b].  Two objects or arrays obtained from JSON are distinct
    references, so they are never strictly equal. *)
Definition strict_eq (a b : jsval) : bool :=
  match a, b with
  | JUndefined, JUndefined | JNull, JNull => true
  | JBool x, JBool y => Bool.eqb x y
  | JNum x, JNum y => Z.eqb x y
  | JStr x, JStr y => String.eqb x y
  | _, _ => false
  end.

Notation "a === b" := (strict_eq a b) (at level 70, no associativity) : book_scope.
Open Scope book_scope.

(** [String(v)]: array elements that are [null] or [undefined] print as
    the empty string, and elements are joined by commas. *)
Fixpoint js_to_string (v : jsval) : string :=
  match v with
  | JUndefined => "undefined"
  | JNull => "null"
  | JBool true => "true"
  | JBool false => "false"
  | JNum n => dec_of_Z n
  | JStr s => s
  | JArr items =>
      (fix join (l : list jsval) : string :=
         match l with
         | [] => ""
         | x :: l' =>
             let sx := match x with
                       | JUndefined | JNull => ""
                       | _ => js_to_string x
                       end in
             match l' with
             | [] => sx
             | _ => sx +:+ "," +:+ join l'
             end
         end) items
  | JObj _ => "[object Object]"
  end.

(** A string read from a JSON value, when it is one. *)
Definition as_string (v : jsval) : option string :=
  match v with JStr s => Some s | _ => None end.

(** ** Lemmas *)

Lemma js_or_truthy a b : truthy a = true -> js_or a b = a.
Proof. unfold js_or. by intros ->. Qed.

Lemma js_or_falsy a b : truthy a = false -> js_or a b = b.
Proof. unfold js_or. by intros ->. Qed.

Lemma truthy_str (s : string) : truthy (JStr s) = true <-> s <> "".
Proof.
  cbn. destruct (String.eqb_spec s ""); cbn; split; congruence.
Qed.

Lemma strict_eq_str (s t : string) : (JStr s === JStr t) = true <-> s = t.
Proof. apply String.eqb_eq. Qed.

Lemma strict_eq_sym a b : (a === b) = (b === a).
Proof.
  destruct a, b; cbn; try done.
  - by destruct b, b0.
  - apply Z.eqb_sym.
  - apply String.eqb_sym.
Qed.

Lemma prop_obj_single k v : prop (JObj [(k, v)]) k = Some v.
Proof. cbn. by rewrite String.eqb_refl. Qed.

Lemma js_to_string_str s : js_to_string (JStr s) = s.
Proof. reflexivity. Qed.

(** The last binding of [k] in [l1 ++ l2] is in [l2] when [l2] binds it. *)
Lemma assoc_last_app k l1 l2 :
  assoc_last k (l1 ++ l2) = match assoc_last k l2 with Some w => Some w | None => assoc_last k l1 end.
Proof.
  induction l1 as [|[k' v] l1 IH]; cbn; [by destruct (assoc_last k l2)|].
  rewrite IH. by destruct (assoc_last k l2).
Qed.

#[export] Hint Resolve js_or_truthy js_or_falsy : book.
#[export] Hint Rewrite js_or_truthy js_or_falsy using assumption : book_rw.
#[export] Hint Rewrite prop_obj_single js_to_string_str : book_rw.
