(* ===== verification/JsNumber.v ===== *)
(** The number built-ins the pages rely on: [parseInt] with its default
    radix and the value of an [<input type="number">] (the book form), and
    [ToNumber], [Math.max] and division (the rating bars of the profile).
    Numbers are kept exact: a numeral is an integer times a power of ten,
    and a finite number is a rational ([Q]), so no rounding enters the
    model; [-0] is not distinguished from [0]. *)

From Stdlib Require Import ZArith QArith Lia Ascii DecimalString DecimalZ.
From stdpp Require Import base list strings.
From S2P Require Import Prelude JsValue.

Module JsNumber.

Definition is_digit (c : ascii) : bool := Ascii.leb "0" c && Ascii.leb c "9".

Definition hex_digit (c : ascii) : option Z :=
  if is_digit c then Some (Z.of_nat (nat_of_ascii c) - 48)%Z
  else if Ascii.leb "a" c && Ascii.leb c "f" then Some (Z.of_nat (nat_of_ascii c) - 87)%Z
  else if Ascii.leb "A" c && Ascii.leb c "F" then Some (Z.of_nat (nat_of_ascii c) - 55)%Z
  else None.

(** The StrWhiteSpaceChar of the language that occur in ASCII. *)
Definition is_space (c : ascii) : bool :=
  existsb (Ascii.eqb c) [" "; "009"; "010"; "011"; "012"; "013"]%char.

Fixpoint trim_start (s : string) : string :=
  match s with
  | String c s' => if is_space c then trim_start s' else s
  | EmptyString => EmptyString
  end.

(** The longest prefix whose characters satisfy [p], and the rest. *)
Fixpoint span (p : ascii -> bool) (s : string) : string * string :=
  match s with
  | String c s' => if p c then let '(a, b) := span p s' in (String c a, b) else (EmptyString, s)
  | EmptyString => (EmptyString, EmptyString)
  end.

Fixpoint hex_value (acc : Z) (s : string) : option Z :=
  match s with
  | EmptyString => Some acc
  | String c s' => d ← hex_digit c; hex_value (acc * 16 + d)%Z s'
  end.

(** A non-empty run of decimal digits, read in base 10. *)
Definition digits_value (ds : string) : Z := default 0%Z (Z_of_dec ds).

Definition is_hex_char (c : ascii) : bool := bool_decide (is_Some (hex_digit c)).

(** Whether [s] starts with the character [c], and [s] without it. *)
Definition strip_char (c : ascii) (s : string) : bool * string :=
  match s with
  | String d r => if Ascii.eqb d c then (true, r) else (false, s)
  | EmptyString => (false, EmptyString)
  end.

(** The decimal digits at the start of [s], read in base 10. *)
Definition parse_decimal (s : string) : option Z :=
  let '(ds, _) := span is_digit s in
  if String.eqb ds "" then None else Some (digits_value ds).

(** The digits of [parseInt] after its sign: [0x] or [0X] and
    hexadecimal digits, or decimal digits, up to the first character that
    is not one.  [None] is [NaN]. *)
Definition parse_unsigned (s : string) : option Z :=
  match s with
  | String z (String x r) =>
      if Ascii.eqb z "0" && (Ascii.eqb x "x" || Ascii.eqb x "X") then
        let '(hs, _) := span is_hex_char r in
        if String.eqb hs "" then None else hex_value 0 hs
      else parse_decimal s
  | _ => parse_decimal s
  end.

(** [parseInt(s)] with no radix: skip leading white space, read a sign,
    then the digits. *)
Definition parseInt (s : string) : option Z :=
  let s1 := trim_start s in
  let '(neg, s2) := strip_char "-" s1 in
  if neg then option_map Z.opp (parse_unsigned s2)
  else parse_unsigned (snd (strip_char "+" s1)).

(** A valid floating-point number string of HTML, as an exact number
    [n * 10 ^ e]: an optional [-], digits, optionally [.] and digits (one
    of the two runs non-empty), optionally [e] or [E], a sign and digits. *)
Definition parse_float (s : string) : option (Z * Z) :=
  let '(neg, s1) := strip_char "-" s in
  let '(d1, s2) := span is_digit s1 in
  let '(d2, s3) := match strip_char "." s2 with
                   | (true, r) => let '(d, rest) := span is_digit r in
                                  if String.eqb d "" then (EmptyString, s2) else (d, rest)
                   | (false, _) => (EmptyString, s2)
                   end in
  if String.eqb (d1 +:+ d2) "" then None else
  let mant := digits_value (d1 +:+ d2) in
  let n := if neg then Z.opp mant else mant in
  let frac := Z.of_nat (String.length d2) in
  match s3 with
  | EmptyString => Some (n, Z.opp frac)
  | String e r =>
      if Ascii.eqb e "e" || Ascii.eqb e "E" then
        let '(eneg, r1) := strip_char "-" r in
        let r2 := if eneg then r1 else snd (strip_char "+" r) in
        let '(ed, rest) := span is_digit r2 in
        if String.eqb ed "" || negb (String.eqb rest "") then None else
        let ex := digits_value ed in
        Some (n, (if eneg then Z.opp ex else ex) - frac)%Z
      else None
  end.

(** The number [n * 10 ^ e] when it is an integer. *)
Definition integral (ne : Z * Z) : option Z :=
  let '(n, e) := ne in
  if (0 <=? e)%Z then Some (n * 10 ^ e)%Z
  else if (n mod 10 ^ (- e) =? 0)%Z then Some (n / 10 ^ (- e))%Z else None.

(** A [required] number input with [min] and [max] and the default
    [step] of 1 (based at [min]) lets its form submit: its value is a
    valid floating-point number string (any other value is sanitized to
    the empty string, which [required] refuses), an integer, and within
    range. *)
Definition number_input_ok (lo hi : Z) (value : string) : bool :=
  match parse_float value ≫= integral with
  | Some v => (lo <=? v)%Z && (v <=? hi)%Z
  | None => false
  end.

(** The values a number input can report in [e.target.value]. *)
Definition number_input_value (value : string) : bool :=
  String.eqb value "" || bool_decide (is_Some (parse_float value)).

(** JavaScript numbers: finite ones exactly, [NaN], and the two
    infinities ([NInf true] is [-Infinity]). *)
Inductive num := NFin (q : Q) | NNaN | NInf (neg : bool).

Definition Q_of_dec (n e : Z) : Q :=
  if (0 <=? e)%Z then inject_Z (n * 10 ^ e) else Qmake n (Z.to_pos (10 ^ (- e))).

Definition string_rev (s : string) : string :=
  String.string_of_list_ascii (rev (String.list_ascii_of_string s)).

(** White space and line terminators at both ends are ignored. *)
Definition trim (s : string) : string := string_rev (trim_start (string_rev (trim_start s))).

Fixpoint radix_value (radix acc : Z) (s : string) : option Z :=
  match s with
  | EmptyString => Some acc
  | String c s' => d ← hex_digit c; if (d <? radix)%Z then radix_value radix (acc * radix + d)%Z s' else None
  end.

(** StrUnsignedDecimalLiteral: digits, optionally [.] and digits (one of
    the runs non-empty), optionally an exponent; the whole string. *)
Definition parse_js_decimal (u : string) : option (Z * Z) :=
  let '(d1, s2) := span is_digit u in
  let '(d2, s3) := match strip_char "." s2 with
                   | (true, r) => span is_digit r
                   | (false, _) => (EmptyString, s2)
                   end in
  if String.eqb (d1 +:+ d2) "" then None else
  let mant := digits_value (d1 +:+ d2) in
  let frac := Z.of_nat (String.length d2) in
  match s3 with
  | EmptyString => Some (mant, Z.opp frac)
  | String e r =>
      if Ascii.eqb e "e" || Ascii.eqb e "E" then
        let '(eneg, r1) := strip_char "-" r in
        let r2 := if eneg then r1 else snd (strip_char "+" r) in
        let '(ed, rest) := span is_digit r2 in
        if String.eqb ed "" || negb (String.eqb rest "") then None else
        let ex := digits_value ed in
        Some (mant, (if eneg then Z.opp ex else ex) - frac)%Z
      else None
  end.

(** StringToNumber: the empty string is 0; [0x], [0o] and [0b] literals
    are unsigned; otherwise a sign and [Infinity] or a decimal literal. *)
Definition string_to_number (s : string) : num :=
  let t := trim s in
  if String.eqb t "" then NFin 0 else
  let radix_lit := match t with
                   | String z (String x r) =>
                       if Ascii.eqb z "0" then
                         if Ascii.eqb x "x" || Ascii.eqb x "X" then Some (16%Z, r)
                         else if Ascii.eqb x "o" || Ascii.eqb x "O" then Some (8%Z, r)
                         else if Ascii.eqb x "b" || Ascii.eqb x "B" then Some (2%Z, r)
                         else None
                       else None
                   | _ => None
                   end in
  match radix_lit with
  | Some (radix, r) =>
      if String.eqb r "" then NNaN
      else match radix_value radix 0 r with Some v => NFin (inject_Z v) | None => NNaN end
  | None =>
      let '(neg, u) := match strip_char "-" t with
                       | (true, u) => (true, u)
                       | (false, _) => (false, snd (strip_char "+" t))
                       end in
      if String.eqb u "Infinity" then NInf neg
      else match parse_js_decimal u with
           | Some (n, e) => NFin (Q_of_dec (if neg then Z.opp n else n) e)
           | None => NNaN
           end
  end.

(** ToNumber; objects and arrays go through their string form. *)
Definition to_number (v : jsval) : num :=
  match v with
  | JUndefined => NNaN
  | JNull => NFin 0
  | JBool b => NFin (if b then 1 else 0)
  | JNum n => NFin (inject_Z n)
  | JStr s => string_to_number s
  | JArr _ | JObj _ => string_to_number (js_to_string v)
  end.

(** [Math.max] of two numbers. *)
Definition num_max (a b : num) : num :=
  match a, b with
  | NNaN, _ | _, NNaN => NNaN
  | NInf false, _ | _, NInf false => NInf false
  | NInf true, x | x, NInf true => x
  | NFin p, NFin q => if Qle_bool p q then NFin q else NFin p
  end.

(** [Math.max(...vs)]: [-Infinity] for no argument. *)
Definition math_max (vs : list jsval) : num := fold_left num_max (map to_number vs) (NInf true).

Definition Qltb (p q : Q) : bool := negb (Qle_bool q p).

Definition num_div (a b : num) : num :=
  match a, b with
  | NNaN, _ | _, NNaN => NNaN
  | NInf _, NInf _ => NNaN
  | NInf sa, NFin q => if Qltb q 0 then NInf (negb sa) else NInf sa
  | NFin _, NInf _ => NFin 0
  | NFin p, NFin q =>
      if Qeq_bool q 0 then (if Qeq_bool p 0 then NNaN else NInf (Qltb p 0)) else NFin (p / q)
  end.

Definition num_mul (a : num) (k : Q) : num :=
  match a with NFin p => NFin (p * k) | x => x end.

(** [Object.values(v)] of what [|| {}] can leave: the values of an object
    (the last of duplicate keys, as [JSON.parse] keeps it), the elements
    of an array, the characters of a string, nothing for other values. *)
Definition object_values (v : jsval) : list jsval :=
  match v with
  | JObj fs => map (fun k => default JUndefined (assoc_last k fs)) (remove_dups (map fst fs))
  | JArr items => items
  | JStr s => map (fun c => JStr (String c EmptyString)) (String.list_ascii_of_string s)
  | _ => []
  end.

(** Lists of numbers, as JSON gives the counts of a distribution. *)
Definition all_nums (l : list jsval) : Prop := Forall (fun v => exists n, v = JNum n) l.

(** ** Lemmas *)

Lemma span_all p s : all_chars p s = true -> span p s = (s, EmptyString).
Proof.
  induction s as [|c s IH]; cbn; [done|]. intros [-> Hs]%andb_prop. by rewrite IH.
Qed.

Lemma uint_digits (d : Decimal.uint) : all_chars is_digit (NilEmpty.string_of_uint d) = true.
Proof. induction d; cbn; auto. Qed.

Lemma uint_digits_nilzero (d : Decimal.uint) : all_chars is_digit (NilZero.string_of_uint d) = true.
Proof. destruct d; [reflexivity|..]; apply uint_digits. Qed.

Lemma nilzero_nonempty (d : Decimal.uint) : NilZero.string_of_uint d <> "".
Proof. destruct d; discriminate. Qed.

(** The decimal numeral of an integer is a run of digits, preceded by
    [-] exactly when the integer is negative, and the digits read back
    as its absolute value. *)
Lemma dec_of_Z_cases (n : Z) :
  exists ds, ds <> "" /\ all_chars is_digit ds = true /\
    ((0 <= n)%Z /\ dec_of_Z n = ds /\ digits_value ds = n \/
     (n < 0)%Z /\ dec_of_Z n = String "-" ds /\ digits_value ds = (- n)%Z).
Proof.
  destruct (Z_to_int_not_nil n) as [H1 H2].
  pose proof (DecimalZ.of_to n) as Hn.
  unfold dec_of_Z, digits_value, Z_of_dec.
  destruct n as [|p|p]; cbn [Z.to_int NilZero.string_of_int] in H1, H2, Hn |- *;
    eexists; (split; [apply nilzero_nonempty|]); (split; [apply uint_digits_nilzero|]).
  1,2: left; pose proof (NilZero.isi _ H1 H2) as Hi; cbn [NilZero.string_of_int] in Hi;
    rewrite Hi; cbn [option_map default]; split; [lia|done].
  right. assert (Hu : Decimal.Pos (Pos.to_uint p) <> Decimal.Pos Decimal.Nil) by congruence.
  pose proof (NilZero.isi _ Hu ltac:(discriminate)) as Hi; cbn [NilZero.string_of_int] in Hi.
  rewrite Hi. cbn [option_map default Z.of_int] in Hn |- *.
  unfold id. split; [apply Pos2Z.neg_is_neg|split; [done|lia]].
Qed.

Lemma digit_neq (c d : ascii) : is_digit c = true -> is_digit d = false -> Ascii.eqb c d = false.
Proof. intros Hc Hd. destruct (Ascii.eqb_spec c d) as [->|]; congruence. Qed.

Lemma space_not_digit (c : ascii) : is_digit c = true -> is_space c = false.
Proof.
  intros Hc. destruct (is_space c) eqn:E; [|done].
  apply existsb_exists in E as (y & Hy & Heq). apply Ascii.eqb_eq in Heq as ->.
  repeat destruct Hy as [<-|Hy]; done.
Qed.

Lemma strip_char_digits (c : ascii) (s : string) :
  is_digit c = false -> all_chars is_digit s = true -> strip_char c s = (false, s).
Proof.
  destruct s as [|d r]; [done|]. cbn. intros Hc [Hd _]%andb_prop. by rewrite (digit_neq d c).
Qed.

Lemma parse_decimal_digits (ds : string) :
  ds <> "" -> all_chars is_digit ds = true -> parse_decimal ds = Some (digits_value ds).
Proof.
  intros Hne Hd. unfold parse_decimal. rewrite span_all by done.
  by rewrite string_eqb_false.
Qed.

Lemma parse_unsigned_digits (ds : string) :
  ds <> "" -> all_chars is_digit ds = true -> parse_unsigned ds = Some (digits_value ds).
Proof.
  intros Hne Hd. rewrite <- parse_decimal_digits by done. unfold parse_unsigned.
  destruct ds as [|z [|x r]]; [done|done|].
  apply andb_prop in Hd as [_ [Hx _]%andb_prop].
  by rewrite (digit_neq x "x"), (digit_neq x "X"), andb_false_r.
Qed.

Lemma all_digits_head (c : ascii) (s : string) : all_chars is_digit (String c s) = true -> is_digit c = true.
Proof. by intros [? _]%andb_prop. Qed.

(** [parseInt] reads back the decimal numeral of every integer. *)
Lemma parseInt_dec_of_Z (n : Z) : parseInt (dec_of_Z n) = Some n.
Proof.
  destruct (dec_of_Z_cases n) as (ds & Hne & Hd & [(_ & -> & Hv) | (_ & -> & Hv)]);
    unfold parseInt.
  - destruct ds as [|c r]; [done|]. cbn [trim_start].
    rewrite (space_not_digit c) by exact (all_digits_head c r Hd).
    rewrite !strip_char_digits by done. cbn [snd]. by rewrite parse_unsigned_digits, Hv.
  - change (trim_start (String "-" ds)) with (String "-" ds).
    change (strip_char "-" (String "-" ds)) with (true, ds). cbv iota beta.
    rewrite parse_unsigned_digits, Hv by done. cbn. f_equal. lia.
Qed.

(** The decimal numeral of every integer is a valid floating-point number
    string, of that integer. *)
Lemma parse_float_dec_of_Z (n : Z) : parse_float (dec_of_Z n) = Some (n, 0%Z).
Proof.
  destruct (dec_of_Z_cases n) as (ds & Hne & Hd & [(_ & -> & Hv) | (_ & -> & Hv)]);
    unfold parse_float;
    [rewrite strip_char_digits by done|change (strip_char "-" (String "-" ds)) with (true, ds)];
    cbv beta iota; rewrite span_all by done; cbn [strip_char]; cbv beta iota; rewrite string_app_nil_r, string_eqb_false by done;
    rewrite Hv; f_equal; f_equal; lia.
Qed.

Lemma span_digits_stop (ds r : string) (c : ascii) :
  all_chars is_digit ds = true -> is_digit c = false ->
  span is_digit (ds +:+ String c r) = (ds, String c r).
Proof.
  induction ds as [|d ds IH]; [rewrite string_app_nil_l; cbn; by intros _ ->|].
  rewrite string_app_cons. cbn. intros [-> Hds]%andb_prop Hc. by rewrite IH.
Qed.

(** The numeral of a non-negative integer: a non-empty run of digits
    that reads back as the integer. *)
Lemma dec_of_Z_nonneg (n : Z) :
  (0 <= n)%Z -> exists ds, dec_of_Z n = ds /\ ds <> "" /\ all_chars is_digit ds = true /\
    digits_value ds = n.
Proof.
  intros Hn. destruct (dec_of_Z_cases n) as (ds & Hne & Hd & [(_ & -> & Hv) | (Hneg & _)]);
    [by exists ds|lia].
Qed.

(** [parseInt] stops at the first character that is not a digit. *)
Lemma parseInt_digits_stop (m : Z) (c : ascii) (r : string) :
  (0 <= m)%Z -> is_digit c = false -> Ascii.eqb c "x" = false -> Ascii.eqb c "X" = false ->
  parseInt (dec_of_Z m +:+ String c r) = Some m.
Proof.
  intros Hm Hc Hx HX. destruct (dec_of_Z_nonneg m Hm) as (ds & -> & Hne & Hd & Hv).
  destruct ds as [|d ds]; [done|]. pose proof (all_digits_head d ds Hd) as Hd0.
  unfold parseInt. rewrite string_app_cons. cbn [trim_start]. rewrite (space_not_digit d Hd0).
  cbn [strip_char]. rewrite (digit_neq d "-"), (digit_neq d "+") by done. cbv beta iota. cbn [snd].
  assert (Hdec : parse_decimal (String d (ds +:+ String c r)) = Some m).
  { unfold parse_decimal. rewrite <- string_app_cons, span_digits_stop by done.
    rewrite string_eqb_false by done. by rewrite Hv. }
  unfold parse_unsigned. destruct ds as [|x ds].
  - rewrite string_app_nil_l, Hx, HX, orb_false_r, andb_false_r. exact Hdec.
  - rewrite string_app_cons. apply andb_prop in Hd as [_ [Hx0 _]%andb_prop].
    rewrite (digit_neq x "x"), (digit_neq x "X"), andb_false_r by done.
    by rewrite <- string_app_cons.
Qed.

(** A numeral with an exponent, [m e k], is the valid floating-point
    number string of [m * 10 ^ k]. *)
Lemma parse_float_exponent (m k : Z) :
  (0 <= m)%Z -> (0 <= k)%Z -> parse_float (dec_of_Z m +:+ String "e" (dec_of_Z k)) = Some (m, k).
Proof.
  intros Hm Hk. destruct (dec_of_Z_nonneg m Hm) as (ds & -> & Hne & Hd & Hv).
  destruct (dec_of_Z_nonneg k Hk) as (es & -> & Hne' & Hd' & Hv').
  destruct ds as [|d ds0]; [done|]. pose proof (all_digits_head _ _ Hd) as Hd0.
  unfold parse_float. rewrite string_app_cons. cbn [strip_char].
  rewrite (digit_neq d "-") by done. cbv beta iota.
  rewrite <- string_app_cons, span_digits_stop by done. cbn [strip_char Ascii.eqb Bool.eqb]. cbv beta iota.
  rewrite string_app_nil_r, string_eqb_false by done. rewrite Hv.
  cbn [Ascii.eqb Bool.eqb orb]. rewrite strip_char_digits by done. cbv beta iota.
  rewrite strip_char_digits by done. cbn [snd]. rewrite span_all by done.
  rewrite string_eqb_false by done. cbn. rewrite Hv'. f_equal. f_equal. lia.
Qed.

Lemma number_input_ok_exponent (lo hi m k : Z) :
  (0 <= m)%Z -> (0 <= k)%Z ->
  number_input_ok lo hi (dec_of_Z m +:+ String "e" (dec_of_Z k)) = (lo <=? m * 10 ^ k)%Z && (m * 10 ^ k <=? hi)%Z.
Proof.
  intros Hm Hk. unfold number_input_ok. rewrite parse_float_exponent by done. cbn.
  by rewrite (proj2 (Z.leb_le 0 k) Hk).
Qed.

Lemma number_input_ok_dec_of_Z (lo hi n : Z) :
  number_input_ok lo hi (dec_of_Z n) = (lo <=? n)%Z && (n <=? hi)%Z.
Proof. unfold number_input_ok. rewrite parse_float_dec_of_Z. cbn. by rewrite Z.mul_1_r. Qed.

Lemma num_max_fin (a : Q) (n : Z) :
  num_max (NFin a) (NFin (inject_Z n)) = NFin (if Qle_bool a (inject_Z n) then inject_Z n else a).
Proof. cbn. by destruct (Qle_bool a _). Qed.

Lemma fold_max_fin (l : list jsval) (a : Q) :
  all_nums l ->
  exists m, fold_left num_max (map to_number l) (NFin a) = NFin m /\ (a <= m)%Q /\
    Forall (fun v => exists n, v = JNum n /\ (inject_Z n <= m)%Q) l /\
    (m = a \/ exists n, In (JNum n) l /\ m = inject_Z n).
Proof.
  revert a. induction l as [|v l IH]; intros a Hl.
  - exists a. split; [done|]. split; [apply Qle_refl|]. split; [constructor|by left].
  - inversion Hl as [|? ? [n ->] Hl']; subst. cbn [map fold_left to_number].
    rewrite num_max_fin.
    destruct (Qle_bool a (inject_Z n)) eqn:E.
    + apply Qle_bool_iff in E. destruct (IH (inject_Z n) Hl') as (m & Hm & Ham & Hall & Hwho).
      exists m. split; [done|]. split; [by apply Qle_trans with (inject_Z n)|].
      split; [constructor; [by exists n|done]|].
      destruct Hwho as [-> | (k & Hk & ->)]; right; [exists n; by split; [left|]|exists k; by split; [right|]].
    + apply not_true_iff_false in E. rewrite Qle_bool_iff in E. apply Qnot_le_lt in E.
      destruct (IH a Hl') as (m & Hm & Ham & Hall & Hwho).
      exists m. split; [done|]. split; [done|].
      split; [constructor; [exists n; split; [done|]|done]|].
      * apply Qle_trans with a; [by apply Qlt_le_weak|done].
      * destruct Hwho as [-> | (k & Hk & ->)]; [by left|right; exists k; by split; [right|]].
Qed.

Lemma math_max_nums (l : list jsval) :
  all_nums l ->
  exists m, math_max (l ++ [JNum 1]) = NFin m /\ (1 <= m)%Q /\
    Forall (fun v => exists n, v = JNum n /\ (inject_Z n <= m)%Q) l /\
    (m = 1%Q \/ exists n, In (JNum n) l /\ m = inject_Z n).
Proof.
  intros Hl. destruct l as [|v l].
  - exists 1%Q. split; [reflexivity|]. split; [apply Qle_refl|]. split; [constructor|by left].
  - inversion Hl as [|? ? [n ->] Hl']; subst. unfold math_max.
    change (map to_number ((JNum n :: l) ++ [JNum 1])) with (NFin (inject_Z n) :: map to_number (l ++ [JNum 1])).
    cbn [fold_left num_max].
    assert (H1 : all_nums (l ++ [JNum 1])) by (apply Forall_app; split; [done|repeat constructor; by exists 1%Z]).
    destruct (fold_max_fin _ (inject_Z n) H1) as (m & Hm & Hnm & Hall & Hwho).
    exists m. split; [exact Hm|].
    apply Forall_app in Hall as [Hall Hone]. inversion Hone as [|? ? (k & Hk1 & Hk) _]; subst.
    injection Hk1 as Hk1. subst k.
    split; [exact Hk|]. split; [constructor; [by exists n|done]|].
    destruct Hwho as [-> | (k' & Hk' & ->)]; [right; exists n; by split; [left|]|].
    apply in_app_iff in Hk' as [Hk' | [[= ->] | []]]; [right; exists k'; by split; [right|]|by left].
Qed.

Lemma width_bounds (q m : Q) : (0 <= q)%Q -> (q <= m)%Q -> (1 <= m)%Q -> (0 <= q / m * 100 <= 100)%Q.
Proof.
  intros Hq Hqm Hm. assert (Hm0 : (0 < m)%Q) by (apply Qlt_le_trans with 1%Q; [reflexivity|done]).
  split.
  - apply Qmult_le_0_compat; [|discriminate]. apply Qle_shift_div_l; [done|]. by rewrite Qmult_0_l.
  - apply (Qle_trans _ (1 * 100)); [|discriminate]. apply Qmult_le_compat_r; [|discriminate].
    apply Qle_shift_div_r; [done|]. by rewrite Qmult_1_l.
Qed.

Lemma assoc_last_in k fs v : assoc_last k fs = Some v -> In (k, v) fs.
Proof.
  induction fs as [|[k' v'] fs IH]; cbn; [done|].
  destruct (assoc_last k fs) as [w|]; [intros [= <-]; right; by apply IH|].
  destruct (String.eqb_spec k k') as [->|]; [intros [= <-]; by left|done].
Qed.

Lemma assoc_last_key k fs : In k (map fst fs) -> exists v, assoc_last k fs = Some v.
Proof.
  induction fs as [|[k' v'] fs IH]; cbn; [done|]. intros Hk.
  destruct (assoc_last k fs) as [w|]; [by eexists|].
  destruct Hk as [-> | Hk]; [rewrite String.eqb_refl; by eexists|].
  destruct (IH Hk) as [w Hw]; discriminate.
Qed.

Lemma object_values_forall (P : jsval -> Prop) fs :
  Forall (fun kv => P (snd kv)) fs -> Forall P (object_values (JObj fs)).
Proof.
  intros Hfs. apply List.Forall_forall. intros v Hv. cbn [object_values] in Hv.
  apply in_map_iff in Hv as (k & <- & Hk). rewrite <- list_elem_of_In, elem_of_remove_dups, list_elem_of_In in Hk.
  destruct (assoc_last_key k fs Hk) as [w Hw]. rewrite Hw. cbn.
  apply assoc_last_in in Hw. exact (proj1 (List.Forall_forall _ _) Hfs (k, w) Hw).
Qed.

Lemma object_values_in k fs v : assoc_last k fs = Some v -> In v (object_values (JObj fs)).
Proof.
  intros Hv. cbn [object_values]. apply in_map_iff. exists k. rewrite Hv. split; [done|].
  rewrite <- list_elem_of_In, elem_of_remove_dups, list_elem_of_In, in_map_iff.
  exists (k, v). split; [done|]. by apply assoc_last_in.
Qed.

End JsNumber.
