(* ===== verification/Display.v ===== *)
(** What the pages render from the JSON they receive, shared by the book
    card ([src/src/components/BookCard.tsx]), the book detail page and the
    profile page: the text of a child expression [{v}] (where an object
    throws), the rating label [averageRating > 0 ?
    averageRating.toFixed(1) : 'N/A'], the row of five stars
    [i < review.rating], the [src] attribute of an image, and an image
    element whose [onError] handler assigns a fallback URL, as a machine
    over the browser's fetches. *)

From Stdlib Require Import ZArith QArith Lia.
From stdpp Require Import base list strings.
From S2P Require Import Prelude JsValue JsNumber.

Open Scope book_scope.

Module Display.
Import JsNumber.

(** The text React renders for a child [{v}]: strings and numbers as
    text, nothing for booleans, [null] and [undefined], the items of an
    array in turn, and an exception for an object. *)
Fixpoint react_child (v : jsval) : option string :=
  match v with
  | JUndefined | JNull | JBool _ => Some ""
  | JNum n => Some (dec_of_Z n)
  | JStr s => Some s
  | JArr items =>
      (fix go (l : list jsval) : option string :=
         match l with
         | [] => Some ""
         | x :: l' => a ← react_child x; b ← go l'; Some (a +:+ b)
         end) items
  | JObj _ => None
  end.

(** [q < x] for a number [x]. *)
Definition num_above (q : Q) (x : num) : bool :=
  match x with
  | NFin p => Qltb q p
  | NInf neg => negb neg
  | NNaN => false
  end.

(** [x > 0] for the number [ToNumber(ToPrimitive(x))]. *)
Definition num_pos (x : num) : bool := num_above 0 x.

(** [Number.prototype.toFixed(1)] on a number of the model (an integer):
    from [10^21] on it gives [ToString(x)]. *)
Definition toFixed1 (n : Z) : string :=
  if (10 ^ 21 <=? Z.abs n)%Z then dec_of_Z n else dec_of_Z n +:+ ".0".

(** [averageRating > 0 ? averageRating.toFixed(1) : 'N/A'] (BookCard.tsx
    line 56); [toFixed] on a value that is not a number throws a
    [TypeError]. *)
Definition rating_label (v : jsval) : option string :=
  if num_pos (to_number v) then
    match v with JNum n => Some (toFixed1 n) | _ => None end
  else Some "N/A".

(** [Array.from({ length: 5 }).map((_, i) => <Star ... i < review.rating ...>)]:
    which of the five stars are filled. *)
Definition stars (rating : jsval) : list bool :=
  map (fun i => num_above (inject_Z i) (to_number rating)) [0; 1; 2; 3; 4]%Z.

(** [src={imageUrl}] (BookCard.tsx line 32): React leaves the attribute
    out for [null], [undefined] and booleans and writes [String(v)]
    otherwise. *)
Definition src_attr (v : jsval) : option string :=
  match v with
  | JUndefined | JNull | JBool _ => None
  | _ => Some (js_to_string v)
  end.

(** *** An image with an [onError] fallback *)

Inductive img := ImgIdle | ImgFetching (url : string) | ImgShown (url : string).

(** The element as mounted: it fetches its source when it has one. *)
Definition img_mount (src : option string) : img :=
  match src with Some u => ImgFetching u | None => ImgIdle end.

Section Image.
(** Whether the browser can fetch and decode the image at a URL. *)
Variable loads : string -> bool.
(** The URL the handler assigns. *)
Variable fallback : string.

(** An empty [src] fails without a fetch. *)
Definition fetch_ok (u : string) : bool := negb (String.eqb u "") && loads u.

(** The [onError] handler, [e.currentTarget.src = fallback]: assigning
    [src], even the value it already has, starts a new fetch. *)
Definition onError (i : img) : img := ImgFetching fallback.

(** The browser finishes the fetch in progress: [load], or [error] and
    the handler. *)
Definition img_step (i : img) : option img :=
  match i with
  | ImgFetching u => Some (if fetch_ok u then ImgShown u else onError i)
  | _ => None
  end.

Fixpoint img_run (n : nat) (i : img) : img :=
  match n with
  | O => i
  | S n' => match img_step i with Some i' => img_run n' i' | None => i end
  end.

Definition img_settled (i : img) : bool :=
  match i with ImgFetching _ => false | _ => true end.
End Image.

(** ** Lemmas *)

Lemma rating_label_num n : is_Some (rating_label (JNum n)).
Proof. unfold rating_label. by destruct (num_pos _). Qed.

Lemma react_child_str s : react_child (JStr s) = Some s.
Proof. reflexivity. Qed.

Lemma Qltb_inject (a b : Z) : Qltb (inject_Z a) (inject_Z b) = (a <? b)%Z.
Proof.
  unfold Qltb. destruct (Qle_bool _ _) eqn:E; cbn.
  - apply Qle_bool_iff in E. rewrite <- Zle_Qle in E. symmetry. apply Z.ltb_ge. lia.
  - apply not_true_iff_false in E. rewrite Qle_bool_iff, <- Zle_Qle in E.
    symmetry. apply Z.ltb_lt. lia.
Qed.

(** The stars of an integer rating: the first [r] are filled. *)
Lemma stars_int (r : Z) : stars (JNum r) = map (fun i => (i <? r)%Z) [0; 1; 2; 3; 4]%Z.
Proof. unfold stars. cbn [to_number num_above map]. by rewrite !Qltb_inject. Qed.

(** A fallback that fails is fetched again and again. *)
Lemma img_run_fallback_fails loads fallback n :
  fetch_ok loads fallback = false ->
  img_run loads fallback n (ImgFetching fallback) = ImgFetching fallback.
Proof. intros H. induction n as [|n IH]; [done|]. cbn [img_run img_step]. by rewrite H. Qed.

(** ** Properties *)

(** C38: an image whose [onError] assigns a fallback (the cover of a book
    card and of the book detail page) settles, shown or given up, only
    when its own source or the fallback can be fetched: when both fail,
    the handler assigns the fallback again after each failure and the
    element fetches it forever. *)
Theorem image_settles_iff (loads : string -> bool) (fallback u : string) :
  (exists n, img_settled (img_run loads fallback n (ImgFetching u)) = true) <->
  fetch_ok loads u = true \/ fetch_ok loads fallback = true.
Proof.
  split.
  - intros [n Hn]. destruct (fetch_ok loads u) eqn:Hu; [by left|right].
    destruct (fetch_ok loads fallback) eqn:Hf; [done|exfalso].
    destruct n as [|n]; [done|]. cbn [img_run img_step] in Hn. rewrite Hu in Hn.
    unfold onError in Hn. by rewrite img_run_fallback_fails in Hn.
  - intros [Hu|Hf]; [exists 1%nat; cbn [img_run img_step]; by rewrite Hu|].
    exists 2%nat. cbn [img_run img_step]. destruct (fetch_ok loads u); [done|].
    unfold onError. cbn [img_step]. by rewrite Hf.
Qed.

End Display.
