(* ===== verification/Api.v ===== *)
(** The API client of [src/src/utils/api.ts].  Each method of the [api]
    object is one definition returning an [api_method]: the request it hands
    to [fetch], and the function that turns what [fetch] produced into the
    promise's result ([Resolved] with the parsed body, or [Rejected] with
    the error thrown).  [fetch] itself is not modelled: its result is the
    input of [am_finish]. *)

From Stdlib Require Import ZArith Lia Ascii.
From stdpp Require Import base list strings.
From S2P Require Import Prelude JsValue.

Open Scope book_scope.

Module Api.

Definition API_BASE_URL : string := "https://book143.onrender.com/api".

Inductive http_method := GET | POST | PUT | DELETE.

Record request := mkRequest {
  req_method : http_method;
  req_url : string;
  req_headers : list (string * string);
  req_body : option jsval  (** the value given to [JSON.stringify] *)
}.

(** A response: its status and its body, [None] when the body is not JSON. *)
Record response := mkResponse { status : Z; body : option jsval }.

(** [res.ok]. *)
Definition res_ok (r : response) : bool := (200 <=? status r)%Z && (status r <=? 299)%Z.

(** What the awaited [fetch(...)] gives: a response, or a rejection when
    the network fails. *)
Inductive fetch_result := NetworkFailure | Received (r : response).

(** What a method's promise rejects with. *)
Inductive failure :=
| FetchFailed            (** [fetch] rejected (a [TypeError]) *)
| BodyNotJson            (** [res.json()] rejected (a [SyntaxError]) *)
| ReadOfNull             (** [error.error] read on a [null] body *)
| Thrown (message : string).  (** [throw new Error(message)] *)

Inductive outcome := Resolved (v : jsval) | Rejected (f : failure).

Record api_method := mkMethod {
  am_request : request;
  am_finish : fetch_result -> outcome
}.

(** [getHeaders(token)], lines 3-13. *)
Definition getHeaders (token : option string) : list (string * string) :=
  ("Content-Type", "application/json") ::
  match token with
  | Some t => if truthy (JStr t) then [("Authorization", "Bearer " +:+ t)] else []
  | None => []
  end.

(** [await res.json()]. *)
Definition await_json (r : response) : outcome :=
  match body r with
  | Some v => Resolved v
  | None => Rejected BodyNotJson
  end.

(** The error path of the methods that read the error body:
    [const error = await res.json(); throw new Error(error.error || fallback)]. *)
Definition throw_body_error (fallback : string) (r : response) : outcome :=
  match body r with
  | None => Rejected BodyNotJson
  | Some e =>
      match prop e "error" with
      | None => Rejected ReadOfNull
      | Some m => Rejected (Thrown (js_to_string (js_or m (JStr fallback))))
      end
  end.

(** The shape of [login], [signup] and the six mutating methods. *)
Definition finish_reading_error (fallback : string) (fr : fetch_result) : outcome :=
  match fr with
  | NetworkFailure => Rejected FetchFailed
  | Received r => if res_ok r then await_json r else throw_body_error fallback r
  end.

(** The shape of [getBooks], [getBook] and [getProfile]:
    [if (!res.ok) throw new Error(message)]. *)
Definition finish_fixed_error (message : string) (fr : fetch_result) : outcome :=
  match fr with
  | NetworkFailure => Rejected FetchFailed
  | Received r => if res_ok r then await_json r else Rejected (Thrown message)
  end.

(** Lines 16-29. *)
Definition login (email password : string) : api_method :=
  mkMethod
    (mkRequest POST (API_BASE_URL +:+ "/auth/login") (getHeaders None)
       (Some (JObj [("email", JStr email); ("password", JStr password)])))
    (finish_reading_error "Login failed").

(** Lines 31-44. *)
Definition signup (username email password : string) : api_method :=
  mkMethod
    (mkRequest POST (API_BASE_URL +:+ "/auth/signup") (getHeaders None)
       (Some (JObj [("username", JStr username); ("email", JStr email);
                    ("password", JStr password)])))
    (finish_reading_error "Signup failed").

(** Lines 46-54: [getBooks(page = 1, limit = 12)], a bare [fetch(url)]
    (method GET, no headers). *)
Definition getBooks (page limit : option Z) : api_method :=
  let page := default 1%Z page in
  let limit := default 12%Z limit in
  mkMethod
    (mkRequest GET (API_BASE_URL +:+ "/books?page=" +:+ dec_of_Z page
                      +:+ "&limit=" +:+ dec_of_Z limit) [] None)
    (finish_fixed_error "Failed to fetch books").

(** Lines 56-64. *)
Definition getBook (id : string) : api_method :=
  mkMethod (mkRequest GET (API_BASE_URL +:+ "/books/" +:+ id) [] None)
    (finish_fixed_error "Failed to fetch book").

(** Lines 66-79. *)
Definition createBook (token : string) (bookData : jsval) : api_method :=
  mkMethod (mkRequest POST (API_BASE_URL +:+ "/books") (getHeaders (Some token)) (Some bookData))
    (finish_reading_error "Failed to create book").

(** Lines 81-94. *)
Definition updateBook (token id : string) (bookData : jsval) : api_method :=
  mkMethod
    (mkRequest PUT (API_BASE_URL +:+ "/books/" +:+ id) (getHeaders (Some token)) (Some bookData))
    (finish_reading_error "Failed to update book").

(** Lines 96-108. *)
Definition deleteBook (token id : string) : api_method :=
  mkMethod (mkRequest DELETE (API_BASE_URL +:+ "/books/" +:+ id) (getHeaders (Some token)) None)
    (finish_reading_error "Failed to delete book").

(** Lines 110-123. *)
Definition createReview (token : string) (reviewData : jsval) : api_method :=
  mkMethod
    (mkRequest POST (API_BASE_URL +:+ "/reviews") (getHeaders (Some token)) (Some reviewData))
    (finish_reading_error "Failed to create review").

(** Lines 125-138. *)
Definition updateReview (token id : string) (reviewData : jsval) : api_method :=
  mkMethod
    (mkRequest PUT (API_BASE_URL +:+ "/reviews/" +:+ id) (getHeaders (Some token))
       (Some reviewData))
    (finish_reading_error "Failed to update review").

(** Lines 140-152. *)
Definition deleteReview (token id : string) : api_method :=
  mkMethod
    (mkRequest DELETE (API_BASE_URL +:+ "/reviews/" +:+ id) (getHeaders (Some token)) None)
    (finish_reading_error "Failed to delete review").

(** Lines 154-164: no method given, so GET. *)
Definition getProfile (token : string) : api_method :=
  mkMethod (mkRequest GET (API_BASE_URL +:+ "/profile") (getHeaders (Some token)) None)
    (finish_fixed_error "Failed to fetch profile").

(** A call of one of the methods, as the pages issue them. *)
Inductive call :=
| CLogin (email password : string)
| CSignup (username email password : string)
| CGetBooks (page limit : option Z)
| CGetBook (id : string)
| CCreateBook (token : string) (bookData : jsval)
| CUpdateBook (token id : string) (bookData : jsval)
| CDeleteBook (token id : string)
| CCreateReview (token : string) (reviewData : jsval)
| CUpdateReview (token id : string) (reviewData : jsval)
| CDeleteReview (token id : string)
| CGetProfile (token : string).

Definition method_of (c : call) : api_method :=
  match c with
  | CLogin e p => login e p
  | CSignup u e p => signup u e p
  | CGetBooks p l => getBooks p l
  | CGetBook id => getBook id
  | CCreateBook t d => createBook t d
  | CUpdateBook t id d => updateBook t id d
  | CDeleteBook t id => deleteBook t id
  | CCreateReview t d => createReview t d
  | CUpdateReview t id d => updateReview t id d
  | CDeleteReview t id => deleteReview t id
  | CGetProfile t => getProfile t
  end.

(** The result of a call, given what [fetch] produced. *)
Definition run (c : call) (fr : fetch_result) : outcome := am_finish (method_of c) fr.

(** The token a call is given, if any. *)
Definition call_token (c : call) : option string :=
  match c with
  | CCreateBook t _ | CUpdateBook t _ _ | CDeleteBook t _ | CCreateReview t _
  | CUpdateReview t _ _ | CDeleteReview t _ | CGetProfile t => Some t
  | _ => None
  end.

(** The calls whose error path reads the response body, and the message
    they fall back to; the others throw a fixed message. *)
Definition error_fallback (c : call) : option string :=
  match c with
  | CLogin _ _ => Some "Login failed"
  | CSignup _ _ _ => Some "Signup failed"
  | CCreateBook _ _ => Some "Failed to create book"
  | CUpdateBook _ _ _ => Some "Failed to update book"
  | CDeleteBook _ _ => Some "Failed to delete book"
  | CCreateReview _ _ => Some "Failed to create review"
  | CUpdateReview _ _ _ => Some "Failed to update review"
  | CDeleteReview _ _ => Some "Failed to delete review"
  | _ => None
  end.

Definition fixed_error (c : call) : string :=
  match c with
  | CGetBooks _ _ => "Failed to fetch books"
  | CGetBook _ => "Failed to fetch book"
  | CGetProfile _ => "Failed to fetch profile"
  | _ => ""
  end.

(** The value of a header, [headers[name]]. *)
Definition header (name : string) (hs : list (string * string)) : option string :=
  snd <$> List.find (fun kv => String.eqb (fst kv) name) hs.

(** How the server reads a query parameter of a URL: the part after the
    first [?], split on [&], each pair split at its first [=]. *)
Definition query_params (url : string) : list (string * string) :=
  match snd (break_at "?"%char url) with
  | None => []
  | Some q => map (fun kv => let '(k, v) := break_at "="%char kv in (k, default "" v))
                  (split_on "&"%char q)
  end.

Definition query_param (url key : string) : option string :=
  snd <$> List.find (fun kv => String.eqb (fst kv) key) (query_params url).

(** ** Lemmas *)

Lemma header_getHeaders_auth (token : option string) :
  header "Authorization" (getHeaders token) =
  match token with
  | Some t => if String.eqb t "" then None else Some ("Bearer " +:+ t)
  | None => None
  end.
Proof. destruct token as [t|]; [|done]. cbn. by destruct (String.eqb t ""). Qed.

Lemma finish_reading_error_ok fb r v :
  res_ok r = true -> body r = Some v -> finish_reading_error fb (Received r) = Resolved v.
Proof. intros Hok Hb. cbn. by rewrite Hok; unfold await_json; rewrite Hb. Qed.

Lemma finish_fixed_error_ok m r v :
  res_ok r = true -> body r = Some v -> finish_fixed_error m (Received r) = Resolved v.
Proof. intros Hok Hb. cbn. by rewrite Hok; unfold await_json; rewrite Hb. Qed.

(** Every method whose error path reads the body is built on
    [finish_reading_error] with its own fallback, and every other method on
    [finish_fixed_error] with its own message. *)
Lemma run_reading_error c fb :
  error_fallback c = Some fb -> run c = finish_reading_error fb.
Proof. destruct c; cbn; intros H; (discriminate || by injection H as <-). Qed.

Lemma run_fixed_error c :
  error_fallback c = None -> run c = finish_fixed_error (fixed_error c).
Proof. destruct c; cbn; intros H; (discriminate || reflexivity). Qed.

Lemma url_getBooks (page limit : Z) :
  req_url (am_request (getBooks (Some page) (Some limit))) =
  (API_BASE_URL +:+ "/books") +:+ String "?"%char
    (("page" +:+ String "="%char (dec_of_Z page)) +:+ String "&"%char
       ("limit" +:+ String "="%char (dec_of_Z limit))).
Proof. cbn. by rewrite !string_app_assoc. Qed.

Lemma params_of_two (k1 v1 k2 v2 : string) :
  char_free "&"%char k1 = true -> char_free "&"%char v1 = true ->
  char_free "&"%char k2 = true -> char_free "&"%char v2 = true ->
  char_free "="%char k1 = true -> char_free "="%char k2 = true ->
  map (fun kv => let '(k, v) := break_at "="%char kv in (k, default "" v))
      (split_on "&"%char ((k1 +:+ String "="%char v1) +:+ String "&"%char (k2 +:+ String "="%char v2)))
  = [(k1, v1); (k2, v2)].
Proof.
  intros Hk1 Hv1 Hk2 Hv2 Ek1 Ek2.
  rewrite split_on_sep by (rewrite char_free_app, char_free_cons, Hk1, Hv1; done).
  rewrite split_on_free by (rewrite char_free_app, char_free_cons, Hk2, Hv2; done).
  cbn [map]. by rewrite !break_at_sep.
Qed.

(** ** Properties *)

(** C15: every method resolves with the parsed body when the status is
    2xx and the body is JSON. *)
Theorem run_resolves_on_ok (c : call) (r : response) (v : jsval) :
  res_ok r = true -> body r = Some v -> run c (Received r) = Resolved v.
Proof.
  intros Hok Hb. destruct (error_fallback c) as [fb|] eqn:E.
  - rewrite (run_reading_error c fb E). by apply finish_reading_error_ok.
  - rewrite (run_fixed_error c E). by apply finish_fixed_error_ok.
Qed.

Lemma run_resolves_on_ok_witness :
  run (CGetBook "b1") (Received (mkResponse 200 (Some (JObj [("title", JStr "Dune")]))))
  = Resolved (JObj [("title", JStr "Dune")]).
Proof. apply run_resolves_on_ok; reflexivity. Defined.

(** C11: a method whose error path reads the body throws the server's
    [error] message when the status is not 2xx and that message is a
    non-empty string. *)
Theorem run_server_error_message (c : call) (fb : string) (r : response)
    (fs : list (string * jsval)) (m : string) :
  error_fallback c = Some fb -> res_ok r = false -> body r = Some (JObj fs) ->
  assoc_last "error" fs = Some (JStr m) -> m <> "" ->
  run c (Received r) = Rejected (Thrown m).
Proof.
  intros Hc Hok Hb He Hm. rewrite (run_reading_error c fb Hc). cbn.
  rewrite Hok. unfold throw_body_error. rewrite Hb. cbn. rewrite He. cbn.
  by rewrite js_or_truthy by (by apply truthy_str).
Qed.

Lemma run_server_error_message_witness :
  run (CDeleteReview "tok" "r1")
      (Received (mkResponse 403 (Some (JObj [("error", JStr "Not authorized")]))))
  = Rejected (Thrown "Not authorized").
Proof.
  apply (run_server_error_message _ "Failed to delete review" _
           [("error", JStr "Not authorized")]); try reflexivity. discriminate.
Defined.

(** When the body is JSON but its [error] field is missing or falsy,
    the method throws its own fallback message. *)
Theorem run_error_fallback (c : call) (fb : string) (r : response) (e m : jsval) :
  error_fallback c = Some fb -> res_ok r = false -> body r = Some e ->
  prop e "error" = Some m -> truthy m = false ->
  run c (Received r) = Rejected (Thrown fb).
Proof.
  intros Hc Hok Hb He Hm. rewrite (run_reading_error c fb Hc). cbn.
  rewrite Hok. unfold throw_body_error. rewrite Hb, He. by rewrite js_or_falsy.
Qed.

Lemma run_error_fallback_witness :
  run (CLogin "a@b.c" "pw") (Received (mkResponse 500 (Some (JObj []))))
  = Rejected (Thrown "Login failed").
Proof. apply (run_error_fallback _ _ _ (JObj []) JUndefined); reflexivity. Defined.

(** C14: when the error body is not JSON, the methods that read it do not
    fall back to their message: [res.json()] rejects and its [SyntaxError]
    is what the caller sees. *)
Theorem run_error_body_not_json (c : call) (fb : string) (r : response) :
  error_fallback c = Some fb -> res_ok r = false -> body r = None ->
  run c (Received r) = Rejected BodyNotJson.
Proof.
  intros Hc Hok Hb. rewrite (run_reading_error c fb Hc). cbn.
  rewrite Hok. unfold throw_body_error. by rewrite Hb.
Qed.

Lemma run_error_body_not_json_witness :
  run (CCreateReview "tok" (JObj [])) (Received (mkResponse 502 None))
  = Rejected BodyNotJson.
Proof. apply (run_error_body_not_json _ "Failed to create review"); reflexivity. Defined.

(** C13: [getBooks], [getBook] and [getProfile] never read the error body:
    any non-2xx response throws their fixed message. *)
Theorem run_fixed_error_ignores_body (c : call) (r : response) :
  error_fallback c = None -> res_ok r = false ->
  run c (Received r) = Rejected (Thrown (fixed_error c)).
Proof. intros Hc Hok. rewrite (run_fixed_error c Hc). cbn. by rewrite Hok. Qed.

Lemma run_fixed_error_ignores_body_witness :
  run (CGetBook "abc") (Received (mkResponse 404 (Some (JObj [("error", JStr "Book not found")]))))
  = Rejected (Thrown "Failed to fetch book").
Proof. apply run_fixed_error_ignores_body; reflexivity. Defined.

(** C12: a request carries [Authorization: Bearer <token>] with the token
    verbatim exactly when the call is given a non-empty token; an empty
    token is dropped by [if (token)]. *)
Theorem request_bearer_header (c : call) (t : string) :
  call_token c = Some t ->
  header "Authorization" (req_headers (am_request (method_of c))) =
  if String.eqb t "" then None else Some ("Bearer " +:+ t).
Proof.
  destruct c; cbn [call_token]; intros H; try discriminate; injection H as <-;
    apply (header_getHeaders_auth (Some _)).
Qed.

Lemma request_bearer_header_witness :
  header "Authorization" (req_headers (am_request (method_of (CDeleteBook "abc.def" "b1"))))
  = Some "Bearer abc.def".
Proof. apply (request_bearer_header _ "abc.def"). reflexivity. Defined.

(** Calls that are given no token never send an [Authorization] header. *)
Lemma request_no_token_no_header (c : call) :
  call_token c = None -> header "Authorization" (req_headers (am_request (method_of c))) = None.
Proof. destruct c; cbn; intros H; try discriminate; reflexivity. Qed.

(** The query string of [getBooks(page, limit)] reads back, on the
    server side, as exactly that page and limit. *)
Theorem books_query_roundtrip (page limit : Z) :
  let u := req_url (am_request (getBooks (Some page) (Some limit))) in
  (query_param u "page" ≫= Z_of_dec, query_param u "limit" ≫= Z_of_dec) = (Some page, Some limit).
Proof.
  cbv zeta. rewrite url_getBooks. unfold query_param, query_params.
  rewrite break_at_sep by reflexivity. cbn [snd].
  rewrite params_of_two by (reflexivity || apply dec_of_Z_char_free; reflexivity).
  cbn. by rewrite !Z_of_dec_of_Z.
Qed.
End Api.
