(* ===== verification/Session.v ===== *)
(** The session store, [AuthContext].  The client imports it from
    [./context/AuthContext] (App.tsx line 2, Navbar.tsx line 2, the pages),
    but that file is not under src/: this file models it from spec.md
    section 4.1.  The store holds the user and the bearer token in memory
    and mirrors them in local storage under a fixed key; [useAuth()] hands
    every consumer an [auth_ctx].  The abstract contract of the store is
    [abs_step], a deterministic machine on "who is logged in" driven by
    the same events, and [session_step_refines] shows that the store
    implements it. *)

From Stdlib Require Import ZArith.
From stdpp Require Import base list strings gmap.
From S2P Require Import Prelude JsValue Api.

Open Scope book_scope.

Module Session.
Import Api.

Record user := mkUser { user_id : string; username : string; email : string }.

Record session := mkSession { s_user : option user; s_token : option string }.

Definition no_session : session := mkSession None None.

(** The record persisted in local storage. *)
Record persisted := mkPersisted { p_user : user; p_token : string }.

(** The fixed storage key (its spelling is not known; only its being
    fixed matters). *)
Definition STORAGE_KEY : string := "auth".

Record store := mkStore {
  st_session : session;
  st_storage : gmap string persisted
}.

(** User and token are both present or both absent. *)
Definition session_wf (s : session) : bool :=
  match s_user s, s_token s with
  | Some _, Some _ | None, None => true
  | _, _ => false
  end.

(** [isAuthenticated], [!!token]. *)
Definition isAuthenticated (s : session) : bool :=
  match s_token s with Some t => truthy (JStr t) | None => false end.

(** The body of a successful login or signup, [{ user, token }]. *)
Definition decode_user (v : jsval) : option user :=
  i ← prop v "id" ≫= as_string;
  n ← prop v "username" ≫= as_string;
  e ← prop v "email" ≫= as_string;
  Some (mkUser i n e).

Definition decode_auth (v : jsval) : option (user * string) :=
  u ← prop v "user" ≫= decode_user;
  t ← prop v "token" ≫= as_string;
  Some (u, t).

(** Adopt a session: set it in memory and write it to storage. *)
Definition adopt (st : store) (u : user) (t : string) : store :=
  mkStore (mkSession (Some u) (Some t))
          (<[STORAGE_KEY := mkPersisted u t]> (st_storage st)).

Inductive auth_result := AuthOk | AuthError (f : failure) | AuthMalformed.

(** What login and signup do with the API's answer: adopt the session on
    success; on failure surface the error and leave the store untouched.
    A success body that is not [{ user, token }] is treated as a failure. *)
Definition finish_auth (st : store) (o : outcome) : store * auth_result :=
  match o with
  | Resolved v =>
      match decode_auth v with
      | Some (u, t) => (adopt st u t, AuthOk)
      | None => (st, AuthMalformed)
      end
  | Rejected f => (st, AuthError f)
  end.

Definition login (st : store) (email password : string) (fr : fetch_result) : store * auth_result :=
  finish_auth st (run (CLogin email password) fr).

Definition signup (st : store) (name email password : string) (fr : fetch_result)
    : store * auth_result :=
  finish_auth st (run (CSignup name email password) fr).

(** [logout()]: clear memory and storage; no network call. *)
Definition logout (st : store) : store :=
  mkStore no_session (delete STORAGE_KEY (st_storage st)).

(** [restore()]: adopt what storage holds at start-up, without checking
    it against the server. *)
Definition restore (storage : gmap string persisted) : store :=
  mkStore (match storage !! STORAGE_KEY with
           | Some p => mkSession (Some (p_user p)) (Some (p_token p))
           | None => no_session
           end) storage.

(** What storage should hold for a session. *)
Definition persisted_of (s : session) : option persisted :=
  match s_user s, s_token s with
  | Some u, Some t => Some (mkPersisted u t)
  | _, _ => None
  end.

(** Storage mirrors memory. *)
Definition store_sync (st : store) : Prop :=
  st_storage st !! STORAGE_KEY = persisted_of (st_session st).

(** ** The context value handed to consumers by [useAuth()] *)

Record auth_ctx := mkCtx {
  ctx_user : option user;
  ctx_token : option string;
  ctx_isAuthenticated : bool
}.

Definition ctx_of (s : session) : auth_ctx :=
  mkCtx (s_user s) (s_token s) (isAuthenticated s).

(** What the store promises every reader of the context: the flag is the
    truthiness of the token, and there is a user exactly when there is a
    token.  The readers' theorems assume this, [ctx_of_wf] discharges it. *)
Definition ctx_wf (c : auth_ctx) : Prop :=
  ctx_isAuthenticated c = match ctx_token c with Some t => truthy (JStr t) | None => false end /\
  (is_Some (ctx_user c) <-> is_Some (ctx_token c)).

(** The id a reader compares against, [user?.id]. *)
Definition ctx_user_id (c : auth_ctx) : jsval :=
  match ctx_user c with Some u => JStr (user_id u) | None => JUndefined end.

(** ** The store as a machine *)

Inductive event :=
| ELogin (email password : string) (fr : fetch_result)
| ESignup (name email password : string) (fr : fetch_result)
| ELogout
| ERestart.   (** the process restarts and restores from storage *)

Definition session_step (st : store) (ev : event) : store :=
  match ev with
  | ELogin e p fr => fst (login st e p fr)
  | ESignup n e p fr => fst (signup st n e p fr)
  | ELogout => logout st
  | ERestart => restore (st_storage st)
  end.

(** The states a process reaches: it starts by restoring whatever storage
    holds, then handles events. *)
Inductive reachable : store -> Prop :=
| reach_start storage : reachable (restore storage)
| reach_step st ev : reachable st -> reachable (session_step st ev).

(** ** The abstract contract (spec.md 4.1): who is logged in.  A login
    or signup that the server answers with [{ user, token }] logs that
    user in; any other answer leaves the session untouched; logout
    clears it; a restart of the process keeps it. *)

Definition abs (st : store) : option (user * string) :=
  match s_user (st_session st), s_token (st_session st) with
  | Some u, Some t => Some (u, t)
  | _, _ => None
  end.

(** The credentials a successful answer of the authentication call
    carries, if it is one. *)
Definition auth_answer (c : call) (fr : fetch_result) : option (user * string) :=
  match run c fr with Resolved v => decode_auth v | Rejected _ => None end.

Inductive abs_step : option (user * string) -> event -> option (user * string) -> Prop :=
| abs_login_ok a e p fr ut :
    auth_answer (CLogin e p) fr = Some ut -> abs_step a (ELogin e p fr) (Some ut)
| abs_login_fail a e p fr :
    auth_answer (CLogin e p) fr = None -> abs_step a (ELogin e p fr) a
| abs_signup_ok a n e p fr ut :
    auth_answer (CSignup n e p) fr = Some ut -> abs_step a (ESignup n e p fr) (Some ut)
| abs_signup_fail a n e p fr :
    auth_answer (CSignup n e p) fr = None -> abs_step a (ESignup n e p fr) a
| abs_logout a : abs_step a ELogout None
| abs_restart a : abs_step a ERestart a.

(** ** Lemmas *)

Lemma finish_auth_cases st o :
  (exists u t, finish_auth st o = (adopt st u t, AuthOk)) \/ fst (finish_auth st o) = st.
Proof.
  destruct o as [v|f]; cbn; [|by right].
  destruct (decode_auth v) as [[u t]|]; [left; by eauto|by right].
Qed.

Lemma adopt_wf_sync st u t :
  session_wf (st_session (adopt st u t)) = true /\ store_sync (adopt st u t).
Proof. split; [done|]. unfold store_sync. cbn. apply lookup_insert_eq. Qed.

Lemma logout_wf_sync st :
  session_wf (st_session (logout st)) = true /\ store_sync (logout st).
Proof. split; [done|]. unfold store_sync. cbn. apply lookup_delete_eq. Qed.

Lemma restore_wf_sync storage :
  session_wf (st_session (restore storage)) = true /\ store_sync (restore storage).
Proof.
  unfold store_sync, restore. cbn [st_session st_storage].
  by destruct (storage !! STORAGE_KEY) as [[u t]|].
Qed.

Lemma finish_auth_wf_sync st o :
  session_wf (st_session st) = true -> store_sync st ->
  session_wf (st_session (fst (finish_auth st o))) = true /\ store_sync (fst (finish_auth st o)).
Proof.
  intros Hwf Hs. destruct (finish_auth_cases st o) as [(u & t & ->) | ->]; [|done].
  apply adopt_wf_sync.
Qed.

Lemma session_step_wf_sync st ev :
  session_wf (st_session st) = true -> store_sync st ->
  session_wf (st_session (session_step st ev)) = true /\ store_sync (session_step st ev).
Proof.
  intros Hwf Hs. destruct ev; cbn [session_step].
  - by apply finish_auth_wf_sync.
  - by apply finish_auth_wf_sync.
  - apply logout_wf_sync.
  - apply restore_wf_sync.
Qed.

Lemma restore_synced st :
  session_wf (st_session st) = true -> store_sync st -> restore (st_storage st) = st.
Proof.
  destruct st as [[[u|] [t|]] storage]; unfold store_sync, restore; cbn;
    intros Hwf Hs; try discriminate; by rewrite Hs.
Qed.

Lemma ctx_of_wf (s : session) : session_wf s = true -> ctx_wf (ctx_of s).
Proof.
  destruct s as [[u|] [t|]]; cbn; intros H; try discriminate;
    (split; [done|]); split; intros [x Hx]; try discriminate; by eexists.
Qed.

(** What [finish_auth] does to who is logged in. *)
Lemma abs_finish_auth st c fr :
  abs (fst (finish_auth st (run c fr))) =
  match auth_answer c fr with Some ut => Some ut | None => abs st end.
Proof.
  unfold auth_answer. destruct (run c fr) as [v|f]; cbn; [|done].
  by destruct (decode_auth v) as [[u t]|].
Qed.

(** The contract is a function: each state and event has one successor. *)
Lemma abs_step_det a ev b c : abs_step a ev b -> abs_step a ev c -> b = c.
Proof. intros H1 H2. inversion H1; inversion H2; congruence. Qed.

Lemma abs_adopt st u t : abs (adopt st u t) = Some (u, t).
Proof. reflexivity. Qed.

Lemma reachable_inv st : reachable st -> session_wf (st_session st) = true /\ store_sync st.
Proof.
  induction 1 as [storage|st ev _ [Hwf Hs]].
  - apply restore_wf_sync.
  - by apply session_step_wf_sync.
Qed.

(** ** Properties *)

(** C8: in every state the process reaches, user and token are both
    present or both absent, and local storage holds exactly the in-memory
    session. *)
Theorem reachable_wf_sync (st : store) :
  reachable st -> session_wf (st_session st) = true /\ store_sync st.
Proof. apply reachable_inv. Qed.

Lemma reachable_wf_sync_witness :
  reachable (session_step (restore ∅) ELogout) /\
  session_wf (st_session (session_step (restore ∅) ELogout)) = true /\
  store_sync (session_step (restore ∅) ELogout).
Proof.
  assert (H : reachable (session_step (restore ∅) ELogout)) by (do 2 constructor).
  split; [exact H|]. apply (reachable_wf_sync _ H).
Defined.

(** C9: the store implements its abstract contract: from every reachable
    state, the logged-in user after an event is the one the contract
    prescribes: the credentials of a successful login or signup answer,
    the previous session after a failed one or after a restart of the
    process (through local storage), and nobody after logout. *)
Theorem session_step_refines (st : store) (ev : event) :
  reachable st -> abs_step (abs st) ev (abs (session_step st ev)).
Proof.
  intros Hr. destruct (reachable_inv st Hr) as [Hwf Hs].
  destruct ev as [e p fr|n e p fr| |]; cbn [session_step].
  - unfold login. rewrite abs_finish_auth.
    destruct (auth_answer (CLogin e p) fr) eqn:E; by constructor.
  - unfold signup. rewrite abs_finish_auth.
    destruct (auth_answer (CSignup n e p) fr) eqn:E; by constructor.
  - constructor.
  - rewrite restore_synced by assumption. constructor.
Qed.

Lemma session_step_refines_witness :
  abs_step (abs (restore ∅)) ERestart (abs (session_step (restore ∅) ERestart)).
Proof. apply session_step_refines. constructor. Defined.

(** C7: after a login whose response carries a user and a non-empty
    token, the context is authenticated, storage holds the session, and
    every authenticated call built with the context's token sends it
    verbatim as a bearer credential. *)
Theorem login_success (st : store) (e p : string) (fr : fetch_result) (v : jsval)
    (u : user) (t : string) :
  run (CLogin e p) fr = Resolved v -> decode_auth v = Some (u, t) -> t <> "" ->
  let st' := fst (login st e p fr) in
  ctx_isAuthenticated (ctx_of (st_session st')) = true /\
  ctx_token (ctx_of (st_session st')) = Some t /\
  st_storage st' !! STORAGE_KEY = Some (mkPersisted u t) /\
  forall c, call_token c = Some t ->
    header "Authorization" (req_headers (am_request (method_of c))) = Some ("Bearer " +:+ t).
Proof.
  intros Hrun Hdec Ht. unfold login. rewrite Hrun. cbn [finish_auth]. rewrite Hdec.
  cbn [fst]. split; [by apply truthy_str|]. split; [done|]. split; [apply lookup_insert_eq|].
  intros c Hc. destruct c; cbn [call_token] in Hc; try discriminate; injection Hc as ->;
    cbn; rewrite (string_eqb_false _ _ Ht); done.
Qed.

Lemma login_success_witness :
  let fr := Received (Api.mkResponse 200 (Some (JObj
              [("user", JObj [("id", JStr "u1"); ("username", JStr "ann"); ("email", JStr "a@b.c")]);
               ("token", JStr "t0k")]))) in
  ctx_isAuthenticated (ctx_of (st_session (fst (login (restore ∅) "a@b.c" "pw" fr)))) = true.
Proof.
  cbv zeta.
  match goal with
  | |- context [login _ _ _ ?fr] =>
      refine (proj1 (login_success (restore ∅) "a@b.c" "pw" fr _ (mkUser "u1" "ann" "a@b.c")
                       "t0k" eq_refl eq_refl _))
  end.
  discriminate.
Defined.

(** C39: a failed login (network failure, error status, unreadable body)
    leaves the store untouched and surfaces the error. *)
Theorem login_failure_untouched (st : store) (e p : string) (fr : fetch_result) (f : failure) :
  run (CLogin e p) fr = Rejected f -> login st e p fr = (st, AuthError f).
Proof. intros H. unfold login. by rewrite H. Qed.

Lemma login_failure_untouched_witness :
  login (restore ∅) "a@b.c" "wrong"
    (Received (Api.mkResponse 401 (Some (JObj [("error", JStr "Invalid credentials")]))))
  = (restore ∅, AuthError (Thrown "Invalid credentials")).
Proof. apply login_failure_untouched. reflexivity. Defined.

(** C40: reloading the page keeps the session: restoring from the storage
    of a reachable state gives back its session. *)
Theorem reload_preserves_session (st : store) :
  reachable st -> st_session (restore (st_storage st)) = st_session st.
Proof.
  intros Hr. destruct (reachable_inv st Hr) as [Hwf Hs]. by rewrite restore_synced.
Qed.

Lemma reload_preserves_session_witness :
  st_session (restore (st_storage (restore ∅))) = st_session (restore ∅).
Proof. apply reload_preserves_session. constructor. Defined.

End Session.
