(* ===== verification/Routes.v ===== *)
(** The route table and route guard of [src/src/App.tsx].

    Paths are matched the way react-router 6 matches the table's patterns:
    the path starts with [/], segments are separated by single slashes,
    any number of trailing slashes is accepted, literal segments compare
    case-insensitively and [:id] matches one non-empty segment.  Percent
    decoding of parameters is not modelled.  [app_routes] is the table as
    written, matched entry by entry by [first_match]; [match_route] is
    the same table compiled by hand, which the proofs compute with. *)

From Stdlib Require Import Ascii.
From stdpp Require Import base list strings.
From S2P Require Import Prelude JsValue Api Session.

Open Scope book_scope.

Module Routes.
Import Session.

(** The seven [<Route>]s, lines 23-50. *)
Inductive route :=
| RHome
| RLogin
| RSignup
| RBookDetail (id : string)
| RAddBook
| REditBook (id : string)
| RProfile.

Definition lower_char (c : ascii) : ascii :=
  if Ascii.leb "A" c && Ascii.leb c "Z" then ascii_of_nat (nat_of_ascii c + 32) else c.

Fixpoint lower (s : string) : string :=
  match s with
  | EmptyString => EmptyString
  | String c s' => String (lower_char c) (lower s')
  end.

(** A path segment against a literal segment of the table (all literals
    are lower case). *)
Definition seg_is (seg lit : string) : bool := String.eqb (lower seg) lit.

Fixpoint drop_empty_prefix (l : list string) : list string :=
  match l with
  | EmptyString :: l' => drop_empty_prefix l'
  | _ => l
  end.

Definition strip_trailing (l : list string) : list string :=
  rev (drop_empty_prefix (rev l)).

(** The segments of a pathname, or [None] when no pattern of the table
    can match it (no leading slash, or an empty segment before the end). *)
Definition path_segments (p : string) : option (list string) :=
  match p with
  | String "/" rest =>
      let segs := strip_trailing (split_on "/" rest) in
      if existsb (String.eqb "") segs then None else Some segs
  | _ => None
  end.

(** The table of lines 22-51 compiled by hand, one case per length of
    the segment list; [first_match_route] shows it is what matching the
    table entry by entry gives. *)
Definition match_route (segs : list string) : option route :=
  match segs with
  | [] => Some RHome
  | [a] =>
      if seg_is a "login" then Some RLogin
      else if seg_is a "signup" then Some RSignup
      else if seg_is a "add-book" then Some RAddBook
      else if seg_is a "profile" then Some RProfile
      else None
  | [a; b] =>
      if seg_is a "book" then Some (RBookDetail b)
      else if seg_is a "edit-book" then Some (REditBook b)
      else None
  | _ => None
  end.

(** *** The table as written

    The table is a list of [<Route path element>] pairs; react-router
    reads each [path] as a pattern, splitting it at slashes into literal
    segments and
    dynamic segments [:name], and hands the matched parameters to the
    element through [useParams()]. *)
Inductive pattern_seg := PLit (lit : string) | PParam (name : string).

Definition pattern_seg_of (s : string) : pattern_seg :=
  match s with String ":" n => PParam n | _ => PLit s end.

Definition parse_pattern (pat : string) : list pattern_seg :=
  map pattern_seg_of (List.filter (fun s => negb (String.eqb s "")) (split_on "/" pat)).

(** The parameters of a match, in pattern order; literal segments compare
    case-insensitively ([seg_is], the literals of the table being lower
    case). *)
Fixpoint match_segs (ps : list pattern_seg) (segs : list string) : option (list (string * string)) :=
  match ps, segs with
  | [], [] => Some []
  | PLit l :: ps', s :: segs' => if seg_is s l then match_segs ps' segs' else None
  | PParam n :: ps', s :: segs' => cons (n, s) <$> match_segs ps' segs'
  | _, _ => None
  end.

(** [useParams()[n]]. *)
Definition param (n : string) (params : list (string * string)) : string :=
  default "" (snd <$> List.find (fun kv => String.eqb (fst kv) n) params).

(** Lines 22-51: each pattern with the page its element renders.  The
    [BookForm] of ["/add-book"] finds no [id] parameter and renders the
    add form. *)
Definition app_routes : list (string * (list (string * string) -> route)) :=
  [("/", fun _ => RHome);
   ("/login", fun _ => RLogin);
   ("/signup", fun _ => RSignup);
   ("/book/:id", fun ps => RBookDetail (param "id" ps));
   ("/add-book", fun _ => RAddBook);
   ("/edit-book/:id", fun ps => REditBook (param "id" ps));
   ("/profile", fun _ => RProfile)].

(** The first entry of a table whose pattern matches. *)
Fixpoint first_match (tbl : list (string * (list (string * string) -> route))) (segs : list string)
    : option route :=
  match tbl with
  | [] => None
  | (pat, el) :: tbl' =>
      match match_segs (parse_pattern pat) segs with
      | Some ps => Some (el ps)
      | None => first_match tbl' segs
      end
  end.

(** The entries of a table whose pattern matches. *)
Definition matching (tbl : list (string * (list (string * string) -> route))) (segs : list string)
    : list string :=
  map fst (List.filter (fun e => bool_decide (is_Some (match_segs (parse_pattern e.1) segs))) tbl).

(** The route [<Routes>] selects for a pathname. *)
Definition match_path (p : string) : option route := path_segments p ≫= first_match app_routes.

(** The routes whose element is wrapped in [<ProtectedRoute>]. *)
Definition is_protected (r : route) : bool :=
  match r with
  | RAddBook | REditBook _ | RProfile => true
  | _ => false
  end.

Inductive render := Render (r : route) | RedirectTo (path : string) | NoMatch.

(** [ProtectedRoute], lines 12-15. *)
Definition ProtectedRoute (c : auth_ctx) (r : route) : render :=
  if ctx_isAuthenticated c then Render r else RedirectTo "/login".

Definition element (c : auth_ctx) (r : route) : render :=
  if is_protected r then ProtectedRoute c r else Render r.

(** What [<Routes>] renders for a pathname. *)
Definition guard (c : auth_ctx) (path : string) : render :=
  match match_path path with
  | None => NoMatch
  | Some r => element c r
  end.

(** The path the client navigates to for a route: [navigate('/')],
    [navigate(`/book/${id}`)] (BookCard.tsx line 27), [navigate(`/edit-book/${book._id}`)]
    (BookDetail.tsx line 160), and so on. *)
Definition path_of (r : route) : string :=
  match r with
  | RHome => "/"
  | RLogin => "/login"
  | RSignup => "/signup"
  | RBookDetail id => "/book/" +:+ id
  | RAddBook => "/add-book"
  | REditBook id => "/edit-book/" +:+ id
  | RProfile => "/profile"
  end.

(** A route parameter survives the trip through a path when it is a
    non-empty segment. *)
Definition route_param_ok (r : route) : bool :=
  match r with
  | RBookDetail id | REditBook id => negb (String.eqb id "") && char_free "/" id
  | _ => true
  end.

(** ** Lemmas *)

Lemma strip_trailing_nonempty (l : list string) (x : string) :
  x <> "" -> strip_trailing (l ++ [x]) = l ++ [x].
Proof.
  intros Hx. unfold strip_trailing. rewrite rev_app_distr. cbn.
  destruct x; [done|]. cbn. by rewrite rev_involutive.
Qed.

Lemma path_segments_two (a b : string) :
  char_free "/" a = true -> char_free "/" b = true -> a <> "" -> b <> "" ->
  path_segments (String "/" (a +:+ String "/" b)) = Some [a; b].
Proof.
  intros Ha Hb Ha' Hb'. unfold path_segments.
  rewrite split_on_sep, split_on_free by assumption.
  pose proof (strip_trailing_nonempty [a] b Hb') as Hs. cbn [app] in Hs. rewrite Hs. cbn [existsb].
  rewrite (String.eqb_sym "" a), (String.eqb_sym "" b).
  by rewrite !string_eqb_false.
Qed.

Lemma route_param_ok_spec (id : string) :
  negb (String.eqb id "") && char_free "/" id = true -> id <> "" /\ char_free "/" id = true.
Proof.
  intros [Hne Hf]%andb_prop. split; [|done].
  intros ->. discriminate.
Qed.

Lemma ctx_authenticated_token (c : auth_ctx) :
  ctx_wf c -> ctx_isAuthenticated c = true <-> exists t, ctx_token c = Some t /\ t <> "".
Proof.
  intros [Hflag _]. rewrite Hflag. destruct (ctx_token c) as [t|].
  - rewrite truthy_str. split; [by eauto|]. by intros (t' & [= <-] & Ht).
  - split; [discriminate|]. by intros (t' & ? & _).
Qed.

(** The path the client builds for a route matches that route again,
    when its parameter is a non-empty segment. *)
Lemma path_of_roundtrip (r : route) :
  route_param_ok r = true -> match_path (path_of r) = Some r.
Proof.
  destruct r as [| | |id| |id|]; cbn [route_param_ok]; intros H; try reflexivity;
    destruct (route_param_ok_spec id H) as [Hne Hf]; unfold match_path, path_of.
  - change ("/book/" +:+ id) with (String "/" ("book" +:+ String "/" id)).
    by rewrite path_segments_two.
  - change ("/edit-book/" +:+ id) with (String "/" ("edit-book" +:+ String "/" id)).
    by rewrite path_segments_two.
Qed.

(** Split on which literal of the table the lower-cased segment [a] is. *)
Ltac seg_cases a :=
  unfold seg_is; generalize (lower a); intros x;
  repeat match goal with
  | |- context [String.eqb x ?l] => destruct (String.eqb_spec x l); [subst x; cbn|]
  end.

(** No segment list is matched by two entries of the table, so the order
    in which react-router ranks them does not matter and the first match
    is the match. *)
Lemma matching_unique segs : length (matching app_routes segs) <= 1.
Proof.
  unfold matching. destruct segs as [|a [|b [|c segs]]]; cbn; [lia|..]; seg_cases a; cbn; lia.
Qed.

Lemma first_match_route segs : first_match app_routes segs = match_route segs.
Proof. destruct segs as [|a [|b [|c segs]]]; cbn; repeat case_match; simplify_eq/=; done. Qed.

(** ** Properties *)

(** C6: a protected route renders exactly when the context holds a
    non-empty token; otherwise [<Navigate to="/login" />] is rendered. *)
Theorem guard_protected (c : auth_ctx) (p : string) (r : route) :
  ctx_wf c -> match_path p = Some r -> is_protected r = true ->
  (guard c p = Render r <-> exists t, ctx_token c = Some t /\ t <> "") /\
  (ctx_isAuthenticated c = false -> guard c p = RedirectTo "/login").
Proof.
  intros Hwf Hm Hp. unfold guard, element, ProtectedRoute. rewrite Hm, Hp.
  rewrite <- (ctx_authenticated_token c Hwf).
  destruct (ctx_isAuthenticated c).
  - split; [done|discriminate].
  - split; [split; discriminate|done].
Qed.

Lemma guard_protected_witness :
  let c := ctx_of no_session in
  ctx_wf c /\ match_path "/profile" = Some RProfile /\
  guard c "/profile" = RedirectTo "/login".
Proof.
  cbv zeta.
  assert (Hwf : ctx_wf (ctx_of no_session)) by (apply ctx_of_wf; reflexivity).
  split; [exact Hwf|]. split; [reflexivity|].
  apply (proj2 (guard_protected _ "/profile" RProfile Hwf eq_refl eq_refl)). reflexivity.
Defined.

(** Every route outside [ProtectedRoute] renders whatever the
    session. *)
Theorem guard_public (c : auth_ctx) (p : string) (r : route) :
  match_path p = Some r -> is_protected r = false -> guard c p = Render r.
Proof. intros Hm Hp. unfold guard, element. by rewrite Hm, Hp. Qed.

Lemma guard_public_witness :
  guard (ctx_of no_session) "/book/65f0c1" = Render (RBookDetail "65f0c1").
Proof. apply guard_public; reflexivity. Defined.

(** The guard's redirect target is itself rendered, whatever the
    session: a redirect never leads to another redirect. *)
Theorem redirect_target_renders (c : auth_ctx) (p q : string) :
  guard c p = RedirectTo q -> guard c q = Render RLogin.
Proof.
  unfold guard, element, ProtectedRoute.
  destruct (match_path p) as [r|]; [|discriminate].
  destruct (is_protected r), (ctx_isAuthenticated c); try discriminate.
  by intros [= <-].
Qed.

Lemma redirect_target_renders_witness :
  guard (ctx_of no_session) "/add-book" = RedirectTo "/login" /\
  guard (ctx_of no_session) "/login" = Render RLogin.
Proof.
  split; [reflexivity|]. apply (redirect_target_renders _ "/add-book"). reflexivity.
Defined.


End Routes.

