(* ===== verification/Navbar.v ===== *)
(** The navigation bar, [src/src/components/Navbar.tsx]: the buttons it
    shows for a session and what their [onClick] handlers do.  Navigations
    are rendered through the route guard of [Routes]; Logout clears the
    session through [Session.logout] before it navigates. *)

From stdpp Require Import base list strings gmap.
From S2P Require Import Prelude JsValue Api Session Routes.

Open Scope book_scope.

Module Navbar.
Import Session Routes.

(** The buttons of the bar, lines 19-109. *)
Inductive nav_button :=
| NBrand | NHome | NAddBook | NProfile | NTheme | NLogout | NLogin | NSignup.

#[export] Instance nav_button_eq_dec : EqDecision nav_button.
Proof. solve_decision. Defined.

Definition navbar_buttons (c : auth_ctx) : list nav_button :=
  [NBrand; NHome] ++
  (if ctx_isAuthenticated c then [NAddBook; NProfile] else []) ++
  [NTheme] ++
  (if ctx_isAuthenticated c then [NLogout] else [NLogin; NSignup]).

Inductive nav_effect := NavTo (path : string) | DoLogout | ToggleTheme.

(** The [onClick] handlers. *)
Definition on_click (b : nav_button) : list nav_effect :=
  match b with
  | NBrand | NHome => [NavTo "/"]
  | NAddBook => [NavTo "/add-book"]
  | NProfile => [NavTo "/profile"]
  | NTheme => [ToggleTheme]
  | NLogout => [DoLogout; NavTo "/"]
  | NLogin => [NavTo "/login"]
  | NSignup => [NavTo "/signup"]
  end.

(** Run a handler's effects in order against the session store; each
    navigation is rendered with the session current at that point. *)
Fixpoint run_effects (st : store) (effs : list nav_effect) : store * list render :=
  match effs with
  | [] => (st, [])
  | NavTo p :: effs' =>
      let '(st', rs) := run_effects st effs' in
      (st', guard (ctx_of (st_session st)) p :: rs)
  | DoLogout :: effs' => run_effects (logout st) effs'
  | ToggleTheme :: effs' => run_effects st effs'
  end.

(** [isActive(path)], line 12. *)
Definition isActive (pathname path : string) : bool := String.eqb pathname path.

(** The path a button tests with [isActive] for its highlighted style,
    lines 31, 45 and 57. *)
Definition button_path (b : nav_button) : option string :=
  match b with
  | NHome => Some "/"
  | NAddBook => Some "/add-book"
  | NProfile => Some "/profile"
  | _ => None
  end.

(** The buttons drawn highlighted at a location. *)
Definition active_buttons (c : auth_ctx) (pathname : string) : list nav_button :=
  List.filter (fun b => match button_path b with Some p => isActive pathname p | None => false end)
              (navbar_buttons c).

(** ** Lemmas *)

Lemma guard_literal (c : auth_ctx) :
  guard c "/" = Render RHome /\ guard c "/login" = Render RLogin /\
  guard c "/signup" = Render RSignup /\
  guard c "/add-book" = ProtectedRoute c RAddBook /\
  guard c "/profile" = ProtectedRoute c RProfile.
Proof. repeat split. Qed.

Lemma ProtectedRoute_auth (s : session) (r : route) :
  isAuthenticated s = true -> ProtectedRoute (ctx_of s) r = Render r.
Proof. unfold ProtectedRoute. cbn. by intros ->. Qed.

(** ** Properties *)

(** C36: every navigation that a visible button of the bar performs is
    rendered: it is never redirected to /login and always matches a
    route, also for Logout, which navigates after clearing the session. *)
Theorem navbar_navigations_render (st : store) (b : nav_button) (r : render) :
  In b (navbar_buttons (ctx_of (st_session st))) ->
  In r (snd (run_effects st (on_click b))) ->
  exists rt, r = Render rt.
Proof.
  unfold navbar_buttons. cbn [ctx_of ctx_isAuthenticated]. intros Hb Hr.
  destruct (isAuthenticated (st_session st)) eqn:E; cbn [app] in Hb;
    repeat destruct Hb as [<- | Hb]; try contradiction;
    cbn [on_click run_effects snd] in Hr; destruct Hr as [<- | []];
    match goal with
    | |- exists _, guard (ctx_of ?s) _ = _ =>
        destruct (guard_literal (ctx_of s)) as (H1 & H2 & H3 & H4 & H5)
    end;
    rewrite ?H1, ?H2, ?H3, ?H4, ?H5, ?ProtectedRoute_auth by assumption; by eexists.
Qed.

Lemma navbar_navigations_render_witness :
  let st := restore ∅ in
  In NLogin (navbar_buttons (ctx_of (st_session st))) /\
  In (Render RLogin) (snd (run_effects st (on_click NLogin))) /\
  exists rt, Render RLogin = Render rt.
Proof.
  cbv zeta. assert (Hb : In NLogin (navbar_buttons (ctx_of (st_session (restore ∅)))))
    by (vm_compute; tauto).
  assert (Hr : In (Render RLogin) (snd (run_effects (restore ∅) (on_click NLogin))))
    by (vm_compute; tauto).
  split; [exact Hb|]. split; [exact Hr|].
  exact (navbar_navigations_render _ _ _ Hb Hr).
Defined.

(** After the Logout button of the bar has run its handler
    ([logout(); navigate('/')]), a fresh process that restores from
    storage has no session and is not authenticated. *)
Theorem logout_button_then_restore (st : store) :
  let st' := fst (run_effects st (on_click NLogout)) in
  st_session (restore (st_storage st')) = no_session /\
  isAuthenticated (st_session (restore (st_storage st'))) = false.
Proof. cbv zeta. cbn. unfold restore. cbn. by rewrite lookup_delete_eq. Qed.

End Navbar.
