(* ===== verification/BookDetail.v ===== *)
(** The book detail page, [src/src/pages/BookDetail.tsx].

    The page keeps six [useState] hooks ([dstate]).  Its handlers run
    synchronously up to their first [await]; what follows the [await] runs
    when the request settles.  A [machine] holds the page state, the route
    parameter [id] and the requests in flight, each with the continuation
    that will handle its result ([cont]).  [step] takes one event (a user
    action on a control that is rendered, or the settling of one pending
    request) and returns the next machine and the effects performed (API
    calls, alerts, navigations).  Handlers read the [auth_ctx] of the
    render they were created in, which is an argument of [step]. *)

From Stdlib Require Import ZArith Lia.
From stdpp Require Import base list strings.
From S2P Require Import Prelude JsValue JsNumber Display Api Session.

Open Scope book_scope.

Module BookDetail.
Import Api Session Display.

(** The hooks of lines 34-39. *)
Record dstate := mkD {
  book : jsval;            (** [useState<Book | null>(null)] *)
  loading : bool;          (** [useState(true)] *)
  rating : jsval;          (** [useState(5)] *)
  comment : jsval;         (** [useState('')] *)
  submitting : bool;       (** [useState(false)] *)
  editingReview : jsval    (** [useState<string | null>(null)] *)
}.

Definition initial : dstate := mkD JNull true (JNum 5) (JStr "") false JNull.

(** The fields of a book and of its reviews that the page reads. *)
Record review_view := mkReview {
  r_id : jsval; r_userId : jsval; r_rating : jsval; r_comment : jsval
}.

Record book_view := mkBook { b_id : jsval; b_userId : jsval; b_reviews : list review_view }.

(** Reading the fields throws on a [null] review or a [reviews] that is
    not an array; rendering then fails. *)
Definition decode_review (r : jsval) : option review_view :=
  i ← prop r "_id"; u ← prop r "userId"; ra ← prop r "rating"; co ← prop r "comment";
  Some (mkReview i u ra co).

Definition decode_book (v : jsval) : option book_view :=
  i ← prop v "_id"; u ← prop v "userId"; rs ← prop v "reviews";
  match rs with
  | JArr items => reviews ← mapM decode_review items; Some (mkBook i u reviews)
  | _ => None
  end.

(** Line 127: [book.reviews.find((r) => r.userId === user?.id)]. *)
Definition userReview (c : auth_ctx) (b : book_view) : option review_view :=
  List.find (fun r => r_userId r === ctx_user_id c) (b_reviews b).

(** Line 128. *)
Definition canReview (c : auth_ctx) (b : book_view) : bool :=
  ctx_isAuthenticated c && negb (bool_decide (is_Some (userReview c b)))
  && negb (b_userId b === ctx_user_id c).

(** Line 157: the edit and delete buttons of the book. *)
Definition ownerControls (c : auth_ctx) (b : book_view) : bool :=
  ctx_isAuthenticated c && (ctx_user_id c === b_userId b).

(** Line 321: the edit and delete buttons of a review. *)
Definition reviewControls (c : auth_ctx) (r : review_view) : bool :=
  ctx_isAuthenticated c && (ctx_user_id c === r_userId r).

(** The fallback of the cover's [onError], line 141. *)
Definition COVER_FALLBACK : string :=
  "https://images.pexels.com/photos/1301585/pexels-photo-1301585.jpeg?auto=compress&cs=tinysrgb&w=800".

Definition cover_image_step (loads : string -> bool) : img -> option img :=
  img_step loads COVER_FALLBACK.

(** The header of the page, lines 136-204: the cover's [src], the texts
    and the rating label. *)
Record header_view := mkHeader {
  h_src : option string; h_title : string; h_author : string; h_genre : string;
  h_year : string; h_rating : string; h_description : string; h_username : string
}.

Definition header (v : jsval) : option header_view :=
  t ← react_child (prop_opt v "title");
  a ← react_child (prop_opt v "author");
  g ← react_child (prop_opt v "genre");
  y ← react_child (prop_opt v "year");
  r ← rating_label (prop_opt v "averageRating");
  d ← react_child (prop_opt v "description");
  u ← react_child (prop_opt v "username");
  Some (mkHeader (src_attr (prop_opt v "imageUrl")) t a g y r d u).

(** The texts of one review, lines 300-324: its author, its stars and its
    comment; the date never throws and its text is not modelled. *)
Definition review_texts (r : jsval) : option (string * list bool * string) :=
  u ← react_child (prop_opt r "username");
  c ← react_child (prop_opt r "comment");
  Some (u, stars (prop_opt r "rating"), c).

(** The header and every review render their texts. *)
Definition page_texts (v : jsval) : bool :=
  bool_decide (is_Some (header v)) &&
  match prop_opt v "reviews" with
  | JArr items => bool_decide (is_Some (mapM review_texts items))
  | _ => false
  end.

Inductive view :=
| VLoading            (** lines 108-117 *)
| VNotFound           (** lines 119-125 *)
| VCrash              (** rendering throws on a malformed book *)
| VPage (b : book_view).

Definition render (s : dstate) : view :=
  if loading s then VLoading
  else if negb (truthy (book s)) then VNotFound
  else match decode_book (book s) with
       | Some b => if page_texts (book s) then VPage b else VCrash
       | None => VCrash
       end.

(** The review form is rendered, line 211. *)
Definition form_visible (c : auth_ctx) (s : dstate) : bool :=
  match render s with VPage b => canReview c b | _ => false end.

(** [required] on the textarea: an empty comment blocks submission. *)
Definition comment_filled (v : jsval) : bool :=
  match v with
  | JUndefined | JNull => false
  | _ => negb (String.eqb (js_to_string v) "")
  end.

(** What an awaiting handler does once its request settles. *)
Inductive cont :=
| KLoadBook                 (** [loadBook], after [await api.getBook(id!)] *)
| KSubmit (editing : bool)  (** [handleSubmitReview], in the branch it took *)
| KDeleteReview             (** [handleDeleteReview] *)
| KDeleteBook.              (** [handleDeleteBook] *)

Inductive effect :=
| ECall (c : call)
| EAlert (f : failure)      (** [alert(error.message)] *)
| ELogError                 (** [console.error(...)] *)
| ENavigate (path : string)
| EScrollTop.

Record machine := mkM {
  m_id : string;                        (** [useParams().id] *)
  m_state : dstate;
  m_pending : list (call * cont)
}.

(** The setters of the hooks. *)
Definition set_book v s := mkD v (loading s) (rating s) (comment s) (submitting s) (editingReview s).
Definition set_loading v s := mkD (book s) v (rating s) (comment s) (submitting s) (editingReview s).
Definition set_rating v s := mkD (book s) (loading s) v (comment s) (submitting s) (editingReview s).
Definition set_comment v s := mkD (book s) (loading s) (rating s) v (submitting s) (editingReview s).
Definition set_submitting v s := mkD (book s) (loading s) (rating s) (comment s) v (editingReview s).
Definition set_editingReview v s :=
  mkD (book s) (loading s) (rating s) (comment s) (submitting s) v.

Definition with_state (m : machine) (s : dstate) : machine := mkM (m_id m) s (m_pending m).

(** Issue a call: it becomes pending with its continuation. *)
Definition issue (m : machine) (s : dstate) (c : call) (k : cont) : machine * list effect :=
  (mkM (m_id m) s (m_pending m ++ [(c, k)]), [ECall c]).

(** The token a handler may use: [if (!token) return]. *)
Definition usable_token (c : auth_ctx) : option string :=
  match ctx_token c with
  | Some t => if truthy (JStr t) then Some t else None
  | None => None
  end.

(** [loadBook()] up to its [await], lines 41-44. *)
Definition loadBook (m : machine) : machine * list effect :=
  issue m (set_loading true (m_state m)) (CGetBook (m_id m)) KLoadBook.

(** [loadBook()] after its [await], lines 45-50. *)
Definition loadBook_settle (s : dstate) (o : outcome) : dstate * list effect :=
  match o with
  | Resolved data => (set_loading false (set_book data s), [])
  | Rejected _ => (set_loading false s, [ELogError])
  end.

(** [handleSubmitReview] up to its [await], lines 57-68. *)
Definition handleSubmitReview (c : auth_ctx) (m : machine) : machine * list effect :=
  let s := m_state m in
  match usable_token c with
  | None => (m, [])
  | Some t =>
      let s1 := set_submitting true s in
      if truthy (editingReview s) then
        issue m s1 (CUpdateReview t (js_to_string (editingReview s))
                      (JObj [("rating", rating s); ("comment", comment s)])) (KSubmit true)
      else
        issue m s1 (CCreateReview t (JObj [("bookId", JStr (m_id m)); ("rating", rating s);
                                           ("comment", comment s)])) (KSubmit false)
  end.

(** [handleSubmitReview] after its [await], lines 65-76: leave edit mode
    (in the update branch), reset the form, start [loadBook()] without
    awaiting it, and clear [submitting] in [finally]. *)
Definition submit_settle (m : machine) (editing : bool) (o : outcome) : machine * list effect :=
  match o with
  | Resolved _ =>
      let s1 := if editing then set_editingReview JNull (m_state m) else m_state m in
      let s2 := set_comment (JStr "") (set_rating (JNum 5) s1) in
      let '(m', effs) := loadBook (with_state m s2) in
      (with_state m' (set_submitting false (m_state m')), effs)
  | Rejected f => (with_state m (set_submitting false (m_state m)), [EAlert f])
  end.

(** [handleDeleteReview(reviewId)] up to its [await], lines 79-83; the
    answer to [confirm] is [confirmed]. *)
Definition handleDeleteReview (c : auth_ctx) (m : machine) (reviewId : jsval) (confirmed : bool)
    : machine * list effect :=
  match usable_token c with
  | Some t => if confirmed then issue m (m_state m) (CDeleteReview t (js_to_string reviewId)) KDeleteReview
              else (m, [])
  | None => (m, [])
  end.

(** Lines 84-87. *)
Definition deleteReview_settle (m : machine) (o : outcome) : machine * list effect :=
  match o with
  | Resolved _ => loadBook m
  | Rejected f => (m, [EAlert f])
  end.

(** [handleDeleteBook] up to its [await], lines 90-94. *)
Definition handleDeleteBook (c : auth_ctx) (m : machine) (confirmed : bool) : machine * list effect :=
  match usable_token c with
  | Some t => if confirmed then issue m (m_state m) (CDeleteBook t (m_id m)) KDeleteBook else (m, [])
  | None => (m, [])
  end.

(** Lines 95-98. *)
Definition deleteBook_settle (m : machine) (o : outcome) : machine * list effect :=
  match o with
  | Resolved _ => (m, [ENavigate "/"])
  | Rejected f => (m, [EAlert f])
  end.

(** [startEditReview(review)], lines 101-106. *)
Definition startEditReview (m : machine) (r : review_view) : machine * list effect :=
  (with_state m (set_comment (r_comment r) (set_rating (r_rating r)
                   (set_editingReview (r_id r) (m_state m)))), [EScrollTop]).

(** The Cancel button of the form, lines 267-271. *)
Definition cancelEdit (m : machine) : machine :=
  with_state m (set_comment (JStr "") (set_rating (JNum 5) (set_editingReview JNull (m_state m)))).

Definition settle (m : machine) (k : cont) (o : outcome) : machine * list effect :=
  match k with
  | KLoadBook => let '(s', effs) := loadBook_settle (m_state m) o in (with_state m s', effs)
  | KSubmit editing => submit_settle m editing o
  | KDeleteReview => deleteReview_settle m o
  | KDeleteBook => deleteBook_settle m o
  end.

(** Mounting runs the effect of lines 53-55. *)
Definition mount (id : string) : machine * list effect := loadBook (mkM id initial []).

Inductive event :=
| EvSetRating (star : Z)                   (** a star button, line 227 *)
| EvSetComment (text : string)             (** the textarea, line 248 *)
| EvSubmit                                 (** the submit button, line 256 *)
| EvCancelEdit                             (** the Cancel button, line 264 *)
| EvStartEdit (i : nat)                    (** edit on the i-th review, line 324 *)
| EvDeleteReview (i : nat) (confirmed : bool)  (** delete on the i-th review, line 330 *)
| EvEditBook                               (** edit on the book, line 160 *)
| EvDeleteBook (confirmed : bool)          (** delete on the book, line 166 *)
| EvSettle (i : nat) (fr : fetch_result).  (** the i-th pending request settles *)

(** The i-th review of the rendered page, when its buttons are shown. *)
Definition review_with_controls (c : auth_ctx) (s : dstate) (i : nat) : option review_view :=
  match render s with
  | VPage b =>
      match b_reviews b !! i with
      | Some r => if reviewControls c r then Some r else None
      | None => None
      end
  | _ => None
  end.

(** One event.  [None] when the control is not rendered or disabled. *)
Definition step (c : auth_ctx) (m : machine) (ev : event) : option (machine * list effect) :=
  let s := m_state m in
  match ev with
  | EvSetRating star =>
      if form_visible c s && (1 <=? star)%Z && (star <=? 5)%Z
      then Some (with_state m (set_rating (JNum star) s), []) else None
  | EvSetComment text =>
      if form_visible c s then Some (with_state m (set_comment (JStr text) s), []) else None
  | EvSubmit =>
      if form_visible c s && negb (submitting s) && comment_filled (comment s)
      then Some (handleSubmitReview c m) else None
  | EvCancelEdit =>
      if form_visible c s && truthy (editingReview s) then Some (cancelEdit m, []) else None
  | EvStartEdit i => r ← review_with_controls c s i; Some (startEditReview m r)
  | EvDeleteReview i confirmed =>
      r ← review_with_controls c s i; Some (handleDeleteReview c m (r_id r) confirmed)
  | EvEditBook =>
      match render s with
      | VPage b => if ownerControls c b then Some (m, [ENavigate ("/edit-book/" +:+ js_to_string (b_id b))])
                   else None
      | _ => None
      end
  | EvDeleteBook confirmed =>
      match render s with
      | VPage b => if ownerControls c b then Some (handleDeleteBook c m confirmed) else None
      | _ => None
      end
  | EvSettle i fr =>
      '(cl, k) ← m_pending m !! i;
      Some (settle (mkM (m_id m) s (delete i (m_pending m))) k (run cl fr))
  end.

(** The machines a page for book [id] reaches; the session may change
    between events, so each step has its own context. *)
Inductive reachable (id : string) : machine -> Prop :=
| reach_mount : reachable id (fst (mount id))
| reach_step c m ev m' effs :
    reachable id m -> step c m ev = Some (m', effs) -> reachable id m'.

(** Run a sequence of events under one session. *)
Fixpoint run_events (c : auth_ctx) (m : machine) (evs : list event)
    : option (machine * list effect) :=
  match evs with
  | [] => Some (m, [])
  | ev :: evs' =>
      '(m1, e1) ← step c m ev;
      '(m2, e2) ← run_events c m1 evs';
      Some (m2, e1 ++ e2)
  end.

(** The scenario of the finding: a user edits their review, deletes it,
    and the reload brings the form back in update mode for the deleted
    review; submitting calls [updateReview] on it. *)
Definition stale_ctx : auth_ctx := ctx_of (mkSession (Some (mkUser "u1" "ann" "a@b.c")) (Some "tok")).

Definition stale_book (reviews : list jsval) : jsval :=
  JObj [("_id", JStr "b1"); ("userId", JStr "u0"); ("reviews", JArr reviews)].

Definition stale_review : jsval :=
  JObj [("_id", JStr "r1"); ("userId", JStr "u1"); ("rating", JNum 4); ("comment", JStr "ok")].

Definition stale_events : list event :=
  [EvSettle 0 (Received (mkResponse 200 (Some (stale_book [stale_review]))));
   EvStartEdit 0; EvDeleteReview 0 true;
   EvSettle 0 (Received (mkResponse 200 (Some (JObj []))));
   EvSettle 0 (Received (mkResponse 200 (Some (stale_book []))))].

(** Counting the pending requests by continuation. *)
Definition is_load (k : cont) : bool := match k with KLoadBook => true | _ => false end.
Definition is_submit (k : cont) : bool := match k with KSubmit _ => true | _ => false end.

(** The invariant of the page: the spinner is shown only while a
    [getBook] is in flight, and [submitting] is set exactly while the one
    review submission is in flight. *)
Definition page_inv (m : machine) : Prop :=
  (loading (m_state m) = true -> 0 < count_pending is_load (m_pending m)) /\
  (submitting (m_state m) = true <-> count_pending is_submit (m_pending m) = 1) /\
  count_pending is_submit (m_pending m) <= 1.

(** The page of the scenario once the reload after the deletion has
    settled: the form is back, in update mode for the deleted review. *)
Definition stale_machine : machine :=
  mkM "b1" (mkD (stale_book []) false (JNum 4) (JStr "ok") false (JStr "r1")) [].

(** ** Lemmas *)

Lemma bool_decide_is_Some_false {A} (o : option A) :
  bool_decide (is_Some o) = false <-> o = None.
Proof.
  rewrite bool_decide_eq_false. split; [|intros -> [? ?]; discriminate].
  destruct o; [|done]. intros H. exfalso. apply H. by eexists.
Qed.

Lemma userReview_None (c : auth_ctx) (b : book_view) :
  userReview c b = None <-> Forall (fun r => (r_userId r === ctx_user_id c) = false) (b_reviews b).
Proof. unfold userReview. rewrite find_None_forall, List.Forall_forall. done. Qed.

Lemma run_events_reachable id c m evs m' effs :
  reachable id m -> run_events c m evs = Some (m', effs) -> reachable id m'.
Proof.
  revert m effs. induction evs as [|ev evs IH]; cbn; intros m effs Hr H.
  - by injection H as <- _.
  - destruct (step c m ev) as [[m1 e1]|] eqn:E; [|discriminate]. cbn in H.
    destruct (run_events c m1 evs) as [[m2 e2]|] eqn:E2; [|discriminate].
    injection H as <- _. eapply IH; [|exact E2]. by eapply reach_step.
Qed.

Lemma handleSubmitReview_update c m t :
  usable_token c = Some t -> truthy (editingReview (m_state m)) = true ->
  handleSubmitReview c m =
  issue m (set_submitting true (m_state m))
    (CUpdateReview t (js_to_string (editingReview (m_state m)))
       (JObj [("rating", rating (m_state m)); ("comment", comment (m_state m))])) (KSubmit true).
Proof. intros Ht He. unfold handleSubmitReview. by rewrite Ht, He. Qed.

Lemma lookup_app_last {A} (l : list A) (x : A) : (l ++ [x]) !! length l = Some x.
Proof. rewrite lookup_app_r by lia. by rewrite Nat.sub_diag. Qed.

Lemma delete_app_last {A} (l : list A) (x : A) : delete (length l) (l ++ [x]) = l.
Proof.
  induction l as [|y l IH]; [done|].
  change (y :: delete (length l) (l ++ [x]) = y :: l). by rewrite IH.
Qed.

(** ** Properties *)

(** C1: the review form is offered exactly to an authenticated user who
    does not own the book and has no review on it: the owner and an
    existing reviewer never see it. *)
Theorem canReview_spec (c : auth_ctx) (b : book_view) :
  canReview c b = true <->
  ctx_isAuthenticated c = true /\ (b_userId b === ctx_user_id c) = false /\
  Forall (fun r => (r_userId r === ctx_user_id c) = false) (b_reviews b).
Proof.
  unfold canReview. rewrite <- userReview_None, <- bool_decide_is_Some_false.
  destruct (ctx_isAuthenticated c), (bool_decide (is_Some (userReview c b))),
    (b_userId b === ctx_user_id c); cbn; intuition congruence.
Qed.

(** C3: the edit button of a review is shown only to its author, and then
    the form is hidden: [startEditReview] can never reveal the form for the
    review it puts in edit mode. *)
Theorem review_controls_hide_form (c : auth_ctx) (b : book_view) (r : review_view) :
  In r (b_reviews b) -> reviewControls c r = true -> canReview c b = false.
Proof.
  intros Hin Hctl. apply andb_prop in Hctl as [_ Heq]. rewrite strict_eq_sym in Heq.
  destruct (find_Some_of_In (fun r => r_userId r === ctx_user_id c) _ r Hin Heq) as [y Hy].
  unfold canReview, userReview. rewrite Hy.
  by rewrite (bool_decide_eq_true_2 _ (mk_is_Some _ _ eq_refl)), andb_false_r.
Qed.

Lemma review_controls_hide_form_witness :
  let r := mkReview (JStr "r1") (JStr "u1") (JNum 4) (JStr "ok") in
  let c := ctx_of (mkSession (Some (mkUser "u1" "ann" "a@b.c")) (Some "tok")) in
  reviewControls c r = true /\ canReview c (mkBook (JStr "b1") (JStr "u0") [r]) = false.
Proof.
  cbv zeta. split; [reflexivity|].
  apply (review_controls_hide_form _ _ (mkReview (JStr "r1") (JStr "u1") (JNum 4) (JStr "ok")));
    [left; reflexivity | reflexivity].
Defined.

(** C2: submitting the form in edit mode calls [updateReview] (never
    [createReview]) for the review being edited, with the form's rating
    and comment; when that call succeeds the page leaves edit mode, resets
    the form to rating 5 and an empty comment, clears [submitting] and
    reloads the book. *)
Theorem submit_in_edit_mode (c : auth_ctx) (m : machine) (t : string) :
  usable_token c = Some t ->
  form_visible c (m_state m) = true -> submitting (m_state m) = false ->
  comment_filled (comment (m_state m)) = true ->
  truthy (editingReview (m_state m)) = true ->
  let s := m_state m in
  let cl := CUpdateReview t (js_to_string (editingReview s))
              (JObj [("rating", rating s); ("comment", comment s)]) in
  exists m1,
    step c m EvSubmit = Some (m1, [ECall cl]) /\ submitting (m_state m1) = true /\
    forall c' fr v, run cl fr = Resolved v ->
      exists m2, step c' m1 (EvSettle (length (m_pending m)) fr) = Some (m2, [ECall (CGetBook (m_id m))]) /\
        editingReview (m_state m2) = JNull /\ rating (m_state m2) = JNum 5 /\
        comment (m_state m2) = JStr "" /\ submitting (m_state m2) = false.
Proof.
  intros Ht Hf Hs Hc He. cbv zeta. eexists. split.
  - unfold step. rewrite Hf, Hs, Hc. cbn [andb negb]. by rewrite (handleSubmitReview_update c m t Ht He).
  - split; [done|]. intros c' fr v Hrun. eexists. unfold step. cbn [m_pending issue fst].
    rewrite lookup_app_last. cbn -[run delete]. rewrite delete_app_last, Hrun. cbn. repeat split.
Qed.

Lemma submit_in_edit_mode_witness :
  exists m1,
    step stale_ctx stale_machine EvSubmit =
    Some (m1, [ECall (CUpdateReview "tok" "r1" (JObj [("rating", JNum 4); ("comment", JStr "ok")]))]).
Proof.
  destruct (submit_in_edit_mode stale_ctx stale_machine "tok" eq_refl eq_refl eq_refl eq_refl eq_refl)
    as (m1 & H1 & _).
  exists m1. exact H1.
Defined.


(** C4: there is a reachable state of the page in which the form is
    shown in update mode for a review that the book no longer has, and
    submitting it calls [updateReview] on that deleted review. *)
Theorem stale_edit_reachable :
  exists m effs,
    run_events stale_ctx (fst (mount "b1")) stale_events = Some (m, effs) /\
    reachable "b1" m /\ form_visible stale_ctx (m_state m) = true /\
    editingReview (m_state m) = JStr "r1" /\
    In (ECall (CDeleteReview "tok" "r1")) effs /\
    exists m', step stale_ctx m EvSubmit =
      Some (m', [ECall (CUpdateReview "tok" "r1" (JObj [("rating", JNum 4); ("comment", JStr "ok")]))]).
Proof.
  destruct (run_events stale_ctx (fst (mount "b1")) stale_events) as [[m effs]|] eqn:E;
    [|vm_compute in E; discriminate].
  exists m, effs. split; [done|]. split; [eapply run_events_reachable; [constructor|exact E]|].
  vm_compute in E. injection E as <- <-.
  split; [reflexivity|]. split; [reflexivity|]. split; [cbn; tauto|].
  eexists. reflexivity.
Qed.

(** The page invariant is about [loading], [submitting] and the pending
    list only: a state change that keeps those keeps it. *)
Lemma page_inv_same m m' :
  loading (m_state m') = loading (m_state m) -> submitting (m_state m') = submitting (m_state m) ->
  m_pending m' = m_pending m -> page_inv m -> page_inv m'.
Proof. unfold page_inv. intros -> -> ->. done. Qed.

Lemma page_inv_issue m s cl k :
  k <> KLoadBook -> ~ is_submit k ->
  loading s = loading (m_state m) -> submitting s = submitting (m_state m) ->
  page_inv m -> page_inv (fst (issue m s cl k)).
Proof.
  intros Hk Hs Hl Hsub. unfold page_inv, issue. cbn [fst m_state m_pending].
  rewrite Hl, Hsub, !count_pending_app. cbn [snd].
  destruct k; cbn; try contradiction; by rewrite !Nat.add_0_r.
Qed.

Lemma page_inv_loadBook m :
  page_inv m -> page_inv (fst (loadBook m)).
Proof.
  unfold page_inv, loadBook, issue. cbn [fst m_state m_pending set_loading loading submitting].
  rewrite !count_pending_app. cbn. intros (_ & H2 & H3). split; [lia|]. by rewrite Nat.add_0_r.
Qed.

(** [submitting] and the count of pending submissions are related
    through a count that changed by [d]. *)
Ltac inv_count H2 :=
  split; intros Hx; [apply H2 in Hx | apply H2]; lia.

Lemma page_inv_settle m i cl k o :
  page_inv m -> m_pending m !! i = Some (cl, k) ->
  page_inv (fst (settle (mkM (m_id m) (m_state m) (delete i (m_pending m))) k o)).
Proof.
  intros (H1 & H2 & H3) Hi. pose proof (count_pending_delete is_load _ _ _ Hi) as Dl.
  pose proof (count_pending_delete is_submit _ _ _ Hi) as Ds. cbn [snd] in Dl, Ds.
  assert (Hm0 : k <> KLoadBook -> ~ is_submit k ->
                page_inv (mkM (m_id m) (m_state m) (delete i (m_pending m)))).
  { intros Hk Hs. destruct k; try congruence; cbn in Hs, Dl, Ds; try contradiction;
      unfold page_inv; cbn [m_state m_pending];
      (split; [intros Hx; apply H1 in Hx; lia|]); (split; [inv_count H2|lia]). }
  destruct k as [|editing| |]; cbn [is_load is_submit] in Dl, Ds.
  - (* a load settles: the spinner goes *)
    destruct o; cbn [settle loadBook_settle fst]; unfold page_inv;
      cbn [m_state m_pending with_state set_loading set_book loading submitting];
      (split; [discriminate|]); (split; [inv_count H2|lia]).
  - (* the submission settles: [submitting] is cleared *)
    destruct o as [v|f]; cbn [settle submit_settle].
    + unfold loadBook, issue, page_inv. cbn [fst m_state m_pending with_state set_submitting
        set_loading submitting loading]. rewrite !count_pending_app. cbn [snd is_load is_submit].
      split; [lia|]. split; [split; [discriminate|lia]|lia].
    + unfold page_inv. cbn [fst m_state m_pending with_state set_submitting submitting loading].
      split; [intros Hx; apply H1 in Hx; lia|]. split; [split; [discriminate|lia]|lia].
  - (* a review deletion settles *)
    specialize (Hm0 ltac:(discriminate) ltac:(cbn; congruence)).
    destruct o; cbn [settle deleteReview_settle fst]; [by apply page_inv_loadBook|done].
  - specialize (Hm0 ltac:(discriminate) ltac:(cbn; congruence)).
    by destruct o.
Qed.

Lemma some_pair_fst {A B} (x : A * B) (a : A) (b : B) : Some x = Some (a, b) -> a = fst x.
Proof. by intros [= ->]. Qed.

Lemma page_inv_step c m ev m' effs :
  page_inv m -> step c m ev = Some (m', effs) -> page_inv m'.
Proof.
  intros Hinv. destruct ev as [star|text| | |i|i conf| |conf|i fr]; cbn [step].
  - case_guards; intros [= <- _]; try discriminate. by apply (page_inv_same m).
  - case_guards; intros [= <- _]; try discriminate. by apply (page_inv_same m).
  - case_guards; intros Hst; try discriminate. apply some_pair_fst in Hst as ->.
    unfold handleSubmitReview. destruct (usable_token c) as [t|]; [|done].
    destruct Hinv as (I1 & I2 & I3).
    assert (Z0 : count_pending is_submit (m_pending m) = 0).
    { destruct (count_pending is_submit (m_pending m)) as [|[|n]] eqn:E; [done| |lia].
      exfalso. assert (Hs : submitting (m_state m) = true) by (apply I2; reflexivity).
      congruence. }
    destruct (truthy (editingReview (m_state m))); unfold page_inv, issue;
      cbn [fst m_state m_pending set_submitting submitting loading];
      rewrite !count_pending_app; cbn [snd is_load is_submit];
      (split; [intros Hx; apply I1 in Hx; lia|]); (split; [split; [intros _|]|]); lia.
  - case_guards; intros [= <- _]; try discriminate. by apply (page_inv_same m).
  - destruct (review_with_controls c (m_state m) i); cbn; [|discriminate].
    intros [= <- _]. by apply (page_inv_same m).
  - destruct (review_with_controls c (m_state m) i); cbn; [|discriminate].
    intros Hst. apply some_pair_fst in Hst as ->.
    unfold handleDeleteReview. destruct (usable_token c), conf; try done.
    apply page_inv_issue; cbn; (congruence || done).
  - destruct (render (m_state m)); try discriminate. case_guards; intros Hst; try discriminate.
    by injection Hst as <- _.
  - destruct (render (m_state m)); try discriminate. case_guards; intros Hst; try discriminate.
    apply some_pair_fst in Hst as ->.
    unfold handleDeleteBook. destruct (usable_token c), conf; try done.
    apply page_inv_issue; cbn; (congruence || done).
  - destruct (m_pending m !! i) as [[cl k]|] eqn:Hi; cbn; [|discriminate].
    intros Hst. apply some_pair_fst in Hst as ->. by eapply page_inv_settle.
Qed.

(** C5: in every reachable state of the page, the loading spinner is
    shown only while a [getBook] request is in flight, and [submitting] is
    set exactly while a review submission is in flight, of which there is
    never more than one (the disabled submit button prevents a second). *)
Theorem reachable_page_inv (id : string) (m : machine) :
  reachable id m -> page_inv m.
Proof.
  induction 1 as [|c m ev m' effs _ IH Hstep].
  - unfold page_inv, mount, loadBook, issue. cbn. split; [lia|]. split; [split; discriminate|lia].
  - by eapply page_inv_step.
Qed.

Lemma reachable_page_inv_witness :
  reachable "b1" (fst (mount "b1")) /\ page_inv (fst (mount "b1")).
Proof.
  assert (H : reachable "b1" (fst (mount "b1"))) by constructor.
  split; [exact H|]. exact (reachable_page_inv "b1" _ H).
Defined.

(** C17: when loading the book fails (for instance with a 404), the page
    shows "Book not found", nothing is pending, and no control is left that
    could issue another call. *)
Theorem load_failure_not_found (c : auth_ctx) (id : string) (fr : fetch_result) (f : failure) :
  run (CGetBook id) fr = Rejected f ->
  exists m', step c (fst (mount id)) (EvSettle 0 fr) = Some (m', [ELogError]) /\
    render (m_state m') = VNotFound /\ m_pending m' = [] /\
    forall c' ev, step c' m' ev = None.
Proof.
  intros Hrun. eexists. split.
  - unfold mount, loadBook, issue. cbn -[run]. rewrite Hrun. reflexivity.
  - split; [reflexivity|]. split; [reflexivity|]. intros c' ev. by destruct ev.
Qed.

Lemma load_failure_not_found_witness :
  let fr := Received (mkResponse 404 (Some (JObj [("error", JStr "Book not found")]))) in
  run (CGetBook "abc") fr = Rejected (Thrown "Failed to fetch book") /\
  exists m', step stale_ctx (fst (mount "abc")) (EvSettle 0 fr) = Some (m', [ELogError]) /\
    render (m_state m') = VNotFound.
Proof.
  cbv zeta. split; [reflexivity|].
  match goal with
  | |- context [EvSettle 0 ?fr] =>
      destruct (load_failure_not_found stale_ctx "abc" fr _ eq_refl) as (m' & H1 & H2 & _)
  end.
  by exists m'.
Defined.

(** C18: when deleting a review fails, the page alerts the error and
    changes nothing else: the review list is not fetched again. *)
Theorem delete_review_failure (c : auth_ctx) (m : machine) (i : nat) (cl : call)
    (fr : fetch_result) (f : failure) :
  m_pending m !! i = Some (cl, KDeleteReview) -> run cl fr = Rejected f ->
  step c m (EvSettle i fr) = Some (mkM (m_id m) (m_state m) (delete i (m_pending m)), [EAlert f]).
Proof. intros Hi Hrun. unfold step. rewrite Hi. cbn -[run]. by rewrite Hrun. Qed.

Lemma delete_review_failure_witness :
  let m := mkM "b1" initial [(CDeleteReview "tok" "r1", KDeleteReview)] in
  let fr := Received (mkResponse 403 (Some (JObj [("error", JStr "Not authorized")]))) in
  step stale_ctx m (EvSettle 0 fr) = Some (mkM "b1" initial [], [EAlert (Thrown "Not authorized")]).
Proof.
  cbv zeta.
  match goal with
  | |- step _ ?m (EvSettle 0 ?fr) = _ =>
      exact (delete_review_failure stale_ctx m 0 (CDeleteReview "tok" "r1") fr
               (Thrown "Not authorized") eq_refl eq_refl)
  end.
Defined.

End BookDetail.
