(* ===== verification/Home.v ===== *)
(** The home page, [src/src/pages/Home.tsx]: the paginated book list.

    The page keeps four hooks ([hstate]).  [useEffect(..., [currentPage])]
    runs [loadBooks(currentPage)] after every render in which [currentPage]
    differs from the value of its previous run; [hmachine] records that
    value ([h_effect_page]) and the pages whose [getBooks] is in flight.
    [hstep] applies one event (a click on a rendered, enabled button, or
    the settling of a pending request) and then runs the effect when its
    dependency changed, as React does after the commit of a discrete event.

    Page numbers are integers ([Z]).  Lines 26-28 store [data.books],
    [data.totalPages] and [data.currentPage] whatever they hold; a 2xx
    body whose page fields are not numbers (say [{}]) would leave
    [undefined] in the hooks, which [Z] cannot hold, so such a body is
    outside the model: [decode_list] treats it like a body that cannot be
    read (only [loading] is cleared).  The typed server of [BookCard]
    excludes it. *)

From Stdlib Require Import ZArith Lia.
From stdpp Require Import base list strings.
From S2P Require Import Prelude JsValue Api.

Open Scope book_scope.

Module Home.
Import Api.

(** The hooks of lines 17-20. *)
Record hstate := mkH {
  books : jsval;        (** [useState<Book[]>([])] *)
  loading : bool;       (** [useState(true)] *)
  currentPage : Z;      (** [useState(1)] *)
  totalPages : Z        (** [useState(1)] *)
}.

Definition initial : hstate := mkH (JArr []) true 1 1.

Record hmachine := mkHM {
  h_state : hstate;
  h_effect_page : option Z;   (** the dependency of the effect's last run *)
  h_pending : list Z          (** pages whose [getBooks] is in flight *)
}.

Inductive heffect := HCall (c : call) | HLogError.

Definition as_int (v : jsval) : option Z := match v with JNum n => Some n | _ => None end.

(** [data.books], [data.totalPages], [data.currentPage]. *)
Definition decode_list (data : jsval) : option (jsval * Z * Z) :=
  bs ← prop data "books";
  tp ← prop data "totalPages" ≫= as_int;
  cp ← prop data "currentPage" ≫= as_int;
  Some (bs, tp, cp).

(** [loadBooks(page)] up to its [await], lines 22-25. *)
Definition loadBooks (m : hmachine) (page : Z) : hmachine * list heffect :=
  let s := h_state m in
  (mkHM (mkH (books s) true (currentPage s) (totalPages s)) (h_effect_page m)
        (h_pending m ++ [page]),
   [HCall (CGetBooks (Some page) (Some 12%Z))]).

(** [loadBooks] after its [await], lines 26-33. *)
Definition loadBooks_settle (s : hstate) (o : outcome) : hstate * list heffect :=
  match o with
  | Resolved data =>
      match decode_list data with
      | Some (bs, tp, cp) => (mkH bs false cp tp, [])
      | None => (mkH (books s) false (currentPage s) (totalPages s), [HLogError])
      end
  | Rejected _ => (mkH (books s) false (currentPage s) (totalPages s), [HLogError])
  end.

(** The effect of lines 36-38, run after a render. *)
Definition run_effect (m : hmachine) : hmachine * list heffect :=
  let cp := currentPage (h_state m) in
  if bool_decide (h_effect_page m = Some cp) then (m, [])
  else loadBooks (mkHM (h_state m) (Some cp) (h_pending m)) cp.

(** Mounting: the first render runs the effect. *)
Definition mount : hmachine * list heffect := run_effect (mkHM initial None []).

(** [Array.from({ length: totalPages }, (_, i) => i + 1)], line 88. *)
Definition page_numbers (tp : Z) : list Z := map (fun i => Z.of_nat i + 1)%Z (seq 0 (Z.to_nat tp)).

Inductive hview :=
| HLoading                                  (** lines 40-49 *)
| HCrash                                    (** [books.length] on a non-array *)
| HEmpty                                    (** lines 63-68 *)
| HList (items : list jsval) (pagination : option (list (Z * bool))).
    (** lines 70-112; each page button with whether it is highlighted *)

(** Line 63 tests [books.length === 0]: an empty string, or an object
    whose [length] is [0], also shows the empty message; otherwise
    [books.map] (line 72) needs an array, and [books.length] throws on
    [null] and [undefined]. *)
Definition render (s : hstate) : hview :=
  if loading s then HLoading
  else match books s with
       | JArr [] => HEmpty
       | JArr items =>
           HList items (if (1 <? totalPages s)%Z
                        then Some (map (fun p => (p, Z.eqb (currentPage s) p)) (page_numbers (totalPages s)))
                        else None)
       | JStr str => if String.eqb str "" then HEmpty else HCrash
       | JObj _ => if prop_opt (books s) "length" === JNum 0 then HEmpty else HCrash
       | _ => HCrash
       end.

(** The pagination controls are rendered, line 77. *)
Definition pagination_visible (s : hstate) : bool :=
  match render s with HList _ (Some _) => true | _ => false end.

Inductive hevent :=
| HPrev                        (** line 80 *)
| HPage (p : Z)                (** line 91 *)
| HNext                        (** line 104 *)
| HSettle (i : nat) (fr : fetch_result).

Definition set_page (s : hstate) (p : Z) : hstate := mkH (books s) (loading s) p (totalPages s).

(** The [onClick] of the buttons and the settling of a request, before
    the effect runs.  [None] when the button is not rendered or disabled. *)
Definition handle (m : hmachine) (ev : hevent) : option (hmachine * list heffect) :=
  let s := h_state m in
  match ev with
  | HPrev =>
      if pagination_visible s && negb (Z.eqb (currentPage s) 1)
      then Some (mkHM (set_page s (Z.max 1 (currentPage s - 1))) (h_effect_page m) (h_pending m), [])
      else None
  | HNext =>
      if pagination_visible s && negb (Z.eqb (currentPage s) (totalPages s))
      then Some (mkHM (set_page s (Z.min (totalPages s) (currentPage s + 1))) (h_effect_page m) (h_pending m), [])
      else None
  | HPage p =>
      if pagination_visible s && existsb (Z.eqb p) (page_numbers (totalPages s))
      then Some (mkHM (set_page s p) (h_effect_page m) (h_pending m), [])
      else None
  | HSettle i fr =>
      page ← h_pending m !! i;
      let '(s', effs) := loadBooks_settle s (run (CGetBooks (Some page) (Some 12%Z)) fr) in
      Some (mkHM s' (h_effect_page m) (delete i (h_pending m)), effs)
  end.

Definition hstep (m : hmachine) (ev : hevent) : option (hmachine * list heffect) :=
  '(m1, e1) ← handle m ev;
  let '(m2, e2) := run_effect m1 in
  Some (m2, e1 ++ e2).

Inductive reachable : hmachine -> Prop :=
| reach_mount : reachable (fst mount)
| reach_step m ev m' effs : reachable m -> hstep m ev = Some (m', effs) -> reachable m'.

Fixpoint run_events (m : hmachine) (evs : list hevent) : option (hmachine * list heffect) :=
  match evs with
  | [] => Some (m, [])
  | ev :: evs' =>
      '(m1, e1) ← hstep m ev;
      '(m2, e2) ← run_events m1 evs';
      Some (m2, e1 ++ e2)
  end.

(** The invariant of the page: the effect has run for the current page,
    and a request for exactly that page is in flight while the spinner
    shows, and none otherwise. *)
Definition home_inv (m : hmachine) : Prop :=
  h_effect_page m = Some (currentPage (h_state m)) /\
  h_pending m = (if loading (h_state m) then [currentPage (h_state m)] else []).

(** A server answering every page request with [200] and a list. *)
Definition ok_list (bs : list jsval) (tp cp : Z) : fetch_result :=
  Received (mkResponse 200 (Some (JObj [("books", JArr bs); ("totalPages", JNum tp); ("currentPage", JNum cp)]))).

Section Server.
Variable srv : Z -> list jsval * Z * Z.

(** Answer the request in flight, if any. *)
Definition serve (m : hmachine) : option (hmachine * list heffect) :=
  match h_pending m with
  | [p] => let '(bs, tp, cp) := srv p in hstep m (HSettle 0 (ok_list bs tp cp))
  | _ => None
  end.

(** Answer requests until none is in flight, with at most [fuel] answers. *)
Fixpoint serve_until (fuel : nat) (m : hmachine) : option hmachine :=
  match h_pending m with
  | [] => Some m
  | _ => match fuel with
         | O => None
         | S n => '(m', _) ← serve m; serve_until n m'
         end
  end.
End Server.

(** The scenario of the finding: a second page that has emptied. *)
Definition empty_page_events : list hevent :=
  [HSettle 0 (ok_list [JObj [("_id", JStr "b1")]] 2 1); HNext; HSettle 0 (ok_list [] 1 2)].

(** The machine right after the request for page [p] settled with a list
    whose [currentPage] is [c], before the effect runs. *)
Definition settled (bs : list jsval) (tp c p : Z) : hmachine := mkHM (mkH (JArr bs) false c tp) (Some p) [].

(** ** Lemmas *)

Lemma pagination_visible_not_loading s : pagination_visible s = true -> loading s = false.
Proof. unfold pagination_visible, render. by destruct (loading s). Qed.

Lemma settle_not_loading s o : loading (fst (loadBooks_settle s o)) = false.
Proof. destruct o as [v|f]; cbn; [destruct (decode_list v) as [[[bs tp] cp]|]|]; done. Qed.

Lemma inv_after_effect m :
  h_pending m = [] -> loading (h_state m) = false -> home_inv (fst (run_effect m)).
Proof.
  intros Hp Hl. unfold run_effect, home_inv.
  case_bool_decide as He; cbn; [rewrite Hl, Hp; done|]. by rewrite Hp.
Qed.

Lemma handle_quiet m ev m1 e1 :
  home_inv m -> handle m ev = Some (m1, e1) ->
  h_pending m1 = [] /\ loading (h_state m1) = false.
Proof.
  intros [He Hp]. destruct ev as [| p | | i fr]; cbn [handle].
  - case_guards; intros Hs; try discriminate. injection Hs as <- _.
    apply pagination_visible_not_loading in H. cbn. by rewrite Hp, H.
  - case_guards; intros Hs; try discriminate. injection Hs as <- _.
    apply pagination_visible_not_loading in H. cbn. by rewrite Hp, H.
  - case_guards; intros Hs; try discriminate. injection Hs as <- _.
    apply pagination_visible_not_loading in H. cbn. by rewrite Hp, H.
  - rewrite Hp. destruct (loading (h_state m)); [|destruct i; discriminate].
    destruct i as [|i]; [|destruct i; discriminate]. cbn -[run loadBooks_settle].
    destruct (loadBooks_settle _ _) as [s' effs] eqn:E. intros [= <- _].
    split; [done|]. cbn. by rewrite <- (settle_not_loading (h_state m)
      (run (CGetBooks (Some (currentPage (h_state m))) (Some 12%Z)) fr)), E.
Qed.

Lemma hstep_inv m ev m' effs : home_inv m -> hstep m ev = Some (m', effs) -> home_inv m'.
Proof.
  intros Hi. unfold hstep. destruct (handle m ev) as [[m1 e1]|] eqn:E; [|discriminate].
  destruct (handle_quiet m ev m1 e1 Hi E) as [Hp Hl]. cbn.
  destruct (run_effect m1) as [m2 e2] eqn:E2. intros [= <- _].
  pose proof (inv_after_effect m1 Hp Hl) as H. by rewrite E2 in H.
Qed.

Lemma reachable_home_inv_all m : reachable m -> home_inv m.
Proof.
  induction 1 as [|m ev m' effs _ IH Hs]; [split; reflexivity|]. by eapply hstep_inv.
Qed.

Lemma filter_seq_below (k s n : nat) :
  (k < s)%nat -> List.filter (fun i => Nat.eqb i k) (seq s n) = [].
Proof.
  revert s. induction n as [|n IH]; intros s Hk; [done|]. cbn.
  rewrite (proj2 (Nat.eqb_neq s k)) by lia. apply IH. lia.
Qed.

Lemma filter_seq_one (k s n : nat) :
  (s <= k < s + n)%nat -> List.filter (fun i => Nat.eqb i k) (seq s n) = [k].
Proof.
  revert s. induction n as [|n IH]; intros s Hk; [lia|]. cbn.
  destruct (Nat.eqb_spec s k) as [->|Hne].
  - by rewrite filter_seq_below by lia.
  - apply IH. lia.
Qed.

(** Exactly one page button is highlighted, the current page, when it is
    in range. *)
Lemma page_numbers_highlight (tp p : Z) :
  (1 <= p <= tp)%Z ->
  List.filter (fun q => Z.eqb p q) (page_numbers tp) = [p].
Proof.
  intros Hp. unfold page_numbers.
  assert (Hf : forall l, List.filter (fun q => Z.eqb p q) (map (fun i => Z.of_nat i + 1)%Z l) =
                         map (fun i => Z.of_nat i + 1)%Z
                           (List.filter (fun i => Nat.eqb i (Z.to_nat (p - 1))) l)).
  { induction l as [|i l IH]; [done|]. cbn. rewrite IH.
    destruct (Z.eqb_spec p (Z.of_nat i + 1)), (Nat.eqb_spec i (Z.to_nat (p - 1))); cbn;
      first [done | lia]. }
  rewrite Hf, filter_seq_one by lia. cbn. f_equal. lia.
Qed.

Lemma hstep_settle_ok m bs tp c : home_inv m -> loading (h_state m) = true ->
  hstep m (HSettle 0 (ok_list bs tp c)) = Some (run_effect (settled bs tp c (currentPage (h_state m)))).
Proof.
  intros [He Hp] Hl. rewrite Hl in Hp. unfold hstep, handle. rewrite Hp. cbn -[run_effect]. rewrite He.
  by destruct run_effect.
Qed.

Lemma run_effect_settled_same bs tp p :
  run_effect (settled bs tp p p) = (settled bs tp p p, []).
Proof. unfold run_effect. cbn. by rewrite bool_decide_eq_true_2. Qed.

Lemma run_effect_settled_other bs tp c p : c <> p ->
  fst (run_effect (settled bs tp c p)) = mkHM (mkH (JArr bs) true c tp) (Some c) [c].
Proof. intros Hc. unfold run_effect. cbn. rewrite bool_decide_eq_false_2 by congruence. done. Qed.

Lemma serve_reachable srv m m' e : reachable m -> serve srv m = Some (m', e) -> reachable m'.
Proof.
  unfold serve. destruct (h_pending m) as [|p [|]]; try discriminate.
  destruct (srv p) as [[bs tp] c]. intros Hr Hs. by eapply reach_step.
Qed.

Lemma serve_loading srv m bs tp c : reachable m -> loading (h_state m) = true ->
  srv (currentPage (h_state m)) = (bs, tp, c) ->
  serve srv m = Some (run_effect (settled bs tp c (currentPage (h_state m)))).
Proof.
  intros Hr Hl E. pose proof (reachable_home_inv_all m Hr) as Hi.
  pose proof (proj2 Hi) as Hp. rewrite Hl in Hp. unfold serve. rewrite Hp, E.
  by apply hstep_settle_ok.
Qed.

Lemma home_run_events_reachable m evs m' effs :
  reachable m -> run_events m evs = Some (m', effs) -> reachable m'.
Proof.
  revert m effs. induction evs as [|ev evs IH]; intros m effs Hr; cbn; [by intros [= <- _]|].
  destruct (hstep m ev) as [[m1 e1]|] eqn:E; [|discriminate]. cbn.
  destruct (run_events m1 evs) as [[m2 e2]|] eqn:E2; [|discriminate]. intros [= <- _].
  eapply IH; [|exact E2]. by eapply reach_step.
Qed.

(** ** Properties *)

(** C20: in every reachable state of the home page, the effect has run for
    the current page, and a [getBooks] for exactly that page is in flight
    while the spinner shows and none otherwise: at most one request is in
    flight, so no stale response can overwrite a newer page. *)
Theorem reachable_home_inv (m : hmachine) :
  reachable m ->
  h_effect_page m = Some (currentPage (h_state m)) /\
  h_pending m = (if loading (h_state m) then [currentPage (h_state m)] else []).
Proof. apply reachable_home_inv_all. Qed.

Lemma reachable_home_inv_witness :
  reachable (fst mount) /\ h_pending (fst mount) = [1%Z].
Proof.
  assert (H : reachable (fst mount)) by constructor. split; [exact H|].
  destruct (reachable_home_inv _ H) as [_ Hp]. exact Hp.
Defined.

(** C24: the previous, next and numbered buttons keep the current page
    between 1 and the number of pages, when it was in that range. *)
Theorem page_click_in_range (m : hmachine) (ev : hevent) (m1 : hmachine) (e1 : list heffect) :
  (1 <= currentPage (h_state m) <= totalPages (h_state m))%Z ->
  (forall i fr, ev <> HSettle i fr) ->
  handle m ev = Some (m1, e1) ->
  (1 <= currentPage (h_state m1) <= totalPages (h_state m1))%Z.
Proof.
  intros Hr Hev. destruct ev as [| p | | i fr]; cbn [handle];
    [ | | | by destruct (Hev i fr)]; case_guards; intros Hs; try discriminate;
    injection Hs as <- _; cbn; try lia.
  match goal with H : existsb _ _ = true |- _ => apply existsb_exists in H as (q & Hq & Heq) end.
  apply Z.eqb_eq in Heq as <-. unfold page_numbers in Hq.
  apply in_map_iff in Hq as (i & <- & Hi). apply in_seq in Hi. lia.
Qed.

Lemma page_click_in_range_witness :
  let m := mkHM (mkH (JArr [JNull]) false 1 5) (Some 1%Z) [] in
  handle m HNext = Some (mkHM (mkH (JArr [JNull]) false 2 5) (Some 1%Z) [], []) /\
  (1 <= 2 <= 5)%Z.
Proof.
  cbv zeta. split; [reflexivity|].
  exact (page_click_in_range (mkHM (mkH (JArr [JNull]) false 1 5) (Some 1%Z) []) HNext _ []
           ltac:(cbn; lia) ltac:(discriminate) eq_refl).
Defined.

(** C19: when the request for the current page [p] returns that page with
    a non-empty list and [totalPages > 1], the page shows the list with the
    buttons [1..totalPages], exactly one of them highlighted, [p], and
    issues no further request. *)
Theorem settle_current_page (m : hmachine) (bs : list jsval) (tp : Z) :
  home_inv m -> loading (h_state m) = true -> bs <> [] -> (1 < tp)%Z ->
  (1 <= currentPage (h_state m) <= tp)%Z ->
  let p := currentPage (h_state m) in
  exists m',
    hstep m (HSettle 0 (ok_list bs tp p)) = Some (m', []) /\ h_pending m' = [] /\
    render (h_state m') = HList bs (Some (map (fun q => (q, Z.eqb p q)) (page_numbers tp))) /\
    List.filter (fun q => Z.eqb p q) (page_numbers tp) = [p].
Proof.
  intros [He Hp] Hl Hbs Htp Hr. cbv zeta. rewrite Hl in Hp. eexists. split; [|split; [|split]].
  - unfold hstep, handle. rewrite Hp. cbn -[page_numbers]. unfold run_effect. cbn.
    rewrite He. rewrite bool_decide_eq_true_2 by done. reflexivity.
  - reflexivity.
  - unfold render. cbn. destruct bs; [done|]. by rewrite (proj2 (Z.ltb_lt 1 tp) Htp).
  - by apply page_numbers_highlight.
Qed.

Lemma settle_current_page_witness :
  exists m', hstep (fst mount) (HSettle 0 (ok_list [JObj [("_id", JStr "b1")]] 5 1)) = Some (m', []) /\
    h_pending m' = [].
Proof.
  destruct (settle_current_page (fst mount) [JObj [("_id", JStr "b1")]] 5
              (reachable_home_inv_all _ reach_mount) eq_refl ltac:(discriminate) ltac:(lia)
              ltac:(vm_compute; split; discriminate)) as (m' & H1 & H2 & _).
  by exists m'.
Defined.

(** C22: when the server reports, for the page it returns, that same page
    again, every load settles within two answers: the effect refetches at
    most once (when the reported [currentPage] differs from the requested
    one), and the page ends on the reported page with nothing in flight. *)
Theorem refetch_settles (srv : Z -> list jsval * Z * Z) (m : hmachine) :
  (forall p, snd (srv (snd (srv p))) = snd (srv p)) ->
  reachable m -> loading (h_state m) = true ->
  exists m', serve_until srv 2 m = Some m' /\ reachable m' /\
    loading (h_state m') = false /\ h_pending m' = [] /\
    currentPage (h_state m') = snd (srv (currentPage (h_state m))).
Proof.
  intros Hsrv Hr Hl. pose proof (proj2 (reachable_home_inv_all m Hr)) as Hp. rewrite Hl in Hp.
  specialize (Hsrv (currentPage (h_state m))).
  destruct (srv (currentPage (h_state m))) as [[bs tp] c] eqn:E. cbn in Hsrv |- *.
  pose proof (serve_loading srv m bs tp c Hr Hl E) as Hs.
  destruct (decide (c = currentPage (h_state m))) as [->|Hc].
  - rewrite run_effect_settled_same in Hs. eexists. rewrite Hp. cbn -[serve]. rewrite Hs.
    split; [reflexivity|]. split; [by eapply serve_reachable|]. done.
  - destruct (run_effect (settled bs tp c _)) as [m1 e1] eqn:E1.
    pose proof (run_effect_settled_other bs tp c _ Hc) as Hm1. rewrite E1 in Hm1. cbn in Hm1. subst m1.
    assert (Hr1 : reachable (mkHM (mkH (JArr bs) true c tp) (Some c) [c])) by (eapply serve_reachable; eauto).
    destruct (srv c) as [[bs' tp'] c'] eqn:E'. cbn in Hsrv. subst c'.
    pose proof (serve_loading srv _ bs' tp' c Hr1 eq_refl E') as Hs1.
    rewrite run_effect_settled_same in Hs1.
    eexists. rewrite Hp. cbn -[serve]. rewrite Hs. cbn -[serve]. rewrite Hs1. cbn.
    split; [reflexivity|]. split; [by do 2 (eapply serve_reachable; eauto)|]. done.
Qed.


Lemma refetch_settles_witness :
  exists m', serve_until (fun p => ([JNull], 3%Z, Z.min p 3)) 2 (fst mount) = Some m'.
Proof.
  destruct (refetch_settles (fun p => ([JNull], 3%Z, Z.min p 3)) (fst mount)
              ltac:(intros p; cbn; lia) reach_mount eq_refl) as (m' & Hs & _).
  by exists m'.
Defined.

(** C23: when the server never reports the page it was asked for, the
    [currentPage] effect refetches forever: no amount of answers leaves
    the page without a request in flight. *)
Theorem serve_until_diverges (srv : Z -> list jsval * Z * Z) (n : nat) :
  (forall p, snd (srv p) <> p) ->
  forall m, reachable m -> loading (h_state m) = true -> serve_until srv n m = None.
Proof.
  intros Hsrv. induction n as [|n IH]; intros m Hr Hl;
    pose proof (proj2 (reachable_home_inv_all m Hr)) as Hp; rewrite Hl in Hp;
    cbn -[serve]; rewrite Hp; [done|].
  specialize (Hsrv (currentPage (h_state m))).
  destruct (srv (currentPage (h_state m))) as [[bs tp] c] eqn:E. cbn in Hsrv.
  pose proof (serve_loading srv m bs tp c Hr Hl E) as Hs. rewrite Hs.
  destruct (run_effect (settled bs tp c _)) as [m1 e1] eqn:E1.
  pose proof (run_effect_settled_other bs tp c _ Hsrv) as Hm1. rewrite E1 in Hm1. cbn in Hm1. subst m1.
  apply IH; [by eapply serve_reachable; eauto|done].
Qed.


Lemma serve_until_diverges_witness :
  serve_until (fun p => ([JNull], 5%Z, (p + 1)%Z)) 10 (fst mount) = None.
Proof.
  apply serve_until_diverges; [intros p; cbn; lia|constructor|reflexivity].
Defined.

(** C21: a second page that empties between loads (the server answers
    page 2 with no books and one page in all) leaves the page showing the
    empty message on page 2, with no pagination and nothing in flight, so
    that no event applies any more: page 1 cannot be reached again. *)
Theorem empty_page_stuck :
  exists m effs, run_events (fst mount) empty_page_events = Some (m, effs) /\ reachable m /\
    render (h_state m) = HEmpty /\ currentPage (h_state m) = 2%Z /\ totalPages (h_state m) = 1%Z /\
    h_pending m = [] /\ forall ev, hstep m ev = None.
Proof.
  destruct (run_events (fst mount) empty_page_events) as [[m effs]|] eqn:E; [|discriminate].
  exists m, effs. split; [done|]. split; [by eapply home_run_events_reachable; [constructor|exact E]|].
  vm_compute in E. injection E as <- _. split; [reflexivity|]. do 3 (split; [reflexivity|]).
  intros [| p | | [|i] fr]; vm_compute; reflexivity.
Qed.

End Home.
