(* ===== verification/BookCard.v ===== *)
(** The book card, [src/src/components/BookCard.tsx], and the home page's
    list of cards (line 73 of [src/src/pages/Home.tsx]).

    [card_props] is what [<BookCard key={book._id} id={book._id} {...book} />]
    passes for one item of the list; [render_card] is the card's render
    (the click target, the image source, the texts and the rating label),
    [None] when rendering throws.  The cover image is the machine of
    [Display] ([img_step]) with the card's fallback URL.  [book_typed] is
    the [Book] interface of
    Home.tsx (lines 6-14) as a check on JSON values, and [treachable] the
    states of the home page reached when the server answers with lists of
    such books. *)

From Stdlib Require Import ZArith QArith Lia.
From stdpp Require Import base list strings.
From S2P Require Import Prelude JsValue JsNumber Display Api Session Routes Home.

Open Scope book_scope.

Module BookCard.
Import Api Session Routes JsNumber Display.

(** [interface BookCardProps], lines 4-12. *)
Record props := mkProps {
  id : jsval;
  title : jsval;
  author : jsval;
  genre : jsval;
  imageUrl : jsval;
  averageRating : jsval;
  reviewCount : jsval
}.

(** An own enumerable property of a spread source: only an object
    contributes named properties. *)
Definition own (v : jsval) (k : string) : option jsval :=
  match v with JObj fs => assoc_last k fs | _ => None end.

(** Home.tsx line 73.  [book._id] throws on a nullish item; the spread
    comes after [id=], so an item with its own [id] property overrides it. *)
Definition card_props (book : jsval) : option props :=
  bid ← prop book "_id";
  let spread k d := default d (own book k) in
  Some (mkProps (spread "id" bid) (spread "title" JUndefined) (spread "author" JUndefined)
                (spread "genre" JUndefined) (spread "imageUrl" JUndefined)
                (spread "averageRating" JUndefined) (spread "reviewCount" JUndefined)).

(** Line 27, [navigate(`/book/${id}`)]. *)
Definition onClick (p : props) : string := "/book/" +:+ js_to_string (id p).

Record card_view := mkCard {
  cv_path : string;             (** where a click navigates *)
  cv_src : option string;       (** the [src] of the image *)
  cv_title : string;            (** line 43 *)
  cv_author : string;           (** line 46 *)
  cv_genre : string;            (** line 50 *)
  cv_rating : string;           (** line 56 *)
  cv_reviews : string           (** line 59 *)
}.

(** The render, lines 25-65. *)
Definition render_card (p : props) : option card_view :=
  t ← react_child (title p);
  a ← react_child (author p);
  g ← react_child (genre p);
  r ← rating_label (averageRating p);
  n ← react_child (reviewCount p);
  Some (mkCard (onClick p) (src_attr (imageUrl p)) t a g r n).

Definition card (book : jsval) : option card_view := card_props book ≫= render_card.

(** The cards of the home page, lines 71-75; [None] when one of them
    throws, which unmounts the page. *)
Definition home_cards (s : Home.hstate) : option (list card_view) :=
  match Home.render s with
  | Home.HList items _ => mapM card items
  | _ => Some []
  end.

(** *** The image and its fallback, lines 31-38 *)

Definition FALLBACK_IMAGE : string :=
  "https://images.pexels.com/photos/1301585/pexels-photo-1301585.jpeg?auto=compress&cs=tinysrgb&w=400".

(** The card's [<img>]: it starts fetching [src] and its [onError]
    assigns [FALLBACK_IMAGE]. *)
Definition card_image (cv : card_view) : img := img_mount (cv_src cv).

Definition card_image_step (loads : string -> bool) : img -> option img :=
  img_step loads FALLBACK_IMAGE.

(** *** The [Book] interface, Home.tsx lines 6-14 *)

Definition is_string (v : jsval) : bool := match v with JStr _ => true | _ => false end.
Definition is_number (v : jsval) : bool := match v with JNum _ => true | _ => false end.

Definition book_typed (v : jsval) : bool :=
  match v with
  | JObj fs =>
      forallb (fun k => is_string (default JUndefined (assoc_last k fs)))
              ["_id"; "title"; "author"; "genre"; "imageUrl"] &&
      forallb (fun k => is_number (default JUndefined (assoc_last k fs)))
              ["averageRating"; "reviewCount"]
  | _ => false
  end.

(** A [getBooks] result of the type the page declares: a failure (the
    network, an error status, or a body that is not JSON, all caught by
    [loadBooks]), or a 2xx JSON body [{ books: Book[], totalPages,
    currentPage }] with numbers for the pages. *)
Definition result_typed (fr : fetch_result) : bool :=
  match fr with
  | Received r =>
      if res_ok r then
        match body r with
        | Some v =>
            match Home.decode_list v with
            | Some (JArr bs, _, _) => forallb book_typed bs
            | _ => false
            end
        | None => true
        end
      else true
  | NetworkFailure => true
  end.

Definition is_settle (ev : Home.hevent) : bool :=
  match ev with Home.HSettle _ _ => true | _ => false end.

(** The home page driven by clicks and by a server whose lists are typed. *)
Inductive treachable : Home.hmachine -> Prop :=
| treach_mount : treachable (fst Home.mount)
| treach_click m ev m' e :
    treachable m -> is_settle ev = false -> Home.hstep m ev = Some (m', e) -> treachable m'
| treach_settle m i fr m' e :
    treachable m -> result_typed fr = true -> Home.hstep m (Home.HSettle i fr) = Some (m', e) ->
    treachable m'.

Definition books_typed (s : Home.hstate) : Prop :=
  match Home.books s with JArr bs => forallb book_typed bs = true | _ => False end.

(** A book the server might send. *)
Definition sample_book : jsval :=
  JObj [("_id", JStr "65f0c1"); ("title", JStr "Dune"); ("author", JStr "Frank Herbert");
        ("genre", JStr "Science Fiction"); ("imageUrl", JStr "https://example.org/dune.jpg");
        ("averageRating", JNum 4); ("reviewCount", JNum 2)].

(** ** Lemmas *)

(** A typed book renders its card. *)
Lemma card_typed b : book_typed b = true -> is_Some (card b).
Proof.
  destruct b as [| | | | | |fs]; try discriminate. cbn [book_typed forallb].
  unfold card, card_props, render_card, own; cbn [prop mbind option_bind].
  repeat match goal with
  | |- context [assoc_last ?k fs] => destruct (assoc_last k fs) as [[]|]; cbn; try discriminate
  end; rewrite ?andb_false_r; try discriminate; intros _.
  all: destruct (rating_label_num n) as [? ->]; eauto.
Qed.

Lemma render_card_path p cv : render_card p = Some cv -> cv_path cv = onClick p.
Proof.
  unfold render_card. intros H. repeat apply bind_Some in H as (? & _ & H). by injection H as <-.
Qed.

(** Without an own [id], the card's [id] prop is the item's [_id]. *)
Lemma card_path b v cv :
  own b "_id" = Some v -> own b "id" = None -> card b = Some cv ->
  cv_path cv = "/book/" +:+ js_to_string v.
Proof.
  destruct b as [| | | | | |fs]; try discriminate. cbn [own]. intros Hid Hno.
  unfold card. intros (p & Hp & Hr)%bind_Some. rewrite (render_card_path p cv Hr).
  unfold card_props, own in Hp. cbn [prop mbind option_bind] in Hp. rewrite Hid, Hno in Hp.
  by injection Hp as <-.
Qed.

Lemma run_effect_books m :
  Home.books (Home.h_state (fst (Home.run_effect m))) = Home.books (Home.h_state m).
Proof. unfold Home.run_effect. by case_bool_decide. Qed.

Lemma handle_click_books m ev m1 e1 :
  is_settle ev = false -> Home.handle m ev = Some (m1, e1) ->
  Home.books (Home.h_state m1) = Home.books (Home.h_state m).
Proof.
  destruct ev; cbn [Home.handle is_settle]; try discriminate; intros _;
    case_guards; intros Hs; try discriminate; by injection Hs as <- _.
Qed.

Lemma settle_typed s p l fr :
  result_typed fr = true -> books_typed s ->
  books_typed (fst (Home.loadBooks_settle s (run (CGetBooks p l) fr))).
Proof.
  unfold result_typed, books_typed. destruct fr as [|r]; [done|]. cbn -[Home.decode_list].
  destruct (res_ok r); [|done]. unfold await_json.
  destruct (body r) as [data|]; cbn -[Home.decode_list]; [|done].
  destruct (Home.decode_list data) as [[[[] tp] cp]|]; cbn; done.
Qed.

Lemma hstep_typed m ev m' e :
  (is_settle ev = false \/ exists i fr, ev = Home.HSettle i fr /\ result_typed fr = true) ->
  books_typed (Home.h_state m) -> Home.hstep m ev = Some (m', e) -> books_typed (Home.h_state m').
Proof.
  intros Hev Ht. unfold Home.hstep.
  destruct (Home.handle m ev) as [[m1 e1]|] eqn:E; [|discriminate]. cbn.
  destruct (Home.run_effect m1) as [m2 e2] eqn:E2. intros [= <- _].
  pose proof (run_effect_books m1) as Hb. rewrite E2 in Hb. cbn in Hb.
  unfold books_typed. rewrite Hb. destruct Hev as [Hc | (i & fr & -> & Hfr)].
  - by rewrite (handle_click_books m ev m1 e1 Hc E).
  - cbn -[run Home.loadBooks_settle] in E.
    destruct (Home.h_pending m !! i) as [page|]; [|discriminate]. cbn -[run Home.loadBooks_settle] in E.
    destruct (Home.loadBooks_settle _ _) as [s' effs] eqn:Es. injection E as <- _.
    pose proof (settle_typed (Home.h_state m) (Some page) (Some 12%Z) fr Hfr Ht) as H.
    rewrite Es in H. exact H.
Qed.

Lemma treachable_typed m : treachable m -> books_typed (Home.h_state m).
Proof.
  induction 1 as [|m ev m' e _ IH Hc Hs|m i fr m' e _ IH Hfr Hs]; [done| |];
    (eapply hstep_typed; [|exact IH|exact Hs]); eauto.
Qed.

(** The spread of Home.tsx line 73 comes after [id=]: an item that has
    its own [id] property sends its card there, not to its [_id]. *)
Lemma spread_id_overrides :
  cv_path <$> card (JObj [("_id", JStr "65f0c1"); ("id", JStr "old-slug"); ("title", JStr "Dune");
                          ("averageRating", JNum 0)])
  = Some "/book/old-slug".
Proof. reflexivity. Qed.

(** ** Properties *)

(** C28: type soundness of the home page: when every list the server
    sends is a list of [Book]s (Home.tsx lines 6-14), the page never
    renders a non-array [books] and every card of the list renders
    without throwing, whatever the clicks and the order of the answers. *)
Theorem home_typed_cards_render (m : Home.hmachine) :
  treachable m ->
  Home.render (Home.h_state m) <> Home.HCrash /\ is_Some (home_cards (Home.h_state m)).
Proof.
  intros Hr. pose proof (treachable_typed m Hr) as Ht. unfold books_typed in Ht.
  unfold home_cards, Home.render.
  destruct (Home.books (Home.h_state m)) as [| | | | |bs|]; try contradiction.
  destruct (Home.loading _); [split; [discriminate|by eexists]|].
  destruct bs as [|b bs]; [split; [discriminate|by eexists]|].
  split; [discriminate|]. apply mapM_is_Some_2, Forall_forall. intros x Hx.
  apply card_typed. apply (proj1 (forallb_forall _ _) Ht). by apply list_elem_of_In.
Qed.

Lemma home_typed_cards_render_witness :
  match Home.hstep (fst Home.mount) (Home.HSettle 0 (Home.ok_list [sample_book] 1 1)) with
  | Some (m', _) => Home.render (Home.h_state m') <> Home.HCrash /\ is_Some (home_cards (Home.h_state m'))
  | None => False
  end.
Proof.
  destruct (Home.hstep _ _) as [[m' e]|] eqn:E; [|vm_compute in E; discriminate].
  apply home_typed_cards_render. exact (treach_settle _ 0 (Home.ok_list [sample_book] 1 1) _ _ treach_mount eq_refl E).
Defined.

(** C35: a click on the card of a book without an own [id] property opens
    that book's detail page, signed in or not, when its [_id] is a
    non-empty segment. *)
Theorem card_click_opens_detail (c : auth_ctx) (b : jsval) (s : string) :
  book_typed b = true -> own b "_id" = Some (JStr s) -> own b "id" = None ->
  route_param_ok (RBookDetail s) = true ->
  exists cv, card b = Some cv /\ guard c (cv_path cv) = Render (RBookDetail s).
Proof.
  intros Ht Hid Hno Hok. destruct (card_typed b Ht) as [cv Hc]. exists cv. split; [done|].
  rewrite (card_path b _ cv Hid Hno Hc). apply guard_public; [|done].
  apply (path_of_roundtrip (RBookDetail s) Hok).
Qed.

Lemma card_click_opens_detail_witness :
  exists cv, card sample_book = Some cv /\ guard (ctx_of no_session) (cv_path cv) = Render (RBookDetail "65f0c1").
Proof. apply card_click_opens_detail; reflexivity. Defined.

End BookCard.
