(* ===== verification/BookForm.v ===== *)
(** The book form, [src/src/pages/BookForm.tsx]: adding a book, or
    editing one when the route has an [:id].

    The page keeps eight hooks ([fstate]).  In edit mode the effect on
    [[id]] starts [loadBook], whose continuation copies the fields of the
    book into the form one after the other, stopping at the first that
    throws.  [handleSubmit] sends [createBook] or [updateBook] with the
    year read by [parseInt]; its continuation navigates home or shows the
    error.  As in [BookDetail], a [fmachine] holds the requests in flight
    with their continuations and [fstep] takes one event.  The browser's
    validation of the [type="url"] field is a Section variable
    [url_valid]: every theorem holds whatever URL parser the browser
    uses. *)

From Stdlib Require Import ZArith Lia Ascii.
From stdpp Require Import base list strings.
From S2P Require Import Prelude JsValue JsNumber Api Session Routes BookDetail.

Open Scope book_scope.

Module BookForm.
Import Api Session JsNumber.

(** The hooks of lines 12-19. *)
Record fstate := mkF {
  title : jsval;          (** [useState('')] *)
  author : jsval;
  genre : jsval;
  year : string;          (** [setYear] only ever receives strings *)
  description : jsval;
  imageUrl : jsval;
  loading : bool;         (** [useState(false)] *)
  error : option failure  (** [useState('')]: [None] is [''], [Some f] is [f.message] *)
}.

Definition initial : fstate :=
  mkF (JStr "") (JStr "") (JStr "") "" (JStr "") (JStr "") false None.

Definition set_title v s := mkF v (author s) (genre s) (year s) (description s) (imageUrl s) (loading s) (error s).
Definition set_author v s := mkF (title s) v (genre s) (year s) (description s) (imageUrl s) (loading s) (error s).
Definition set_genre v s := mkF (title s) (author s) v (year s) (description s) (imageUrl s) (loading s) (error s).
Definition set_year v s := mkF (title s) (author s) (genre s) v (description s) (imageUrl s) (loading s) (error s).
Definition set_description v s :=
  mkF (title s) (author s) (genre s) (year s) v (imageUrl s) (loading s) (error s).
Definition set_imageUrl v s :=
  mkF (title s) (author s) (genre s) (year s) (description s) v (loading s) (error s).
Definition set_loading v s :=
  mkF (title s) (author s) (genre s) (year s) (description s) (imageUrl s) v (error s).
Definition set_error v s :=
  mkF (title s) (author s) (genre s) (year s) (description s) (imageUrl s) (loading s) v.

(** [isEdit = !!id], line 8; [useParams().id] is [undefined] on
    /add-book. *)
Definition isEdit (id : option string) : bool :=
  match id with Some i => truthy (JStr i) | None => false end.

(** [v.toString()]: a [TypeError] on [null] and [undefined]. *)
Definition to_string_method (v : jsval) : option string :=
  match v with JUndefined | JNull => None | _ => Some (js_to_string v) end.

(** Run [k] with the value of a statement that may throw; a throw ends
    the [try] block, keeping the state reached so far.  [false]: it threw. *)
Definition try_set {A} (o : option A) (s : fstate) (k : A -> fstate * bool) : fstate * bool :=
  match o with Some a => k a | None => (s, false) end.

(** Lines 30-35, each setter in turn. *)
Definition prefill (data : jsval) (s : fstate) : fstate * bool :=
  try_set (prop data "title") s (fun v => let s := set_title v s in
  try_set (prop data "author") s (fun v => let s := set_author v s in
  try_set (prop data "genre") s (fun v => let s := set_genre v s in
  try_set (prop data "year" ≫= to_string_method) s (fun v => let s := set_year v s in
  try_set (prop data "description") s (fun v => let s := set_description v s in
  try_set (prop data "imageUrl") s (fun v => (set_imageUrl v s, true))))))).

(** What [JSON.stringify] sends for a property: [undefined] drops it. *)
Definition json_field (k : string) (v : jsval) : list (string * jsval) :=
  match v with JUndefined => [] | _ => [(k, v)] end.

(** [parseInt(year)] as sent: [JSON.stringify] writes [NaN] as [null]. *)
Definition year_json (y : string) : jsval :=
  match parseInt y with Some n => JNum n | None => JNull end.

(** [bookData], lines 49-56. *)
Definition bookData (s : fstate) : jsval :=
  JObj (json_field "title" (title s) ++ json_field "author" (author s) ++
        json_field "genre" (genre s) ++ [("year", year_json (year s))] ++
        json_field "description" (description s) ++
        json_field "imageUrl" (js_or (imageUrl s) JUndefined)).

Inductive fcont := KPrefill | KSave.

Inductive feffect :=
| FCall (c : call)
| FLogError                 (** [console.error(...)] *)
| FNavigate (path : string) (** [navigate('/')] *)
| FBack.                    (** [navigate(-1)] *)

Record fmachine := mkFM {
  f_id : option string;
  f_state : fstate;
  f_pending : list (call * fcont)
}.

Definition fwith_state (m : fmachine) (s : fstate) : fmachine := mkFM (f_id m) s (f_pending m).

Definition fissue (m : fmachine) (s : fstate) (c : call) (k : fcont) : fmachine * list feffect :=
  (mkFM (f_id m) s (f_pending m ++ [(c, k)]), [FCall c]).

(** [loadBook()] up to its [await], line 29. *)
Definition loadBook (m : fmachine) (i : string) : fmachine * list feffect :=
  fissue m (f_state m) (CGetBook i) KPrefill.

(** [loadBook()] after its [await], lines 30-38. *)
Definition loadBook_settle (s : fstate) (o : outcome) : fstate * list feffect :=
  match o with
  | Resolved data => let '(s', ok) := prefill data s in (s', if ok then [] else [FLogError])
  | Rejected _ => (s, [FLogError])
  end.

(** The effect of lines 21-25, on mount. *)
Definition mount (id : option string) : fmachine * list feffect :=
  let m := mkFM id initial [] in
  match id with
  | Some i => if isEdit id then loadBook m i else (m, [])
  | None => (m, [])
  end.

(** [handleSubmit] up to its [await], lines 41-62. *)
Definition handleSubmit (c : auth_ctx) (m : fmachine) : fmachine * list feffect :=
  match BookDetail.usable_token c with
  | None => (m, [])
  | Some t =>
      let s := set_loading true (set_error None (f_state m)) in
      match f_id m with
      | Some i => if isEdit (f_id m) then fissue m s (CUpdateBook t i (bookData (f_state m))) KSave
                  else fissue m s (CCreateBook t (bookData (f_state m))) KSave
      | None => fissue m s (CCreateBook t (bookData (f_state m))) KSave
      end
  end.

(** [handleSubmit] after its [await], lines 63-69. *)
Definition save_settle (s : fstate) (o : outcome) : fstate * list feffect :=
  match o with
  | Resolved _ => (set_loading false s, [FNavigate "/"])
  | Rejected f => (set_loading false (set_error (Some f) s), [])
  end.

Definition fsettle (m : fmachine) (k : fcont) (o : outcome) : fmachine * list feffect :=
  let '(s', effs) := match k with
                     | KPrefill => loadBook_settle (f_state m) o
                     | KSave => save_settle (f_state m) o
                     end in
  (fwith_state m s', effs).

Section Form.
Variable url_valid : string -> bool.

(** The value the DOM shows for a controlled input. *)
Definition dom_value (v : jsval) : string :=
  match v with JUndefined | JNull => "" | _ => js_to_string v end.

(** Constraint validation of the form, lines 91-174: the [required]
    fields, the year input ([min="1000"], [max="2100"]) and the URL. *)
Definition form_valid (s : fstate) : bool :=
  BookDetail.comment_filled (title s) && BookDetail.comment_filled (author s) &&
  BookDetail.comment_filled (genre s) && number_input_ok 1000 2100 (year s) &&
  BookDetail.comment_filled (description s) &&
  (String.eqb (dom_value (imageUrl s)) "" || url_valid (dom_value (imageUrl s))).

Inductive fevent :=
| EvTitle (v : string) | EvAuthor (v : string) | EvGenre (v : string)
| EvYear (v : string) | EvDescription (v : string) | EvImageUrl (v : string)
| EvSubmit        (** the submit button, line 178, or Enter in a field *)
| EvCancel        (** line 187 *)
| EvSettle (i : nat) (fr : fetch_result).

Definition fstep (c : auth_ctx) (m : fmachine) (ev : fevent) : option (fmachine * list feffect) :=
  let s := f_state m in
  match ev with
  | EvTitle v => Some (fwith_state m (set_title (JStr v) s), [])
  | EvAuthor v => Some (fwith_state m (set_author (JStr v) s), [])
  | EvGenre v => Some (fwith_state m (set_genre (JStr v) s), [])
  | EvYear v => if number_input_value v then Some (fwith_state m (set_year v s), []) else None
  | EvDescription v => Some (fwith_state m (set_description (JStr v) s), [])
  | EvImageUrl v => Some (fwith_state m (set_imageUrl (JStr v) s), [])
  | EvSubmit => if negb (loading s) && form_valid s then Some (handleSubmit c m) else None
  | EvCancel => Some (m, [FBack])
  | EvSettle i fr =>
      '(cl, k) ← f_pending m !! i;
      Some (fsettle (mkFM (f_id m) s (delete i (f_pending m))) k (run cl fr))
  end.

Inductive freachable (id : option string) : fmachine -> Prop :=
| freach_mount : freachable id (fst (mount id))
| freach_step c m ev m' effs :
    freachable id m -> fstep c m ev = Some (m', effs) -> freachable id m'.

Fixpoint frun_events (c : auth_ctx) (m : fmachine) (evs : list fevent)
    : option (fmachine * list feffect) :=
  match evs with
  | [] => Some (m, [])
  | ev :: evs' =>
      '(m1, e1) ← fstep c m ev;
      '(m2, e2) ← frun_events c m1 evs';
      Some (m2, e1 ++ e2)
  end.

End Form.

Definition is_save (k : fcont) : bool := match k with KSave => true | _ => false end.
Definition is_prefill (k : fcont) : bool := match k with KPrefill => true | _ => false end.

(** The invariant of the form: [loading] is set exactly while the one
    save is in flight, and at most one prefill is ever in flight. *)
Definition form_inv (m : fmachine) : Prop :=
  count_pending is_save (f_pending m) = (if loading (f_state m) then 1 else 0) /\
  count_pending is_prefill (f_pending m) <= 1.

(** A book as [getBook] returns it, with the fields the form reads. *)
Definition book_json (ti au ge : string) (n : Z) (de u : string) : jsval :=
  JObj [("title", JStr ti); ("author", JStr au); ("genre", JStr ge); ("year", JNum n);
        ("description", JStr de); ("imageUrl", JStr u)].

Definition ok_body (v : jsval) : fetch_result := Received (mkResponse 200 (Some v)).

(** The form once [loadBook] has copied such a book. *)
Definition loaded (s : fstate) (ti au ge : string) (n : Z) (de u : string) : fstate :=
  mkF (JStr ti) (JStr au) (JStr ge) (dec_of_Z n) (JStr de) (JStr u) (loading s) (error s).

(** The session of the scenarios: user [u1] with token [tok]. *)
Definition ann_ctx : auth_ctx := ctx_of (mkSession (Some (mkUser "u1" "ann" "a@b.c")) (Some "tok")).

(** The detail page of a book owned by [u1], loaded and idle. *)
Definition owned_book_page : BookDetail.machine :=
  BookDetail.mkM "65f0c1"
    (BookDetail.mkD (JObj [("_id", JStr "65f0c1"); ("userId", JStr "u1"); ("title", JStr "Dune");
                           ("reviews", JArr [])])
                    false (JNum 5) (JStr "") false JNull) [].

(** ** Lemmas *)

Lemma json_field_other k k' v : k <> k' -> assoc_last k' (json_field k v) = None.
Proof. intros Hk. destruct v; cbn; try done; by rewrite string_eqb_false by congruence. Qed.

Lemma prefill_loading data s : loading (fst (prefill data s)) = loading s.
Proof.
  unfold prefill, try_set.
  repeat match goal with |- context [match ?o with Some _ => _ | None => _ end] => destruct o end;
    reflexivity.
Qed.

Lemma form_inv_same m m' :
  loading (f_state m') = loading (f_state m) -> f_pending m' = f_pending m ->
  form_inv m -> form_inv m'.
Proof. unfold form_inv. by intros -> ->. Qed.

Lemma handleSubmit_inv c m :
  loading (f_state m) = false -> form_inv m -> form_inv (fst (handleSubmit c m)).
Proof.
  intros Hl [Hs Hp]. unfold handleSubmit.
  destruct (BookDetail.usable_token c) as [t|]; [|by split].
  assert (Hi : forall cl, form_inv (fst (fissue m (set_loading true (set_error None (f_state m))) cl KSave))).
  { intros cl. unfold form_inv, fissue. cbn [fst f_state f_pending loading set_loading].
    rewrite !count_pending_app. cbn [snd is_save is_prefill]. rewrite Hl in Hs. lia. }
  destruct (f_id m); [destruct (isEdit _)|]; apply Hi.
Qed.

Lemma loadBook_settle_loading s o : loading (fst (loadBook_settle s o)) = loading s.
Proof.
  destruct o as [data|f]; [|done]. cbn [loadBook_settle].
  pose proof (prefill_loading data s) as Hl. by destruct (prefill data s).
Qed.

Lemma fsettle_inv m i cl k o :
  form_inv m -> f_pending m !! i = Some (cl, k) ->
  form_inv (fst (fsettle (mkFM (f_id m) (f_state m) (delete i (f_pending m))) k o)).
Proof.
  intros [Hs Hp] Hi. pose proof (count_pending_delete is_save _ _ _ Hi) as Ds.
  pose proof (count_pending_delete is_prefill _ _ _ Hi) as Dp. cbn [snd] in Ds, Dp.
  unfold fsettle, form_inv. destruct k; cbn [is_save is_prefill f_state] in Ds, Dp |- *.
  - pose proof (loadBook_settle_loading (f_state m) o) as Hl.
    destruct (loadBook_settle _ o) as [s' e]. cbn [fst fwith_state f_state f_pending] in Hl |- *. rewrite Hl. destruct (loading (f_state m)); lia.
  - destruct (loading (f_state m)); [|lia]. destruct o; cbn [fst fwith_state f_state f_pending save_settle set_loading loading]; lia.
Qed.

Lemma fstep_inv url_valid c m ev m' effs :
  form_inv m -> fstep url_valid c m ev = Some (m', effs) -> form_inv m'.
Proof.
  intros Hinv. destruct ev as [v|v|v|v|v|v| | |i fr]; cbn [fstep];
    try (intros [= <- _]; by apply (form_inv_same m)).
  - destruct (number_input_value v); [|discriminate]. intros [= <- _]. by apply (form_inv_same m).
  - destruct (negb (loading (f_state m)) && form_valid url_valid (f_state m)) eqn:G; [|discriminate].
    apply andb_prop in G as [G _]. apply negb_true_iff in G.
    intros [= Hm]. pose proof (handleSubmit_inv c m G Hinv) as H. by rewrite Hm in H.
  - destruct (f_pending m !! i) as [[cl k]|] eqn:Hi; [|discriminate]. cbn.
    destruct (fsettle _ k _) as [m1 e1] eqn:E. intros [= <- _].
    pose proof (fsettle_inv m i cl k (run cl fr) Hinv Hi) as H. by rewrite E in H.
Qed.

Lemma freachable_inv url_valid id m : freachable url_valid id m -> form_inv m.
Proof.
  induction 1 as [|c m ev m' effs _ IH Hs]; [|by eapply fstep_inv].
  unfold mount. destruct id as [i|]; [destruct (isEdit _)|]; split; cbn; lia.
Qed.

Lemma filled_str s : s <> "" -> BookDetail.comment_filled (JStr s) = true.
Proof. intros H. cbn. by rewrite string_eqb_false. Qed.

Lemma year_json_dec n : year_json (dec_of_Z n) = JNum n.
Proof. unfold year_json. by rewrite parseInt_dec_of_Z. Qed.

Lemma mount_edit i : i <> "" ->
  mount (Some i) = (mkFM (Some i) initial [(CGetBook i, KPrefill)], [FCall (CGetBook i)]).
Proof. intros Hi. unfold mount, isEdit. cbn [truthy]. by rewrite string_eqb_false. Qed.

Lemma prefill_book s ti au ge n de u :
  prefill (book_json ti au ge n de u) s = (loaded s ti au ge n de u, true).
Proof. reflexivity. Qed.

Lemma fstep_settle_first url_valid c id s cl k fr rest :
  fstep url_valid c (mkFM id s ((cl, k) :: rest)) (EvSettle 0 fr) =
  Some (fsettle (mkFM id s rest) k (run cl fr)).
Proof. reflexivity. Qed.

Lemma fstep_submit url_valid c m :
  loading (f_state m) = false -> form_valid url_valid (f_state m) = true ->
  fstep url_valid c m EvSubmit = Some (handleSubmit c m).
Proof. intros Hl Hv. cbn [fstep]. by rewrite Hl, Hv. Qed.

Lemma handleSubmit_edit c m t i :
  BookDetail.usable_token c = Some t -> f_id m = Some i -> i <> "" ->
  handleSubmit c m = fissue m (set_loading true (set_error None (f_state m)))
                       (CUpdateBook t i (bookData (f_state m))) KSave.
Proof. intros Ht Hid Hi. unfold handleSubmit. rewrite Ht, Hid. cbn [isEdit truthy]. by rewrite string_eqb_false. Qed.

Lemma loaded_valid url_valid s ti au ge n de u :
  ti <> "" -> au <> "" -> ge <> "" -> de <> "" -> (1000 <= n <= 2100)%Z ->
  (u = "" \/ url_valid u = true) -> form_valid url_valid (loaded s ti au ge n de u) = true.
Proof.
  intros H1 H2 H3 H4 Hn Hu. unfold form_valid, loaded. cbn [title author genre year description imageUrl].
  rewrite !filled_str, number_input_ok_dec_of_Z by done. cbn [dom_value js_to_string].
  rewrite (proj2 (Z.leb_le 1000 n)), (proj2 (Z.leb_le n 2100)) by lia. cbn [andb].
  destruct Hu as [-> | ->]; [done|apply orb_true_r].
Qed.

Lemma bookData_loaded s ti au ge n de u :
  bookData (loaded s ti au ge n de u) =
  JObj ([("title", JStr ti); ("author", JStr au); ("genre", JStr ge); ("year", JNum n);
         ("description", JStr de)] ++ (if String.eqb u "" then [] else [("imageUrl", JStr u)])).
Proof.
  unfold bookData, loaded, js_or. cbn [title author genre year description imageUrl truthy].
  rewrite year_json_dec. destruct (String.eqb_spec u "") as [->|Hne]; [done|]. done.
Qed.

Lemma assoc_last_json_field k k' v : k <> k' -> assoc_last k (json_field k' v) = None.
Proof. intros Hk. destruct v; cbn; try done; by rewrite string_eqb_false. Qed.

Lemma fstep_settle url_valid c m i cl k fr :
  f_pending m !! i = Some (cl, k) ->
  fstep url_valid c m (EvSettle i fr) =
  Some (fsettle (mkFM (f_id m) (f_state m) (delete i (f_pending m))) k (run cl fr)).
Proof. intros Hi. cbn [fstep]. by rewrite Hi. Qed.

(** ** Properties *)

(** C25: editing a book whose fields are filled and whose year is in
    the input's range sends it back unchanged: the year survives
    [toString] and [parseInt], and [updateBook] goes to the book's id. *)
Theorem edit_roundtrip url_valid c t i ti au ge n de u :
  i <> "" -> BookDetail.usable_token c = Some t ->
  ti <> "" -> au <> "" -> ge <> "" -> de <> "" -> (1000 <= n <= 2100)%Z ->
  (u = "" \/ url_valid u = true) ->
  exists m', frun_events url_valid c (fst (mount (Some i)))
                 [EvSettle 0 (ok_body (book_json ti au ge n de u)); EvSubmit] =
    Some (m', [FCall (CUpdateBook t i
                 (JObj ([("title", JStr ti); ("author", JStr au); ("genre", JStr ge); ("year", JNum n);
                         ("description", JStr de)] ++ (if String.eqb u "" then [] else [("imageUrl", JStr u)]))))]).
Proof.
  intros Hi Ht H1 H2 H3 H4 Hn Hu. rewrite mount_edit by done. cbn [fst frun_events].
  rewrite fstep_settle_first.
  change (run (CGetBook i) (ok_body _)) with (Resolved (book_json ti au ge n de u)).
  unfold fsettle. cbn [loadBook_settle f_state]. rewrite prefill_book. cbn -[fstep loaded].
  rewrite fstep_submit by (done || by apply loaded_valid). cbn -[handleSubmit loaded].
  rewrite (handleSubmit_edit c _ t i) by done. cbn -[bookData loaded].
  rewrite bookData_loaded. by eexists.
Qed.

Lemma edit_roundtrip_witness :
  exists m', frun_events (fun _ => true) ann_ctx (fst (mount (Some "b1")))
                 [EvSettle 0 (ok_body (book_json "Dune" "Frank Herbert" "Fiction" 1965 "Desert planet" ""));
                  EvSubmit] =
    Some (m', [FCall (CUpdateBook "tok" "b1"
                 (JObj [("title", JStr "Dune"); ("author", JStr "Frank Herbert"); ("genre", JStr "Fiction");
                        ("year", JNum 1965); ("description", JStr "Desert planet")]))]).
Proof.
  exact (edit_roundtrip (fun _ => true) ann_ctx "tok" "b1" "Dune" "Frank Herbert" "Fiction" 1965
           "Desert planet" "" ltac:(discriminate) eq_refl ltac:(discriminate) ltac:(discriminate)
           ltac:(discriminate) ltac:(discriminate) ltac:(lia) (or_introl eq_refl)).
Defined.

(** C26: a year typed in exponent form, [m e k] with [k >= 1] (such as
    ["1e3"] or ["2e3"]), whose value [m * 10 ^ k] lies within [min] and
    [max], is a valid value of the year input, so the form submits; but
    [parseInt] stops at the [e], and the book data sent carries the year
    [m], not [m * 10 ^ k]. *)
Theorem exponent_year_sent_as_mantissa (s : fstate) (m k : Z) :
  (1 <= k)%Z -> (1000 <= m * 10 ^ k <= 2100)%Z ->
  year s = dec_of_Z m +:+ String "e"%char (dec_of_Z k) ->
  number_input_ok 1000 2100 (year s) = true /\
  prop (bookData s) "year" = Some (JNum m) /\ m <> (m * 10 ^ k)%Z.
Proof.
  intros Hk Hr Hy. assert (Hm : (0 < m)%Z).
  { destruct (Z.lt_ge_cases 0 m) as [|Hm]; [done|].
    assert (m * 10 ^ k <= 0)%Z by (apply Z.mul_nonpos_nonneg; [lia|apply Z.pow_nonneg; lia]). lia. }
  split; [|split].
  - rewrite Hy, number_input_ok_exponent by lia. apply andb_true_intro. split; apply Z.leb_le; lia.
  - unfold bookData, prop. rewrite !assoc_last_app, !json_field_other by done. cbn.
    unfold year_json. rewrite Hy, parseInt_digits_stop by (done || lia). done.
  - assert (10 <= 10 ^ k)%Z by (replace 10%Z with (10 ^ 1)%Z at 1 by done; apply Z.pow_le_mono_r; lia).
    nia.
Qed.


Lemma exponent_year_sent_as_mantissa_witness :
  number_input_ok 1000 2100 (year (set_year "1e3" initial)) = true /\
  prop (bookData (set_year "1e3" initial)) "year" = Some (JNum 1) /\ 1%Z <> (1 * 10 ^ 3)%Z.
Proof. apply (exponent_year_sent_as_mantissa _ 1 3); [lia|lia|reflexivity]. Defined.

(** C27: in every reachable state of the form, [loading] is set exactly
    while one save is in flight, and none is in flight otherwise, so the
    disabled submit button rules out a second [createBook] or
    [updateBook]; at most one [getBook] is ever in flight. *)
Theorem reachable_single_save (url_valid : string -> bool) (id : option string) (m : fmachine) :
  freachable url_valid id m ->
  count_pending is_save (f_pending m) = (if loading (f_state m) then 1 else 0) /\
  count_pending is_prefill (f_pending m) <= 1.
Proof. apply freachable_inv. Qed.

Lemma reachable_single_save_witness :
  freachable (fun _ => true) (Some "b1") (fst (mount (Some "b1"))) /\
  count_pending is_prefill (f_pending (fst (mount (Some "b1")))) <= 1.
Proof.
  assert (H : freachable (fun _ => true) (Some "b1") (fst (mount (Some "b1")))) by constructor.
  split; [exact H|]. exact (proj2 (reachable_single_save _ _ _ H)).
Defined.

(** Submitting a valid form with a session sets [loading], clears
    the error and sends [bookData]: to [updateBook] for the route's id in
    edit mode, to [createBook] otherwise. *)
Theorem submit_sends (url_valid : string -> bool) (c : auth_ctx) (m : fmachine) (t : string) :
  loading (f_state m) = false -> form_valid url_valid (f_state m) = true ->
  BookDetail.usable_token c = Some t ->
  exists cl, fstep url_valid c m EvSubmit =
    Some (mkFM (f_id m) (set_loading true (set_error None (f_state m))) (f_pending m ++ [(cl, KSave)]),
          [FCall cl]) /\
    cl = match f_id m with
         | Some i => if isEdit (f_id m) then CUpdateBook t i (bookData (f_state m))
                     else CCreateBook t (bookData (f_state m))
         | None => CCreateBook t (bookData (f_state m))
         end.
Proof.
  intros Hl Hv Ht. rewrite fstep_submit by done. unfold handleSubmit, fissue. rewrite Ht.
  destruct (f_id m) as [i|]; [destruct (isEdit (Some i))|]; (eexists; split; reflexivity).
Qed.

Lemma submit_sends_witness :
  let m := mkFM None (loaded initial "Dune" "Frank Herbert" "Fiction" 1965 "Desert planet" "") [] in
  exists cl, fstep (fun _ => true) ann_ctx m EvSubmit =
    Some (mkFM None (set_loading true (set_error None (f_state m))) [(cl, KSave)], [FCall cl]).
Proof.
  cbv zeta. destruct (submit_sends (fun _ => true) ann_ctx
    (mkFM None (loaded initial "Dune" "Frank Herbert" "Fiction" 1965 "Desert planet" "") []) "tok"
    eq_refl ltac:(vm_compute; reflexivity) eq_refl) as (cl & H & _).
  by exists cl.
Defined.

(** C29: when the save settles, [loading] is cleared and the request
    leaves the pending list; a success navigates home, a failure shows
    its error and navigates nowhere, and the form's fields are kept. *)
Theorem save_outcome (url_valid : string -> bool) (c : auth_ctx) (m : fmachine) (i : nat)
    (cl : call) (fr : fetch_result) :
  f_pending m !! i = Some (cl, KSave) ->
  exists m' effs, fstep url_valid c m (EvSettle i fr) = Some (m', effs) /\
    f_pending m' = delete i (f_pending m) /\ loading (f_state m') = false /\
    bookData (f_state m') = bookData (f_state m) /\
    match run cl fr with
    | Resolved _ => effs = [FNavigate "/"] /\ error (f_state m') = error (f_state m)
    | Rejected f => effs = [] /\ error (f_state m') = Some f
    end.
Proof.
  intros Hi. rewrite (fstep_settle _ _ _ _ _ _ _ Hi). unfold fsettle.
  destruct (run cl fr); cbn; eexists _, _; (split; [reflexivity|]); done.
Qed.

Lemma save_outcome_witness :
  let m := mkFM None initial [(CCreateBook "tok" (JObj []), KSave)] in
  let fr := Received (mkResponse 400 (Some (JObj [("error", JStr "Title is required")]))) in
  exists m' effs, fstep (fun _ => true) ann_ctx m (EvSettle 0 fr) = Some (m', effs) /\
    effs = [] /\ error (f_state m') = Some (Thrown "Title is required").
Proof.
  cbv zeta. destruct (save_outcome (fun _ => true) ann_ctx
    (mkFM None initial [(CCreateBook "tok" (JObj []), KSave)]) 0 (CCreateBook "tok" (JObj []))
    (Received (mkResponse 400 (Some (JObj [("error", JStr "Title is required")])))) eq_refl)
    as (m' & effs & H & _ & _ & _ & He & Herr).
  by exists m', effs.
Defined.

(** C30: a book whose [year] is missing or [null] makes [year.toString()]
    throw after the title, author and genre have been copied: the form
    keeps those three, keeps its own year, description and cover, and
    only logs the error. *)
Theorem prefill_stops_at_year (s : fstate) (fs : list (string * jsval)) :
  (assoc_last "year" fs = None \/ assoc_last "year" fs = Some JNull) ->
  loadBook_settle s (Resolved (JObj fs)) =
    (set_genre (prop_opt (JObj fs) "genre") (set_author (prop_opt (JObj fs) "author")
       (set_title (prop_opt (JObj fs) "title") s)), [FLogError]).
Proof. intros Hy. cbn. by destruct Hy as [-> | ->]. Qed.

Lemma prefill_stops_at_year_witness :
  loadBook_settle initial (Resolved (JObj [("title", JStr "Dune"); ("year", JNull)])) =
    (set_genre JUndefined (set_author JUndefined (set_title (JStr "Dune") initial)), [FLogError]).
Proof. apply prefill_stops_at_year. right. reflexivity. Defined.

(** C31: in edit mode, emptying the cover URL sends an update with no
    [imageUrl] at all ([imageUrl || undefined] is dropped by
    [JSON.stringify]), so the server is never told to use the default
    cover that the field's hint promises. *)
Theorem cleared_cover_not_sent (c : auth_ctx) (m : fmachine) (t i : string) :
  BookDetail.usable_token c = Some t -> f_id m = Some i -> i <> "" -> imageUrl (f_state m) = JStr "" ->
  exists fields,
    handleSubmit c m = fissue m (set_loading true (set_error None (f_state m)))
                         (CUpdateBook t i (JObj fields)) KSave /\
    assoc_last "imageUrl" fields = None.
Proof.
  intros Ht Hid Hi Hu. rewrite (handleSubmit_edit c m t i) by done.
  eexists. split; [reflexivity|]. unfold bookData. rewrite Hu. cbn [js_or truthy String.eqb negb json_field].
  rewrite !assoc_last_app, !assoc_last_json_field by done. done.
Qed.

Lemma cleared_cover_not_sent_witness :
  let m := mkFM (Some "b1") (loaded initial "Dune" "Frank Herbert" "Fiction" 1965 "Desert planet" "") [] in
  exists fields,
    handleSubmit ann_ctx m = fissue m (set_loading true (set_error None (f_state m)))
                               (CUpdateBook "tok" "b1" (JObj fields)) KSave /\
    assoc_last "imageUrl" fields = None.
Proof. apply cleared_cover_not_sent; [reflexivity|reflexivity|discriminate|reflexivity]. Defined.

(** C16: the edit button of the detail page opens the edit form of the
    same book: for a rendered book whose owner is signed in, the click
    navigates to [/edit-book/<_id>], the route table and its guard render
    the form with that [id] as its parameter, and the form, mounted in
    edit mode, sends exactly one [getBook] for that id. *)
Theorem edit_button_opens_form (c : auth_ctx) (m : BookDetail.machine) (b : BookDetail.book_view)
    (i : string) :
  ctx_wf c -> BookDetail.render (BookDetail.m_state m) = BookDetail.VPage b ->
  BookDetail.ownerControls c b = true -> BookDetail.b_id b = JStr i ->
  Routes.route_param_ok (Routes.REditBook i) = true ->
  exists p, BookDetail.step c m BookDetail.EvEditBook = Some (m, [BookDetail.ENavigate p]) /\
    Routes.guard c p = Routes.Render (Routes.REditBook i) /\
    snd (mount (Some i)) = [FCall (CGetBook i)].
Proof.
  intros Hwf Hr Ho Hi Hok. exists ("/edit-book/" +:+ i). cbn [BookDetail.step].
  rewrite Hr, Ho, Hi. split; [done|]. split.
  - unfold Routes.guard.
    change ("/edit-book/" +:+ i) with (Routes.path_of (Routes.REditBook i)).
    rewrite (Routes.path_of_roundtrip (Routes.REditBook i) Hok).
    unfold Routes.element, Routes.ProtectedRoute. cbn [Routes.is_protected].
    unfold BookDetail.ownerControls in Ho. apply andb_prop in Ho as [-> _]. done.
  - destruct (Routes.route_param_ok_spec i Hok) as [Hne _]. unfold mount, isEdit.
    by rewrite (proj2 (truthy_str i) Hne).
Qed.

Lemma edit_button_opens_form_witness :
  exists p, BookDetail.step ann_ctx owned_book_page BookDetail.EvEditBook
              = Some (owned_book_page, [BookDetail.ENavigate p]) /\
    Routes.guard ann_ctx p = Routes.Render (Routes.REditBook "65f0c1") /\
    snd (mount (Some "65f0c1")) = [FCall (CGetBook "65f0c1")].
Proof.
  apply (edit_button_opens_form ann_ctx owned_book_page
           (BookDetail.mkBook (JStr "65f0c1") (JStr "u1") []));
    [apply ctx_of_wf; reflexivity|reflexivity..].
Defined.

End BookForm.

