(* ===== verification/Profile.v ===== *)
(** The profile page, [src/src/pages/Profile.tsx]: the user's books,
    the reviews they gave and received, and two bar charts of ratings.

    The page keeps five hooks ([pstate]).  Its mount effect runs
    [loadProfile], which returns before its [try] when there is no token
    and otherwise awaits [getProfile].  [render] computes what the page
    shows: the spinner, a crash (a [TypeError] while rendering), or the
    bars of both charts ([rating_bars], each bar's width as the number
    the [style] receives), the texts of the stat cards and of the bars
    ([stats_texts]), and the three lists, whose items render their texts
    and stars or throw ([book_item], [given_item], [received_item]). *)

From Stdlib Require Import ZArith QArith Lia.
From stdpp Require Import base list strings.
From S2P Require Import Prelude JsValue JsNumber Display Api Session Routes BookDetail.

Open Scope book_scope.

Module Profile.
Import Api Session JsNumber Display.

(** The hooks of lines 18-22. *)
Record pstate := mkP {
  myBooks : jsval;          (** [useState<any[]>([])] *)
  reviewsGiven : jsval;
  reviewsReceived : jsval;
  stats : jsval;            (** [useState<Stats | null>(null)] *)
  ploading : bool           (** [useState(true)] *)
}.

Definition initial : pstate := mkP (JArr []) (JArr []) (JArr []) JNull true.

Definition set_ploading v s := mkP (myBooks s) (reviewsGiven s) (reviewsReceived s) (stats s) v.

Inductive peffect := PCall (c : call) | PLogError | PNavigate (path : string).

Record pmachine := mkPM { p_state : pstate; p_pending : list call }.

(** [loadProfile()] up to its [await], lines 28-33. *)
Definition loadProfile (c : auth_ctx) (m : pmachine) : pmachine * list peffect :=
  match BookDetail.usable_token c with
  | None => (m, [])
  | Some t =>
      (mkPM (set_ploading true (p_state m)) (p_pending m ++ [CGetProfile t]), [PCall (CGetProfile t)])
  end.

(** [loadProfile()] after its [await], lines 34-42: the four setters
    (reading a property of a [null] body throws before any of them), then
    [setLoading(false)] in [finally]. *)
Definition loadProfile_settle (s : pstate) (o : outcome) : pstate * list peffect :=
  match o with
  | Resolved data =>
      match b ← prop data "myBooks"; g ← prop data "reviewsGiven";
            r ← prop data "reviewsReceived"; st ← prop data "stats"; Some (b, g, r, st) with
      | Some (b, g, r, st) => (mkP b g r st false, [])
      | None => (set_ploading false s, [PLogError])
      end
  | Rejected _ => (set_ploading false s, [PLogError])
  end.

(** The effect of lines 24-26, on mount. *)
Definition mount (c : auth_ctx) : pmachine * list peffect := loadProfile c (mkPM initial []).

(** [d[rating]] for a numeric [rating]: an index of an array or a string,
    a property otherwise ([None]: a [TypeError] on [null] or [undefined]). *)
Definition rating_entry (d : jsval) (r : Z) : option jsval :=
  match d with
  | JArr items => Some (default JUndefined (items !! Z.to_nat r))
  | JStr s => Some (match String.get (Z.to_nat r) s with
                    | Some ch => JStr (String ch EmptyString)
                    | None => JUndefined
                    end)
  | _ => prop d (dec_of_Z r)
  end.

(** [Math.max(...Object.values(stats?.dist || {}), 1)], lines 56-57. *)
Definition max_value (st : jsval) (key : string) : num :=
  math_max (object_values (js_or (prop_opt st key) (JObj [])) ++ [JNum 1]).

(** The width of the bar of [rating], lines 129-131 and 167-169:
    [(stats?.dist[rating] || 0) / max * 100]. *)
Definition bar_width (st : jsval) (key : string) (mx : num) (r : Z) : option num :=
  e ← match st with
      | JUndefined | JNull => Some JUndefined
      | _ => rating_entry (prop_opt st key) r
      end;
  Some (num_mul (num_div (to_number (js_or e (JNum 0))) mx) 100).

(** The bars of one chart, for ratings 5 down to 1 (lines 116 and 154). *)
Definition rating_bars (st : jsval) (key : string) : option (list (Z * num)) :=
  let mx := max_value st key in
  mapM (fun r => w ← bar_width st key mx r; Some (r, w)) [5; 4; 3; 2; 1]%Z.

(** A list section: [v.length === 0] shows the empty message ([Some
    None]), otherwise [v.map] renders the items; [None] is a throw. *)
Definition list_section (v : jsval) : option (option (list jsval)) :=
  match v with
  | JArr [] => Some None
  | JArr items => Some (Some items)
  | JStr s => if String.eqb s "" then Some None else None
  | JObj _ => if prop_opt v "length" === JNum 0 then Some None else None
  | _ => None
  end.

(** The texts of a card of [myBooks], lines 194-217: [key={book._id}]
    throws on a nullish item, the children on an object. *)
Definition book_item (b : jsval) : option (string * string * string * string) :=
  _ ← prop b "_id";
  t ← react_child (prop_opt b "title");
  a ← react_child (prop_opt b "author");
  r ← rating_label (prop_opt b "averageRating");
  n ← react_child (prop_opt b "reviewCount");
  Some (t, a, r, n).

(** An entry of [reviewsGiven], lines 235-259: the title is read through
    [review.bookId.title], which throws when [bookId] is nullish; the
    date ([new Date(...).toLocaleDateString()]) never throws and its text
    is not modelled. *)
Definition given_item (r : jsval) : option (string * list bool * string) :=
  _ ← prop r "_id";
  t ← prop (prop_opt r "bookId") "title" ≫= react_child;
  c ← react_child (prop_opt r "comment");
  Some (t, stars (prop_opt r "rating"), c).

(** An entry of [reviewsReceived], lines 280-314. *)
Definition received_item (r : jsval) : option (string * string * list bool * string) :=
  _ ← prop r "_id";
  t ← prop (prop_opt r "bookId") "title" ≫= react_child;
  u ← react_child (prop_opt r "username");
  c ← react_child (prop_opt r "comment");
  Some (t, u, stars (prop_opt r "rating"), c).

(** The three stat cards, lines 72, 86 and 100: [{stats?.totalBooks || 0}]
    and its two siblings, as children. *)
Definition stat_cards (st : jsval) : option (list string) :=
  mapM (fun k => react_child (js_or (prop_opt st k) (JNum 0)))
       ["totalBooks"; "totalReviewsGiven"; "totalReviewsReceived"].

(** The count written inside a bar, lines 135-139 and 173-177:
    [{stats?.dist[rating] ? <span>{stats.dist[rating]}</span> : null}]. *)
Definition bar_label (st : jsval) (key : string) (r : Z) : option string :=
  e ← match st with
      | JUndefined | JNull => Some JUndefined
      | _ => rating_entry (prop_opt st key) r
      end;
  if truthy e then react_child e else Some "".

(** The texts outside the lists: the stat cards and the labels of both
    charts. *)
Definition stats_texts (st : jsval) : bool :=
  bool_decide (is_Some (stat_cards st)) &&
  forallb (fun key => bool_decide (is_Some (mapM (bar_label st key) [5; 4; 3; 2; 1]%Z)))
          ["ratingDistribution"; "givenRatingDistribution"].

(** Every item of a rendered list renders. *)
Definition section_renders {A} (f : jsval -> option A) (sec : option (list jsval)) : bool :=
  match sec with
  | Some items => bool_decide (is_Some (mapM f items))
  | None => true
  end.

Inductive pview :=
| PLoading                                        (** lines 45-54 *)
| PCrash
| PPage (received given : list (Z * num))
        (books given_reviews received_reviews : option (list jsval)).

Definition render (s : pstate) : pview :=
  if ploading s then PLoading
  else match rating_bars (stats s) "ratingDistribution", rating_bars (stats s) "givenRatingDistribution",
             list_section (myBooks s), list_section (reviewsGiven s), list_section (reviewsReceived s) with
       | Some rb, Some gb, Some bs, Some gs, Some rs =>
           if stats_texts (stats s) && section_renders book_item bs && section_renders given_item gs
              && section_renders received_item rs
           then PPage rb gb bs gs rs else PCrash
       | _, _, _, _, _ => PCrash
       end.

(** [navigate(`/book/${book._id}`)] (line 198) and
    [navigate(`/book/${review.bookId._id}`)] (lines 230 and 289). *)
Definition book_path (id : jsval) : string := "/book/" +:+ js_to_string id.

Inductive pevent :=
| PClickBook (i : nat)
| PClickGiven (i : nat)
| PClickReceived (i : nat)
| PSettle (i : nat) (fr : fetch_result).

Definition pstep (m : pmachine) (ev : pevent) : option (pmachine * list peffect) :=
  let s := p_state m in
  match ev with
  | PSettle i fr =>
      cl ← p_pending m !! i;
      let '(s', effs) := loadProfile_settle s (run cl fr) in
      Some (mkPM s' (delete i (p_pending m)), effs)
  | PClickBook i =>
      match render s with
      | PPage _ _ (Some items) _ _ => b ← items !! i; id ← prop b "_id"; Some (m, [PNavigate (book_path id)])
      | _ => None
      end
  | PClickGiven i =>
      match render s with
      | PPage _ _ _ (Some items) _ =>
          r ← items !! i; bk ← prop r "bookId"; id ← prop bk "_id"; Some (m, [PNavigate (book_path id)])
      | _ => None
      end
  | PClickReceived i =>
      match render s with
      | PPage _ _ _ _ (Some items) =>
          r ← items !! i; bk ← prop r "bookId"; id ← prop bk "_id"; Some (m, [PNavigate (book_path id)])
      | _ => None
      end
  end.

Inductive preachable (c : auth_ctx) : pmachine -> Prop :=
| preach_mount : preachable c (fst (mount c))
| preach_step m ev m' effs : preachable c m -> pstep m ev = Some (m', effs) -> preachable c m'.

(** Counts of a rating distribution as the server sends them. *)
Definition nonneg_counts (fs : list (string * jsval)) : Prop :=
  Forall (fun kv => exists n, snd kv = JNum n /\ (0 <= n)%Z) fs.

(** The session of the scenarios: user [u1] with token [tok]. *)
Definition ann_ctx : auth_ctx := ctx_of (mkSession (Some (mkUser "u1" "ann" "a@b.c")) (Some "tok")).

(** A profile whose statistics carry no rating distribution. *)
Definition stats_without_distribution : pstate :=
  mkP (JArr []) (JArr []) (JArr []) (JObj [("totalBooks", JNum 0); ("givenRatingDistribution", JObj [])]) false.

(** A profile with one review whose book is gone. *)
Definition orphan_review_profile : pstate :=
  mkP (JArr []) (JArr [JObj [("_id", JStr "r1"); ("bookId", JNull); ("rating", JNum 4); ("comment", JStr "Great")]])
      (JArr []) (JObj [("ratingDistribution", JObj []); ("givenRatingDistribution", JObj [("4", JNum 1)])]) false.

(** ** Lemmas *)

Lemma list_section_items items : items <> [] -> list_section (JArr items) = Some (Some items).
Proof. by destruct items. Qed.

(** A list with an item that throws does not render. *)
Lemma section_renders_fail {A} (f : jsval -> option A) items x :
  In x items -> f x = None -> section_renders f (Some items) = false.
Proof.
  intros Hin Hx. cbn. apply bool_decide_eq_false_2. intros Hs.
  apply mapM_is_Some_1 in Hs. destruct (proj1 (List.Forall_forall _ _) Hs x Hin) as [y Hy].
  cbn in Hy. congruence.
Qed.

Lemma Qeq_bool_pos (m : Q) : (1 <= m)%Q -> Qeq_bool m 0 = false.
Proof.
  intros Hm. destruct (Qeq_bool m 0) eqn:E; [|done]. apply Qeq_bool_iff in E.
  destruct m as [a b]. unfold Qeq, Qle in *. cbn in *. lia.
Qed.

Lemma prop_obj_key st key fs : prop st key = Some (JObj fs) ->
  exists gs, st = JObj gs /\ prop_opt st key = JObj fs.
Proof. destruct st; cbn; try discriminate. intros [= E]. eexists; split; [done|]. cbn. by rewrite E. Qed.

Lemma bar_width_bounded st key fs m r :
  prop st key = Some (JObj fs) -> nonneg_counts fs -> (1 <= m)%Q ->
  (forall k v, assoc_last k fs = Some (JNum v) -> (inject_Z v <= m)%Q) ->
  exists q, bar_width st key (NFin m) r = Some (NFin q) /\ (0 <= q <= 100)%Q /\
    (forall n, assoc_last (dec_of_Z r) fs = Some (JNum n) -> (1 <= n)%Z -> q = (inject_Z n / m * 100)%Q).
Proof.
  intros Hp Hfs Hm Hle. destruct (prop_obj_key _ _ _ Hp) as (gs & -> & Hk).
  unfold bar_width. rewrite Hk. cbn [rating_entry prop mbind option_bind].
  assert (Hw : forall k, (0 <= k)%Z -> (inject_Z k <= m)%Q ->
            num_mul (num_div (NFin (inject_Z k)) (NFin m)) 100 = NFin (inject_Z k / m * 100) /\
            (0 <= inject_Z k / m * 100 <= 100)%Q).
  { intros k Hk0 Hkm. cbn [num_div num_mul]. rewrite Qeq_bool_pos by done.
    split; [done|]. apply width_bounds; [|done|done]. change 0%Q with (inject_Z 0). rewrite <- Zle_Qle. lia. }
  destruct (assoc_last (dec_of_Z r) fs) as [v|] eqn:Ev; cbn [default].
  - pose proof (assoc_last_in _ _ _ Ev) as Hin.
    destruct (proj1 (List.Forall_forall _ _) Hfs _ Hin) as (k & Hv & Hk0). cbn in Hv. subst v.
    pose proof (Hle _ _ Ev) as Hkm.
    destruct (Z.eqb_spec k 0) as [->|Hk0'].
    + destruct (Hw 0%Z ltac:(lia) ltac:(apply Qle_trans with 1%Q; [discriminate|done])) as [E B].
      exists (inject_Z 0 / m * 100)%Q. split; [f_equal; exact E|]. split; [exact B|]. intros n [= <-]. lia.
    + destruct (Hw k Hk0 Hkm) as [E B]. exists (inject_Z k / m * 100)%Q.
      unfold js_or, id. cbn [truthy]. rewrite (proj2 (Z.eqb_neq k 0) Hk0'). cbn [negb to_number].
      split; [f_equal; exact E|]. split; [exact B|]. by intros n [= <-].
  - destruct (Hw 0%Z ltac:(lia) ltac:(apply Qle_trans with 1%Q; [discriminate|done])) as [E B].
    exists (inject_Z 0 / m * 100)%Q. split; [f_equal; exact E|]. split; [exact B|]. done.
Qed.

Lemma max_value_counts st key fs :
  prop st key = Some (JObj fs) -> nonneg_counts fs ->
  exists m, max_value st key = NFin m /\ (1 <= m)%Q /\
    (forall k v, assoc_last k fs = Some (JNum v) -> (inject_Z v <= m)%Q) /\
    (m = 1%Q \/ exists k n, assoc_last k fs = Some (JNum n) /\ m = inject_Z n).
Proof.
  intros Hp Hfs. destruct (prop_obj_key _ _ _ Hp) as (gs & -> & Hk).
  unfold max_value. rewrite Hk. change (js_or (JObj fs) (JObj [])) with (JObj fs).
  assert (Hn : all_nums (object_values (JObj fs))).
  { apply object_values_forall. eapply Forall_impl; [exact Hfs|]. intros [k v] (n & Hv & _). by exists n. }
  destruct (math_max_nums _ Hn) as (m & Hm & H1 & Hall & Hwho). exists m. split; [done|]. split; [done|].
  split.
  - intros k v Hkv. pose proof (object_values_in _ _ _ Hkv) as Hin.
    destruct (proj1 (List.Forall_forall _ _) Hall _ Hin) as (n & [= <-] & Hle). done.
  - destruct Hwho as [-> | (n & Hin & ->)]; [by left|right].
    cbn [object_values] in Hin. apply in_map_iff in Hin as (k & Hk' & _).
    destruct (assoc_last k fs) as [w|] eqn:Ew; cbn in Hk'; [subst w|discriminate]. by exists k, n.
Qed.

Lemma usable_token_guarded (c : auth_ctx) :
  ctx_wf c -> Routes.guard c "/profile" = Routes.Render Routes.RProfile ->
  exists t, ctx_token c = Some t /\ t <> "" /\ BookDetail.usable_token c = Some t.
Proof.
  intros Hwf Hg. unfold Routes.guard, Routes.element, Routes.ProtectedRoute in Hg. cbn in Hg.
  destruct (ctx_isAuthenticated c) eqn:Ha; [|discriminate].
  destruct (proj1 (Routes.ctx_authenticated_token c Hwf) Ha) as (t & Ht & Hne).
  exists t. split; [done|]. split; [done|]. unfold BookDetail.usable_token. rewrite Ht.
  by rewrite (proj2 (truthy_str t) Hne).
Qed.

Lemma settle_clears_loading s o : ploading (fst (loadProfile_settle s o)) = false.
Proof.
  destruct o as [data|f]; [|done]. cbn [loadProfile_settle].
  destruct (b ← prop data "myBooks"; _) as [[[[b g] r] st]|]; done.
Qed.

(** ** Properties *)

(** C32: when the route guard lets /profile render, the context holds a
    token: mounting issues exactly one [getProfile] with it, and however
    that request settles the spinner goes away with nothing in flight;
    the early [return] of [loadProfile], which would leave the spinner on
    forever, is never taken under the guard. *)
Theorem profile_loads_when_guarded (c : auth_ctx) :
  ctx_wf c -> Routes.guard c "/profile" = Routes.Render Routes.RProfile ->
  exists t, ctx_token c = Some t /\
    mount c = (mkPM initial [CGetProfile t], [PCall (CGetProfile t)]) /\
    forall fr, exists m' effs, pstep (fst (mount c)) (PSettle 0 fr) = Some (m', effs) /\
      ploading (p_state m') = false /\ p_pending m' = [].
Proof.
  intros Hwf Hg. destruct (usable_token_guarded c Hwf Hg) as (t & Ht & _ & Hu).
  exists t. unfold mount, loadProfile. rewrite Hu. split; [done|]. split; [done|].
  intros fr. cbn -[loadProfile_settle run].
  pose proof (settle_clears_loading initial (run (CGetProfile t) fr)) as Hl.
  destruct (loadProfile_settle _ _) as [s' effs]. by exists (mkPM s' []), effs.
Qed.

Lemma profile_loads_when_guarded_witness :
  mount ann_ctx = (mkPM initial [CGetProfile "tok"], [PCall (CGetProfile "tok")]).
Proof.
  assert (Hwf : ctx_wf ann_ctx) by (apply ctx_of_wf; reflexivity).
  destruct (profile_loads_when_guarded ann_ctx Hwf eq_refl) as (t & Ht & Hm & _).
  injection Ht as <-. exact Hm.
Defined.

(** C33: when a distribution holds non-negative counts, each chart has its
    five bars, every width is between 0 and 100 percent, and a rating
    holding the largest count (at least 1) gets the full width. *)
Theorem rating_bars_bounded (st : jsval) (key : string) (fs : list (string * jsval)) :
  prop st key = Some (JObj fs) -> nonneg_counts fs ->
  exists bars, rating_bars st key = Some bars /\ map fst bars = [5; 4; 3; 2; 1]%Z /\
    Forall (fun b => exists q, snd b = NFin q /\ (0 <= q <= 100)%Q) bars /\
    (forall r n, In r [1; 2; 3; 4; 5]%Z -> assoc_last (dec_of_Z r) fs = Some (JNum n) -> (1 <= n)%Z ->
       (forall k v, assoc_last k fs = Some (JNum v) -> (v <= n)%Z) ->
       exists q, In (r, NFin q) bars /\ (q == 100)%Q).
Proof.
  intros Hp Hfs. destruct (max_value_counts _ _ _ Hp Hfs) as (m & Hm & H1 & Hle & Hwho).
  unfold rating_bars. rewrite Hm.
  destruct (bar_width_bounded st key fs m 5 Hp Hfs H1 Hle) as (q5 & E5 & B5 & M5).
  destruct (bar_width_bounded st key fs m 4 Hp Hfs H1 Hle) as (q4 & E4 & B4 & M4).
  destruct (bar_width_bounded st key fs m 3 Hp Hfs H1 Hle) as (q3 & E3 & B3 & M3).
  destruct (bar_width_bounded st key fs m 2 Hp Hfs H1 Hle) as (q2 & E2 & B2 & M2).
  destruct (bar_width_bounded st key fs m 1 Hp Hfs H1 Hle) as (q1 & E1 & B1 & M1).
  cbn [mapM]. rewrite E5, E4, E3, E2, E1. cbn.
  eexists. split; [reflexivity|]. split; [reflexivity|].
  split; [repeat constructor; eexists; (split; [reflexivity|]); assumption|].
  intros r n Hr Hrn Hn1 Hall.
  assert (Hmn : m = inject_Z n).
  { pose proof (Hle _ _ Hrn) as Hnm.
    destruct Hwho as [-> | (k & n' & Hk & ->)].
    - change 1%Q with (inject_Z 1) in Hnm |- *. rewrite <- Zle_Qle in Hnm. f_equal. lia.
    - pose proof (Hall _ _ Hk). rewrite <- Zle_Qle in Hnm. f_equal. lia. }
  assert (Hq : forall q, q = (inject_Z n / m * 100)%Q -> (q == 100)%Q).
  { intros q ->. rewrite Hmn. field. intros Hz. unfold Qeq in Hz. cbn in Hz. lia. }
  destruct Hr as [<- | [<- | [<- | [<- | [<- | []]]]]];
    [exists q1 | exists q2 | exists q3 | exists q4 | exists q5];
    (split; [cbn; tauto|]); apply Hq; auto.
Qed.

Lemma rating_bars_bounded_witness :
  exists bars, rating_bars (JObj [("ratingDistribution", JObj [("5", JNum 4); ("3", JNum 2)])])
                 "ratingDistribution" = Some bars.
Proof.
  destruct (rating_bars_bounded (JObj [("ratingDistribution", JObj [("5", JNum 4); ("3", JNum 2)])])
              "ratingDistribution" [("5", JNum 4); ("3", JNum 2)] eq_refl
              ltac:(repeat constructor; eexists; (split; [reflexivity|lia]))) as (bars & H & _).
  by exists bars.
Defined.

(** C34: statistics without a [ratingDistribution] (or with [null]) crash
    the page: [Math.max] on line 56 guards the missing object with
    [|| {}], but the bars on line 130 index [stats?.ratingDistribution]
    unguarded, and [undefined[5]] throws. *)
Theorem missing_distribution_crashes (s : pstate) (fs : list (string * jsval)) :
  ploading s = false -> stats s = JObj fs ->
  (assoc_last "ratingDistribution" fs = None \/ assoc_last "ratingDistribution" fs = Some JNull) ->
  max_value (stats s) "ratingDistribution" = NFin 1 /\ render s = PCrash.
Proof.
  intros Hl Hs Hd. unfold render, rating_bars, max_value. rewrite Hl, Hs.
  destruct Hd as [Hd | Hd]; cbn; rewrite Hd; cbn; split; reflexivity.
Qed.
Lemma missing_distribution_crashes_witness :
  max_value (stats stats_without_distribution) "ratingDistribution" = NFin 1 /\
  render stats_without_distribution = PCrash.
Proof. apply (missing_distribution_crashes _ [("totalBooks", JNum 0); ("givenRatingDistribution", JObj [])]); [reflexivity|reflexivity|left; reflexivity]. Defined.

(** C10: an entry of "Reviews I've Given" whose [bookId] is [null] or
    missing (what the server's population yields for a book that no
    longer exists) makes [review.bookId.title] throw while rendering:
    the whole page crashes, whatever the charts and the other lists. *)
Theorem orphan_review_crashes (s : pstate) (items : list jsval) (fs : list (string * jsval)) :
  ploading s = false -> reviewsGiven s = JArr items -> In (JObj fs) items ->
  (assoc_last "bookId" fs = Some JNull \/ assoc_last "bookId" fs = None) ->
  render s = PCrash.
Proof.
  intros Hl Hg Hin Hb. unfold render. rewrite Hl, Hg, list_section_items by (by destruct items).
  assert (Hn : section_renders given_item (Some items) = false).
  { apply (section_renders_fail _ _ _ Hin). unfold given_item, prop_opt. cbn.
    by destruct Hb as [-> | ->]. }
  rewrite Hn. repeat case_match; try done. by rewrite andb_false_r in H3.
Qed.

Lemma orphan_review_crashes_witness : render orphan_review_profile = PCrash.
Proof.
  set (fs := [("_id", JStr "r1"); ("bookId", JNull); ("rating", JNum 4); ("comment", JStr "Great")]).
  apply (orphan_review_crashes _ [JObj fs] fs); [reflexivity|reflexivity|left; reflexivity|left; reflexivity].
Defined.

End Profile.
