(* ===== verification/App.v ===== *)
(** The application shell, [src/src/App.tsx]: [App] puts [AuthProvider]
    (and [ThemeProvider], which only styles) around [AppContent], which
    renders the navigation bar above the route table.

    [app] is the browser's location with the session store.  Every event
    is followed by the render it causes: when [ProtectedRoute] renders
    [<Navigate to="/login" />], react-router moves the location before
    anything else happens ([follow_redirect]).  The events are a visit of
    a path (a link, a typed URL, or a page's [navigate]), a click on a
    button of the bar, a login or signup (their pages are not under src/,
    so only the store's operation is modelled) and a reload of the page. *)

From stdpp Require Import base list strings gmap.
From S2P Require Import Prelude JsValue Api Session Routes Navbar.

Open Scope book_scope.

Module App.
Import Api Session Routes Navbar.

(** What [AppContent] shows, lines 17-55. *)
Record screen := mkScreen {
  sc_buttons : list nav_button;   (** [<Navbar />] *)
  sc_active : list nav_button;    (** the highlighted ones *)
  sc_page : render                (** [<Routes>] *)
}.

Definition AppContent (c : auth_ctx) (pathname : string) : screen :=
  mkScreen (navbar_buttons c) (active_buttons c pathname) (guard c pathname).

(** [App], lines 57-65: [AuthProvider] hands its store's context down. *)
Definition App (st : store) (pathname : string) : screen :=
  AppContent (ctx_of (st_session st)) pathname.

Record app := mkApp { a_store : store; a_path : string }.

(** A rendered [<Navigate>] moves the location. *)
Definition follow_redirect (a : app) : app :=
  match sc_page (App (a_store a) (a_path a)) with
  | RedirectTo p => mkApp (a_store a) p
  | _ => a
  end.

(** Where a handler's effects leave the location: its last navigation. *)
Definition last_navigation (effs : list nav_effect) : option string :=
  fold_left (fun acc e => match e with NavTo p => Some p | _ => acc end) effs None.

Inductive app_event :=
| AVisit (path : string)
| AClick (b : nav_button)
| ALogin (email password : string) (fr : fetch_result)
| ASignup (name email password : string) (fr : fetch_result)
| AReload.

Definition app_step (a : app) (ev : app_event) : option app :=
  let st := a_store a in
  match ev with
  | AVisit p => Some (follow_redirect (mkApp st p))
  | AClick b =>
      if bool_decide (b ∈ sc_buttons (App st (a_path a))) then
        let effs := on_click b in
        Some (follow_redirect (mkApp (fst (run_effects st effs))
                                     (default (a_path a) (last_navigation effs))))
      else None
  | ALogin e p fr => Some (follow_redirect (mkApp (fst (login st e p fr)) (a_path a)))
  | ASignup n e p fr => Some (follow_redirect (mkApp (fst (signup st n e p fr)) (a_path a)))
  | AReload => Some (follow_redirect (mkApp (restore (st_storage st)) (a_path a)))
  end.

(** The page is opened at some location with whatever storage holds. *)
Inductive app_reachable : app -> Prop :=
| app_open storage p : app_reachable (follow_redirect (mkApp (restore storage) p))
| app_next a ev a' : app_reachable a -> app_step a ev = Some a' -> app_reachable a'.

(** ** Lemmas *)

Lemma follow_redirect_store a : a_store (follow_redirect a) = a_store a.
Proof. unfold follow_redirect. by case_match. Qed.

(** After [follow_redirect] the screen shows no [<Navigate>]. *)
Lemma follow_redirect_settled a q :
  sc_page (App (a_store (follow_redirect a)) (a_path (follow_redirect a))) <> RedirectTo q.
Proof.
  unfold follow_redirect, App, AppContent. cbn [sc_page].
  destruct (guard _ (a_path a)) as [r|p|] eqn:E; cbn [a_store a_path sc_page]; rewrite ?E; try discriminate.
  by rewrite (redirect_target_renders _ _ _ E).
Qed.

Lemma follow_redirect_id a :
  (forall q, sc_page (App (a_store a) (a_path a)) <> RedirectTo q) -> follow_redirect a = a.
Proof.
  unfold follow_redirect. intros H. destruct (sc_page _) eqn:E; [done|exfalso; by apply (H path)|done].
Qed.

(** A handler of the bar leaves the store as it was, or logged out. *)
Lemma run_effects_store st b :
  fst (run_effects st (on_click b)) = st \/ fst (run_effects st (on_click b)) = logout st.
Proof. destruct b; cbn; auto. Qed.

Lemma app_step_store a ev a' :
  app_step a ev = Some a' -> a_store a' = a_store a \/ exists sev, a_store a' = session_step (a_store a) sev.
Proof.
  destruct ev as [p|b|e p fr|n e p fr|]; cbn; intros Hs.
  - injection Hs as <-. left. by rewrite follow_redirect_store.
  - case_bool_decide; [|discriminate]. injection Hs as <-. rewrite follow_redirect_store. cbn.
    destruct (run_effects_store (a_store a) b) as [-> | ->]; [by left|right; by exists ELogout].
  - injection Hs as <-. right. exists (ELogin e p fr). by rewrite follow_redirect_store.
  - injection Hs as <-. right. exists (ESignup n e p fr). by rewrite follow_redirect_store.
  - injection Hs as <-. right. exists ERestart. by rewrite follow_redirect_store.
Qed.

Lemma app_reachable_store a : app_reachable a -> reachable (a_store a).
Proof.
  induction 1 as [storage p|a ev a' _ Hr Hs]; [rewrite follow_redirect_store; constructor|].
  destruct (app_step_store a ev a' Hs) as [-> | [sev ->]]; [done|by constructor].
Qed.

(** Every reachable state is what a render left after its redirect. *)
Lemma app_reachable_followed a : app_reachable a -> exists a0, a = follow_redirect a0.
Proof.
  induction 1 as [storage p|a ev a' _ _ Hs]; [by eexists|].
  destruct ev; cbn in Hs; repeat case_match; simplify_eq; by eexists.
Qed.

(** A protected page on screen means an authenticated session. *)
Lemma guard_render_protected st p r :
  sc_page (App st p) = Render r -> is_protected r = true -> isAuthenticated (st_session st) = true.
Proof.
  unfold App, AppContent, guard, element, ProtectedRoute. cbn.
  destruct (match_path p) as [r0|]; [|discriminate]. intros Hg Hp.
  destruct (is_protected r0) eqn:E0; [by destruct (isAuthenticated _)|].
  injection Hg as <-. congruence.
Qed.

(** ** Properties *)

(** C37: every state the app reaches is settled: no [<Navigate>] is left
    on screen, a protected page is shown only to an authenticated
    session, and reloading the page changes nothing (the store restored
    from local storage is the store in memory, and the location is
    already where every redirect led), so the same bar and page show. *)
Theorem app_reachable_settled (a : app) :
  app_reachable a ->
  (forall q, sc_page (App (a_store a) (a_path a)) <> RedirectTo q) /\
  (forall r, sc_page (App (a_store a) (a_path a)) = Render r -> is_protected r = true ->
             isAuthenticated (st_session (a_store a)) = true) /\
  app_step a AReload = Some a.
Proof.
  intros Ha. pose proof (app_reachable_store a Ha) as Hr.
  assert (Hp : forall q, sc_page (App (a_store a) (a_path a)) <> RedirectTo q)
    by (destruct (app_reachable_followed a Ha) as [a0 ->]; apply follow_redirect_settled).
  split; [done|]. split; [apply guard_render_protected|].
  destruct (reachable_inv _ Hr) as [Hwf Hs]. cbn. rewrite restore_synced by done.
  destruct a as [st p]. by rewrite follow_redirect_id.
Qed.

Lemma app_reachable_settled_witness :
  let a := follow_redirect (mkApp (restore ∅) "/profile") in
  a_path a = "/login" /\ sc_page (App (a_store a) (a_path a)) = Render RLogin /\
  app_step a AReload = Some a.
Proof.
  cbv zeta. split; [reflexivity|]. split; [reflexivity|].
  apply (app_reachable_settled _ (app_open ∅ "/profile")).
Defined.

End App.
